(** * BBHNet data pipeline: batch synthesis and whitening

    A shallow embedding of
      - [libs/data/bbhnet/data/dataloader.py]   (module [Dataloader]),
      - [libs/data/bbhnet/data/transforms/whitening.py] (module [Whitening]),
      - [libs/trainer/bbhnet/trainer/trainer.py]  (module [Trainer]),
    over a small model of the Python, numpy and torch operations the
    files call (modules [Py] and [Np]), followed by what is proved of them.

    Conventions of the embedding:
      - a Python [int] is a [Z], a Python [float] is a binary64 [float];
      - numpy arrays and torch tensors are one type, [ndarray]: a shape and
        an indexing function; their element arithmetic (float32 or float64,
        with an unspecified summation order) is kept abstract in the class
        [Numeric];
      - a Python exception is a value of [exn]; a computation that may raise
        and that reads or writes state is a function [S -> result A * S],
        so that the state reached when the exception is raised is kept;
      - numpy's global random generator is the list of the raw draws it
        still has to hand out;
      - the signal processing of scipy and gwpy (spectral estimates, filter
        design) is a parameter of the definitions that call it, and so are
        the calls of the trainer on the torch model, optimizer and
        profiler; what the sources do with the values these calls return
        is modelled;
      - a loop over an iterator takes a bound on its turns, and returns
        nothing when the bound is used up. *)

From Stdlib Require Import String List ZArith Lia Bool Arith PeanoNat Floats.
Import ListNotations.

Set Implicit Arguments.

(* ================================================================== *)
(** ** Python values, exceptions and the state-and-exception monad     *)
(* ================================================================== *)

Module Py.

Inductive exn : Type :=
| AssertionError
| AttributeError
| IndexError
| KeyError
| NotImplementedError
| OSError
| OverflowError
| RuntimeError
| StopIteration
| TypeError
| ValueError
| ZeroDivisionError.

Inductive result (A : Type) : Type :=
| Ok (a : A)
| Raise (e : exn).

Arguments Ok {A} a.
Arguments Raise {A} e.

Definition is_ok {A} (r : result A) : bool :=
  match r with Ok _ => true | Raise _ => false end.

(** Statements of a method body: they run in sequence on a state [S]; a
    raised exception skips what follows and leaves the state as it was
    when it was raised. *)
Definition M (S A : Type) : Type := S -> result A * S.

Definition ret {S A} (a : A) : M S A := fun s => (Ok a, s).

Definition raise {S A} (e : exn) : M S A := fun s => (Raise e, s).

Definition bind {S A B} (c : M S A) (k : A -> M S B) : M S B :=
  fun s =>
    match c s with
    | (Ok a, s') => k a s'
    | (Raise e, s') => (Raise e, s')
    end.

Definition lift {S A} (r : result A) : M S A := fun s => (r, s).

Definition get {S} : M S S := fun s => (Ok s, s).

Definition put {S} (s : S) : M S unit := fun _ => (Ok tt, s).

(** Reading an attribute that may not have been assigned. *)
Definition getattr {S A} (o : option A) : M S A :=
  match o with
  | Some v => ret v
  | None => raise AttributeError
  end.

(** [assert c]. *)
Definition assert {S} (c : bool) : M S unit :=
  if c then ret tt else raise AssertionError.

Declare Scope py_scope.
Delimit Scope py_scope with py.

Notation "x <- c1 ;; c2" := (bind c1 (fun x => c2))
  (at level 100, c1 at next level, right associativity) : py_scope.
Notation "c1 ;;; c2" := (bind c1 (fun _ => c2))
  (at level 100, right associativity) : py_scope.

Open Scope py_scope.

(** [for x in l: body(x)], collecting what the body appends. *)
Fixpoint for_each {S A B} (body : A -> M S B) (l : list A) : M S (list B) :=
  match l with
  | [] => ret []
  | x :: l' =>
      y <- body x ;;
      ys <- for_each body l' ;;
      ret (y :: ys)
  end.

(** The same over results without state. *)
Definition rbind {A B} (r : result A) (k : A -> result B) : result B :=
  match r with
  | Ok a => k a
  | Raise e => Raise e
  end.

(* ------------------------------------------------------------------ *)
(** *** Slices                                                         *)
(* ------------------------------------------------------------------ *)

(** The position a slice bound [i] denotes in a sequence of length [n]:
    a negative bound counts from the end, and both are clipped. *)
Definition clamp_index (n : nat) (i : Z) : nat :=
  if (i <? 0)%Z then Z.to_nat (Z.max (i + Z.of_nat n) 0)
  else Nat.min (Z.to_nat i) n.

(** [lo, hi) of [seq[start:stop]]; an omitted bound is [None]. *)
Definition slice_bounds (n : nat) (start stop : option Z) : nat * nat :=
  let lo := match start with None => 0 | Some i => clamp_index n i end in
  let hi := match stop with None => n | Some j => clamp_index n j end in
  (lo, Nat.max lo hi).

(** An integer subscript [seq[i]]. *)
Definition subscript (n : nat) (i : Z) : result nat :=
  let j := if (i <? 0)%Z then (i + Z.of_nat n)%Z else i in
  if ((0 <=? j) && (j <? Z.of_nat n))%Z then Ok (Z.to_nat j)
  else Raise IndexError.

(* ------------------------------------------------------------------ *)
(** *** Floats                                                         *)
(* ------------------------------------------------------------------ *)

(** [int(x)] of a float: truncation toward zero. *)
Definition int_of_float (x : float) : result Z :=
  match Prim2SF x with
  | S754_zero _ => Ok 0%Z
  | S754_finite s m e =>
      let v := if (0 <=? e)%Z then (Z.pos m * 2 ^ e)%Z
               else (Z.pos m / 2 ^ (- e))%Z in
      Ok (if s then (- v)%Z else v)
  | S754_infinity _ => Raise OverflowError
  | S754_nan => Raise ValueError
  end.

(** [a <= x <= b], a chained comparison. *)
Definition between (a x b : float) : bool :=
  ((a <=? x) && (x <=? b))%float.

(** The float nearest to an [int]. *)
Definition float_of_int (z : Z) : result float :=
  let x := SF2Prim (binary_normalize prec emax z 0 false) in
  if is_infinity x then Raise OverflowError else Ok x.

(** [x / y] of two floats. *)
Definition truediv (x y : float) : result float :=
  if (y =? 0)%float then Raise ZeroDivisionError else Ok (x / y)%float.

(* ------------------------------------------------------------------ *)
(** *** numpy.random                                                   *)
(* ------------------------------------------------------------------ *)

(** The generator: the raw draws it still has to hand out (then zeros). *)
Definition rng : Type := list nat.

Definition raw (g : rng) : nat * rng :=
  match g with
  | [] => (0, [])
  | r :: g' => (r, g')
  end.

(** [np.random.randint(high)]: an integer of [0, high). *)
Definition randint (high : Z) (g : rng) : result Z * rng :=
  if (high <=? 0)%Z then (Raise ValueError, g)
  else let (r, g') := raw g in (Ok (Z.of_nat r mod high)%Z, g').

Fixpoint remove_nth {A} (i : nat) (l : list A) : list A :=
  match l, i with
  | [], _ => []
  | _ :: l', 0 => l'
  | x :: l', S i' => x :: remove_nth i' l'
  end.

(** [n] draws without replacement from [population]. *)
Fixpoint draw_distinct (n : nat) (population : list Z) (g : rng)
  : list Z * rng :=
  match n with
  | 0 => ([], g)
  | S n' =>
      match population with
      | [] => ([], g)
      | _ =>
          let (r, g1) := raw g in
          let i := r mod length population in
          let (xs, g2) := draw_distinct n' (remove_nth i population) g1 in
          (nth i population 0%Z :: xs, g2)
      end
  end.

Definition arange (a : Z) : list Z := map Z.of_nat (seq 0 (Z.to_nat a)).

(** [np.random.choice(a, size=size, replace=False)] for an integer [a]. *)
Definition choice (a size : Z) (g : rng) : result (list Z) * rng :=
  if ((a <=? 0) && negb (size =? 0))%Z then (Raise ValueError, g)
  else if (a <? size)%Z then (Raise ValueError, g)
  else if (size <? 0)%Z then (Raise ValueError, g)
  else let (xs, g') := draw_distinct (Z.to_nat size) (arange a) g in
       (Ok xs, g').

End Py.

(* ================================================================== *)
(** ** n-dimensional arrays (numpy arrays and torch tensors)           *)
(* ================================================================== *)

Module Np.
Import Py.

(** The arithmetic of array elements. Nothing is assumed of it: what is
    proved below holds for any floating-point format and any order of
    summation. *)
Class Numeric (R : Type) : Type := {
  zero : R;
  one : R;
  sub : R -> R -> R;
  mul : R -> R -> R;
  (** the mean of the elements met along one axis, in index order *)
  mean_of : list R -> R;
  (** the multiply-accumulate of one output sample of a convolution *)
  dot : list R -> list R -> R;
  (** an element times a Python scalar *)
  times : float -> R -> R;
  (** [torch.hann_window(n)[i]] *)
  hann_coeff : nat -> nat -> R
}.

Section Arrays.
Context {R : Type} {NR : Numeric R}.

Record ndarray : Type := { shape : list nat; item : list nat -> R }.

Definition ndim (a : ndarray) : nat := length (shape a).

(** [len(a)]. *)
Definition len (a : ndarray) : result nat :=
  match shape a with
  | [] => Raise TypeError
  | d :: _ => Ok d
  end.

(** [a.shape[-1]]. *)
Definition shape_last (a : ndarray) : result nat :=
  match rev (shape a) with
  | [] => Raise IndexError
  | d :: _ => Ok d
  end.

(** The elements of a one-dimensional array, in order. *)
Definition to_list (a : ndarray) : list R :=
  match shape a with
  | [n] => map (fun i => item a [i]) (seq 0 n)
  | _ => []
  end.

(** [zeros((n,))]. *)
Definition zeros1 (n : Z) : result ndarray :=
  if (n <? 0)%Z then Raise RuntimeError
  else Ok {| shape := [Z.to_nat n]; item := fun _ => zero |}.

(** [a[i]] for an integer [i]. *)
Definition index0 (a : ndarray) (i : Z) : result ndarray :=
  match shape a with
  | [] => Raise IndexError
  | d :: s =>
      rbind (subscript d i) (fun j =>
      Ok {| shape := s; item := fun idx => item a (j :: idx) |})
  end.

(** [a[start:stop]]. *)
Definition slice0 (a : ndarray) (start stop : option Z) : result ndarray :=
  match shape a with
  | [] => Raise IndexError
  | d :: s =>
      let (lo, hi) := slice_bounds d start stop in
      Ok {| shape := (hi - lo) :: s;
            item := fun idx =>
                      match idx with
                      | [] => item a []
                      | i :: r => item a ((lo + i) :: r)
                      end |}
  end.

(** [a[:, start:stop]]. *)
Definition slice1 (a : ndarray) (start stop : option Z) : result ndarray :=
  match shape a with
  | d0 :: d1 :: s =>
      let (lo, hi) := slice_bounds d1 start stop in
      Ok {| shape := d0 :: (hi - lo) :: s;
            item := fun idx =>
                      match idx with
                      | i :: j :: r => item a (i :: (lo + j) :: r)
                      | _ => item a idx
                      end |}
  | _ => Raise IndexError
  end.

(** [a[i, start:stop]]. *)
Definition getitem_i_slice (a : ndarray) (i start stop : Z)
  : result ndarray :=
  match shape a with
  | _ :: _ :: _ =>
      rbind (index0 a i) (fun row => slice0 row (Some start) (Some stop))
  | _ => Raise IndexError
  end.

(** [a[i, :, start:stop]]. *)
Definition getitem_i_all_slice (a : ndarray) (i start stop : Z)
  : result ndarray :=
  match shape a with
  | _ :: _ :: _ :: _ =>
      rbind (index0 a i) (fun row => slice1 row (Some start) (Some stop))
  | _ => Raise IndexError
  end.

(** [a[:, None]]. *)
Definition insert_axis1 (a : ndarray) : result ndarray :=
  match shape a with
  | [] => Raise IndexError
  | d :: s =>
      Ok {| shape := d :: 1 :: s;
            item := fun idx =>
                      match idx with
                      | i :: _ :: r => item a (i :: r)
                      | _ => item a idx
                      end |}
  end.

Definition shape_eqb (s1 s2 : list nat) : bool :=
  if list_eq_dec Nat.eq_dec s1 s2 then true else false.

(** [stack(arrays)] along a new first axis; [empty] and [mismatch] are the
    exceptions of the library at hand (numpy raises [ValueError] for both,
    torch [RuntimeError]). *)
Definition stack_with (empty mismatch : exn) (arrays : list ndarray)
  : result ndarray :=
  match arrays with
  | [] => Raise empty
  | a :: rest =>
      if forallb (fun b => shape_eqb (shape b) (shape a)) rest
      then Ok {| shape := length arrays :: shape a;
                 item := fun idx =>
                           match idx with
                           | [] => item a []
                           | i :: r => item (nth i arrays a) r
                           end |}
      else Raise mismatch
  end.

Definition np_stack := stack_with ValueError ValueError.
Definition torch_stack := stack_with RuntimeError RuntimeError.

(** An element of the sequence handed to [torch.cat]: a tensor, or a
    Python list of tensors. *)
Inductive pyobj : Type :=
| Tensor (a : ndarray)
| PyList (l : list ndarray).

Definition as_tensor (o : pyobj) : result ndarray :=
  match o with
  | Tensor a => Ok a
  | PyList _ => Raise TypeError
  end.

Fixpoint as_tensors (l : list pyobj) : result (list ndarray) :=
  match l with
  | [] => Ok []
  | o :: l' =>
      rbind (as_tensor o) (fun a =>
      rbind (as_tensors l') (fun r => Ok (a :: r)))
  end.

(** Where row [i] of a concatenation lies: the operand and the row in it. *)
Fixpoint locate (arrays : list ndarray) (dflt : ndarray) (i : nat)
  : ndarray * nat :=
  match arrays with
  | [] => (dflt, i)
  | a :: rest =>
      let d := hd 0 (shape a) in
      if i <? d then (a, i) else locate rest dflt (i - d)
  end.

(** [torch.cat(tensors, axis=0)]: every element must be a tensor, there
    must be one at least, none of dimension zero, and all must agree on
    the axes after the first. *)
Definition torch_cat (tensors : list pyobj) : result ndarray :=
  rbind (as_tensors tensors) (fun arrays =>
  match arrays with
  | [] => Raise RuntimeError
  | a :: rest =>
      if forallb (fun b => negb (ndim b =? 0)) arrays
         && forallb (fun b => shape_eqb (tl (shape b)) (tl (shape a))) rest
      then Ok {| shape := fold_right (fun b n => hd 0 (shape b) + n) 0 arrays
                          :: tl (shape a);
                 item := fun idx =>
                           match idx with
                           | [] => item a []
                           | i :: r =>
                               let (b, j) := locate arrays a i in
                               item b (j :: r)
                           end |}
      else Raise RuntimeError
  end).

(* ------------------------------------------------------------------ *)
(** *** Axes: transposition and reduction                              *)
(* ------------------------------------------------------------------ *)

(** The list [l] with the entries at positions [i] and [j] exchanged. *)
Definition swap {A} (dflt : A) (i j : nat) (l : list A) : list A :=
  map (fun p => nth (if p =? i then j else if p =? j then i else p) l dflt)
      (seq 0 (length l)).

(** [a.transpose(i, j)]. *)
Definition transpose (a : ndarray) (i j : nat) : result ndarray :=
  if (i <? ndim a) && (j <? ndim a)
  then Ok {| shape := swap 0 i j (shape a);
             item := fun idx => item a (swap 0 i j idx) |}
  else Raise IndexError.

Fixpoint insert_at {A} (p : nat) (x : A) (l : list A) : list A :=
  match p, l with
  | 0, _ => x :: l
  | S p', [] => [x]
  | S p', y :: l' => y :: insert_at p' x l'
  end.

(** [a.mean(axis=ax)] for [0 <= ax < a.ndim]. *)
Definition mean_axis (a : ndarray) (ax : nat) : result ndarray :=
  if ax <? ndim a
  then Ok {| shape := remove_nth ax (shape a);
             item := fun idx =>
                       mean_of (map (fun k => item a (insert_at ax k idx))
                                    (seq 0 (nth ax (shape a) 0))) |}
  else Raise IndexError.

(** [a.mean(axis=-1)]. *)
Definition mean_last (a : ndarray) : result ndarray :=
  match ndim a with
  | 0 => Raise IndexError
  | S n => mean_axis a n
  end.

(* ------------------------------------------------------------------ *)
(** *** Broadcasting                                                   *)
(* ------------------------------------------------------------------ *)

(** Shapes are aligned on their last axis: both arguments are reversed. *)
Fixpoint broadcast_rev (s1 s2 : list nat) : option (list nat) :=
  match s1, s2 with
  | [], s => Some s
  | s, [] => Some s
  | d1 :: r1, d2 :: r2 =>
      match broadcast_rev r1 r2 with
      | None => None
      | Some r =>
          if d1 =? d2 then Some (d1 :: r)
          else if d1 =? 1 then Some (d2 :: r)
          else if d2 =? 1 then Some (d1 :: r)
          else None
      end
  end.

Definition broadcast_shapes (s1 s2 : list nat) : option (list nat) :=
  option_map (@rev nat) (broadcast_rev (rev s1) (rev s2)).

Fixpoint bidx_rev (s idx : list nat) : list nat :=
  match s, idx with
  | d :: s', i :: idx' => (if d =? 1 then 0 else i) :: bidx_rev s' idx'
  | _, _ => []
  end.

(** The index into an operand of shape [s] that the index [idx] of the
    broadcast result reads. *)
Definition bidx (s idx : list nat) : list nat :=
  rev (bidx_rev (rev s) (rev idx)).

(** [a op b], elementwise. *)
Definition elementwise (op : R -> R -> R) (a b : ndarray) : result ndarray :=
  match broadcast_shapes (shape a) (shape b) with
  | None => Raise RuntimeError
  | Some s =>
      Ok {| shape := s;
            item := fun idx => op (item a (bidx (shape a) idx))
                                  (item b (bidx (shape b) idx)) |}
  end.

(** [a op= b]: the result must fit the array it is written to. *)
Definition inplace (op : R -> R -> R) (a b : ndarray) : result ndarray :=
  match broadcast_shapes (shape a) (shape b) with
  | None => Raise RuntimeError
  | Some s =>
      if shape_eqb s (shape a)
      then Ok {| shape := shape a;
                 item := fun idx => op (item a idx)
                                       (item b (bidx (shape b) idx)) |}
      else Raise RuntimeError
  end.

(** [a * x] for a Python scalar [x]. *)
Definition scale (a : ndarray) (x : float) : ndarray :=
  {| shape := shape a; item := fun idx => times x (item a idx) |}.

(** [torch.hann_window(n)]. *)
Definition hann_window (n : Z) : result ndarray :=
  if (n <? 0)%Z then Raise RuntimeError
  else Ok {| shape := [Z.to_nat n];
             item := fun idx => hann_coeff (Z.to_nat n) (hd 0 idx) |}.

(* ------------------------------------------------------------------ *)
(** *** Assignment to a part of an array                               *)
(* ------------------------------------------------------------------ *)

(** [a[start:stop] = x] for a scalar [x]. *)
Definition setitem_slice_scalar (a : ndarray) (start stop : option Z) (x : R)
  : result ndarray :=
  match shape a with
  | [] => Raise IndexError
  | d :: _ =>
      let (lo, hi) := slice_bounds d start stop in
      Ok {| shape := shape a;
            item := fun idx =>
                      match idx with
                      | [] => item a idx
                      | i :: _ =>
                          if (lo <=? i) && (i <? hi) then x else item a idx
                      end |}
  end.

(** [a[start:stop, c] = v]: [v] is broadcast to the shape of the part
    written. *)
Definition setitem_slice_col (a : ndarray) (start stop : option Z) (c : Z)
  (v : ndarray) : result ndarray :=
  match shape a with
  | d0 :: d1 :: s =>
      rbind (subscript d1 c) (fun j =>
      let (lo, hi) := slice_bounds d0 start stop in
      let target := (hi - lo) :: s in
      match broadcast_shapes target (shape v) with
      | None => Raise RuntimeError
      | Some t =>
          if shape_eqb t target
          then Ok {| shape := shape a;
                     item := fun idx =>
                               match idx with
                               | i :: c' :: r =>
                                   if (lo <=? i) && (i <? hi) && (c' =? j)
                                   then item v (bidx (shape v) ((i - lo) :: r))
                                   else item a idx
                               | _ => item a idx
                               end |}
          else Raise RuntimeError
      end)
  | _ => Raise IndexError
  end.

(* ------------------------------------------------------------------ *)
(** *** Convolution                                                    *)
(* ------------------------------------------------------------------ *)

(** Sample [t] of row [b], channel [c] of the input once it is padded
    with [left] zeros before its [K] samples, and zeros after. *)
Definition padded (x : list nat -> R) (b c K left t : nat) : R :=
  if (left <=? t) && (t <? left + K) then x [b; c; t - left] else zero.

(** [torch.nn.functional.conv1d(input, weight, groups=groups,
    padding="same")]: [input] is (batch, channels, length), [weight] is
    (out_channels, channels / groups, taps); of the [taps - 1] zeros added,
    half (rounded down) come before the input. *)
Definition conv1d_same (input weight : ndarray) (groups : Z)
  : result ndarray :=
  match shape input, shape weight with
  | [B; C; K], [Co; Ci; W] =>
      let G := Z.to_nat groups in
      if (0 <? groups)%Z && (C mod G =? 0) && (Co mod G =? 0)
         && (Ci =? C / G) && (1 <=? W)
      then Ok {| shape := [B; Co; K];
                 item := fun idx =>
                   match idx with
                   | [b; o; k] =>
                       let g := o / (Co / G) in
                       dot (flat_map (fun i =>
                              map (fun j => item weight [o; i; j]) (seq 0 W))
                              (seq 0 Ci))
                           (flat_map (fun i =>
                              map (fun j => padded (item input) b (g * Ci + i)
                                                   K ((W - 1) / 2) (k + j))
                                  (seq 0 W))
                              (seq 0 Ci))
                   | _ => zero
                   end |}
      else Raise RuntimeError
  | _, _ => Raise RuntimeError
  end.

End Arrays.

Arguments ndarray R : clear implicits.
Arguments pyobj R : clear implicits.

End Np.

(* ================================================================== *)
(** ** dataloader.py                                                   *)
(* ================================================================== *)

Module Dataloader.
Import Py Np.

Definition DEFAULT_FFTLENGTH : float := 2.

(** The arguments of [RandomWaveformDataset.__init__] ([device] apart). *)
Module Args.
Record t : Type := {
  hanford_background : string;
  livingston_background : string;
  kernel_length : float;
  sample_rate : float;
  batch_size : Z;
  batches_per_epoch : Z;
  waveform_dataset : option string;
  waveform_frac : float;
  glitch_dataset : option string;
  glitch_frac : float
}.
End Args.

Section RandomWaveformDataset.
Context {R : Type} {NR : Numeric R}.

(** An HDF5 file is its named arrays; the files are found by path. *)
Definition h5file : Type := string -> option (ndarray R).
Definition filesystem : Type := string -> option h5file.

(** [h5py.File(path, "r")]; the state is the list of the files opened so
    far, the latest first. *)
Definition h5py_File (fs : filesystem) (path : string)
  : M (list string) h5file :=
  fun opened =>
    match fs path with
    | Some f => (Ok f, path :: opened)
    | None => (Raise OSError, path :: opened)
    end.

(** [f[name][:]]. *)
Definition h5_read (f : h5file) (name : string) : result (ndarray R) :=
  match f name with
  | Some a => Ok a
  | None => Raise KeyError
  end.

(** The calls of scipy and gwpy in [_build_filter]. *)
Record filter_design : Type := {
  (** [signal.welch(timeseries, fs=sample_rate, nperseg=nfft,
      scaling="density", average="median")]: the tuple [(f, Pxx)] of the
      sample frequencies and of the power spectral density *)
  signal_welch : ndarray R -> float -> Z -> result (ndarray R * ndarray R);
  (** [fir_from_transfer(1 / asd, ntaps=nfft, window="hanning",
      ncorner=0)], from [asd] and [nfft] *)
  fir_from_transfer : ndarray R -> Z -> result (ndarray R)
}.

Variable design : filter_design.

(** [t ** x] for the tuple [t] that [signal.welch] returns: a tuple has no
    [__pow__], and the [__rpow__] of a float takes no tuple. *)
Definition tuple_pow (t : ndarray R * ndarray R) (x : float)
  : result (ndarray R) :=
  Raise TypeError.

(** Lines 12-24. *)
Definition _build_filter (timeseries : ndarray R) (sample_rate : float)
  : result (ndarray R) :=
  rbind (int_of_float (DEFAULT_FFTLENGTH * sample_rate)) (fun nfft =>
  rbind (signal_welch design timeseries sample_rate nfft) (fun spectrum =>
  rbind (tuple_pow spectrum 0.5) (fun asd =>
  fir_from_transfer design asd nfft))).

(** The attributes of a [RandomWaveformDataset]. An attribute that only
    some paths of [__init__] or only [__iter__] assigns is an [option]:
    [None] when no statement has assigned it yet. [waveforms] is always
    assigned, and its [None] is Python's [None]; so is the inner [None] of
    [glitches]. *)
Record RandomWaveformDataset : Type := {
  hanford_background : ndarray R;
  livingston_background : ndarray R;
  whitening_filter : ndarray R;
  whitening_scale : float;
  waveforms : option (ndarray R);
  glitches : option (option (ndarray R));
  hanford_glitches : option (ndarray R);
  livingston_glitches : option (ndarray R);
  num_waveforms : Z;
  num_glitches : Z;
  kernel_size : Z;
  batch_size : Z;
  batches_per_epoch : Z;
  _batch_idx : option Z
}.

(** What [__init__] has assigned when it reaches line 107. *)
Record loaded : Type := {
  l_hanford_background : ndarray R;
  l_livingston_background : ndarray R;
  l_whitening_filter : ndarray R;
  l_whitening_scale : float;
  l_waveforms : option (ndarray R);
  l_glitches : option (option (ndarray R));
  l_hanford_glitches : option (ndarray R);
  l_livingston_glitches : option (ndarray R)
}.

(** Lines 42-50: the checks of the two fractions. *)
Definition check_fractions (a : Args.t) : M (list string) unit :=
  assert (between 0 (Args.waveform_frac a) 1) ;;;
  assert (between 0 (Args.glitch_frac a) 1) ;;;
  assert (Args.waveform_frac a + Args.glitch_frac a <=? 1)%float.

(** Lines 52-78: the background of each detector, its filter, and the
    check that the two backgrounds have one length. *)
Definition load_background (fs : filesystem) (a : Args.t)
  : M (list string) (ndarray R * ndarray R * ndarray R * float) :=
  f <- h5py_File fs (Args.hanford_background a) ;;
  hanford_bkgrd <- lift (h5_read f "hoft") ;;
  hanford_filter <- lift (_build_filter hanford_bkgrd (Args.sample_rate a)) ;;
  f <- h5py_File fs (Args.livingston_background a) ;;
  livingston_bkgrd <- lift (h5_read f "hoft") ;;
  livingston_filter <-
    lift (_build_filter livingston_bkgrd (Args.sample_rate a)) ;;
  stacked <- lift (np_stack [hanford_filter; livingston_filter]) ;;
  filter <- lift (insert_axis1 stacked) ;;
  q <- lift (truediv 2 (Args.sample_rate a)) ;;
  n_h <- lift (len hanford_bkgrd) ;;
  n_l <- lift (len livingston_bkgrd) ;;
  assert (n_h =? n_l) ;;;
  ret (hanford_bkgrd, livingston_bkgrd, filter, PrimFloat.sqrt q).

(** Lines 80-93: the waveforms, when a file of them is given. *)
Definition load_waveforms (fs : filesystem) (a : Args.t)
  : M (list string) (option (ndarray R)) :=
  match Args.waveform_dataset a with
  | Some path =>
      assert (0 <? Args.waveform_frac a)%float ;;;
      f <- h5py_File fs path ;;
      w <- lift (h5_read f "waveforms") ;;
      ret (Some w)
  | None =>
      assert (Args.waveform_frac a =? 0)%float ;;;
      ret None
  end.

(** Lines 95-105: the glitches, when a file of them is given. With a file
    the attributes assigned are [hanford_glitches] and
    [livingston_glitches]; without one, [glitches]. The source keeps the
    file's own handle of the livingston array; the model keeps the array. *)
Definition load_glitches (fs : filesystem) (a : Args.t)
  : M (list string)
      (option (option (ndarray R)) * option (ndarray R) * option (ndarray R)) :=
  match Args.glitch_dataset a with
  | Some path =>
      assert (0 <? Args.glitch_frac a)%float ;;;
      f <- h5py_File fs path ;;
      h <- lift (h5_read f "hanford") ;;
      l <- lift (h5_read f "livingston") ;;
      ret (None, Some h, Some l)
  | None =>
      assert (Args.glitch_frac a =? 0)%float ;;;
      ret (Some None, None, None)
  end.

(** Lines 42-105 of [__init__]. *)
Definition init_checks (fs : filesystem) (a : Args.t)
  : M (list string) loaded :=
  check_fractions a ;;;
  b <- load_background fs a ;;
  let '(hanford, livingston, filter, scale) := b in
  w <- load_waveforms fs a ;;
  g <- load_glitches fs a ;;
  let '(glitches, hanford_glitches, livingston_glitches) := g in
  ret {| l_hanford_background := hanford;
         l_livingston_background := livingston;
         l_whitening_filter := filter;
         l_whitening_scale := scale;
         l_waveforms := w;
         l_glitches := glitches;
         l_hanford_glitches := hanford_glitches;
         l_livingston_glitches := livingston_glitches |}.

(** [self.waveform_frac] and [self.glitch_frac]: the fractions are
    arguments of [__init__], and no statement assigns them to [self]. *)
Definition self_waveform_frac : result float := Raise AttributeError.
Definition self_glitch_frac : result float := Raise AttributeError.

(** Lines 107-114 of [__init__]. *)
Definition init_counts (a : Args.t) (p : loaded)
  : M (list string) RandomWaveformDataset :=
  wf <- lift self_waveform_frac ;;
  bs <- lift (float_of_int (Args.batch_size a)) ;;
  nw <- lift (int_of_float (wf * bs)) ;;
  gf <- lift self_glitch_frac ;;
  bs' <- lift (float_of_int (Args.batch_size a)) ;;
  ng <- lift (int_of_float (gf * bs')) ;;
  ks <- lift (int_of_float (Args.kernel_length a * Args.sample_rate a)) ;;
  ret {| hanford_background := l_hanford_background p;
         livingston_background := l_livingston_background p;
         whitening_filter := l_whitening_filter p;
         whitening_scale := l_whitening_scale p;
         waveforms := l_waveforms p;
         glitches := l_glitches p;
         hanford_glitches := l_hanford_glitches p;
         livingston_glitches := l_livingston_glitches p;
         num_waveforms := nw;
         num_glitches := ng;
         kernel_size := ks;
         batch_size := Args.batch_size a;
         batches_per_epoch := Args.batches_per_epoch a;
         _batch_idx := None |}.

Definition __init__ (fs : filesystem) (a : Args.t)
  : M (list string) RandomWaveformDataset :=
  p <- init_checks fs a ;;
  init_counts a p.

(* ------------------------------------------------------------------ *)
(** *** The methods                                                    *)
(* ------------------------------------------------------------------ *)

(** What a method call reads and writes: the object and numpy's global
    generator. *)
Record world : Type := {
  self : RandomWaveformDataset;
  np_random : rng
}.

Definition get_self : M world RandomWaveformDataset :=
  fun w => (Ok (self w), w).

Definition with_rng {A} (draw : rng -> result A * rng) : M world A :=
  fun w =>
    let (r, g) := draw (np_random w) in
    (r, {| self := self w; np_random := g |}).

Definition set_batch_idx (d : RandomWaveformDataset) (i : Z)
  : RandomWaveformDataset :=
  {| hanford_background := hanford_background d;
     livingston_background := livingston_background d;
     whitening_filter := whitening_filter d;
     whitening_scale := whitening_scale d;
     waveforms := waveforms d;
     glitches := glitches d;
     hanford_glitches := hanford_glitches d;
     livingston_glitches := livingston_glitches d;
     num_waveforms := num_waveforms d;
     num_glitches := num_glitches d;
     kernel_size := kernel_size d;
     batch_size := batch_size d;
     batches_per_epoch := batches_per_epoch d;
     _batch_idx := Some i |}.

(** Lines 116-118. The value returned is the object itself. *)
Definition __iter__ : M world unit :=
  fun w =>
    (Ok tt, {| self := set_batch_idx (self w) 0; np_random := np_random w |}).

(** Lines 132-135: the stretch [start:stop] of example [i]. *)
Definition stretch (array : ndarray R) (i start stop : Z)
  : result (ndarray R) :=
  if ndim array =? 2
  then getitem_i_slice array i start stop
  else getitem_i_all_slice array i start stop.

(** Lines 130-135: one turn of the loop of [sample_from_array]. *)
Definition sample_one (array : ndarray R) (i : Z) : M world (ndarray R) :=
  d <- get_self ;;
  last <- lift (shape_last array) ;;
  start <- with_rng (randint (Z.of_nat last - kernel_size d)) ;;
  let stop := (start + kernel_size d)%Z in
  lift (stretch array i start stop).

(** Lines 120-138. *)
Definition sample_from_array (array : ndarray R) (N : Z)
  : M world (list (ndarray R)) :=
  n <- lift (len array) ;;
  idx <- with_rng (choice (Z.of_nat n) N) ;;
  for_each (sample_one array) idx.

(** Lines 141-153 of [sample_from_background]: the start offsets of the
    two detectors. *)
Definition background_starts (independent : bool)
  : M world (list Z * list Z) :=
  d <- get_self ;;
  n_h <- lift (len (hanford_background d)) ;;
  hanford_start <-
    with_rng (choice (Z.of_nat n_h - kernel_size d) (batch_size d)) ;;
  livingston_start <-
    (if independent
     then n_l <- lift (len (livingston_background d)) ;;
          with_rng (choice (Z.of_nat n_l - kernel_size d) (batch_size d))
     else ret hanford_start) ;;
  ret (hanford_start, livingston_start).

(** Lines 156-162: the list [X] of two-element lists. *)
Fixpoint background_windows (d : RandomWaveformDataset)
  (starts : list (Z * Z)) : result (list (pyobj R)) :=
  match starts with
  | [] => Ok []
  | (h_idx, l_idx) :: rest =>
      rbind (slice0 (hanford_background d) (Some h_idx)
                    (Some (h_idx + kernel_size d)%Z)) (fun hanford =>
      rbind (slice0 (livingston_background d) (Some l_idx)
                    (Some (l_idx + kernel_size d)%Z)) (fun livingston =>
      rbind (background_windows d rest) (fun X =>
      Ok (PyList [hanford; livingston] :: X))))
  end.

(** Lines 140-166. *)
Definition sample_from_background (independent : bool)
  : M world (ndarray R) :=
  starts <- background_starts independent ;;
  d <- get_self ;;
  X <- lift (background_windows d (combine (fst starts) (snd starts))) ;;
  lift (torch_cat X).

(** Lines 168-170. *)
Definition inject_waveforms (background : ndarray R)
  (waveforms : list (ndarray R)) : M world unit :=
  raise NotImplementedError.

(** [torch.functional.conv1d]: the convolutions of torch are attributes of
    [torch.nn.functional]; [torch.functional] has none. *)
Definition torch_functional_conv1d
  : result (ndarray R -> ndarray R -> Z -> result (ndarray R)) :=
  Raise AttributeError.

(** Lines 172-177. *)
Definition whiten (X : ndarray R) : M world (ndarray R) :=
  d <- get_self ;;
  m <- lift (mean_last X) ;;
  X <- lift (elementwise sub X m) ;;
  conv1d <- lift torch_functional_conv1d ;;
  X <- lift (conv1d X (whitening_filter d) 2%Z) ;;
  ret (scale X (whitening_scale d)).

(** Lines 190-214 of [__next__]: the glitches. *)
Definition glitch_step (X : ndarray R) : M world (ndarray R) :=
  d <- get_self ;;
  g <- getattr (glitches d) ;;
  match g with
  | None => ret X
  | Some _ =>
      num_hanford <- with_rng (randint (num_glitches d)) ;;
      let num_livingston := (num_glitches d - num_hanford)%Z in
      pool <- getattr (hanford_glitches d) ;;
      hanford <- sample_from_array pool num_hanford ;;
      v <- lift (torch_stack hanford) ;;
      X <- lift (setitem_slice_col X None (Some num_hanford) 0 v) ;;
      pool <- getattr (livingston_glitches d) ;;
      livingston <- sample_from_array pool num_livingston ;;
      v <- lift (torch_stack livingston) ;;
      X <- lift (setitem_slice_col X (Some num_hanford)
                                   (Some (num_glitches d)) 1 v) ;;
      ret X
  end.

(** Lines 216-223 of [__next__]: the waveforms and the labels. *)
Definition waveform_step (X y : ndarray R)
  : M world (ndarray R * ndarray R) :=
  d <- get_self ;;
  match waveforms d with
  | None => ret (X, y)
  | Some pool =>
      sampled <- sample_from_array pool (num_waveforms d) ;;
      background <- lift (slice0 X (Some (- num_waveforms d)%Z) None) ;;
      inject_waveforms background sampled ;;;
      y <- lift (setitem_slice_scalar y (Some (- num_waveforms d)%Z) None
                                      one) ;;
      ret (X, y)
  end.

(** Lines 179-226. *)
Definition __next__ : M world (ndarray R * ndarray R) :=
  d <- get_self ;;
  idx <- getattr (_batch_idx d) ;;
  if (batches_per_epoch d <=? idx)%Z then raise StopIteration
  else
    X <- sample_from_background true ;;
    y <- lift (zeros1 (batch_size d)) ;;
    X <- glitch_step X ;;
    Xy <- waveform_step X y ;;
    X <- whiten (fst Xy) ;;
    ret (X, snd Xy).

(** [n] successive calls of [next()] by a consumer that goes on after an
    exception: what each call returned or raised, and the state left. *)
Fixpoint next_calls (n : nat) (w : world)
  : list (result (ndarray R * ndarray R)) * world :=
  match n with
  | 0 => ([], w)
  | S n' =>
      let (r, w1) := __next__ w in
      let (rs, w2) := next_calls n' w1 in
      (r :: rs, w2)
  end.

End RandomWaveformDataset.

Arguments RandomWaveformDataset R : clear implicits.
Arguments loaded R : clear implicits.
Arguments world R : clear implicits.
Arguments filesystem R : clear implicits.
Arguments h5file R : clear implicits.
Arguments filter_design R : clear implicits.

End Dataloader.

(* ================================================================== *)
(** ** transforms/whitening.py                                         *)
(* ================================================================== *)

Module Whitening.
Import Py Np.

Definition DEFAULT_FFTLENGTH : float := 2.

Section WhiteningTransform.
Context {R : Type} {NR : Numeric R}.

(** The attributes of a [WhiteningTransform]. *)
Record WhiteningTransform : Type := {
  num_ifos : Z;
  sample_rate : float;
  kernel_length : float;
  fftlength : float;
  time_domain_filter : ndarray R;
  window : ndarray R
}.

(** [Transform.add_parameter], of the base class
    [bbhnet.data.transforms.Transform], which is not among the sources:
    from an array to the parameter that holds it. *)
Variable add_parameter : ndarray R -> result (ndarray R).

(** Modelled from the spec: [Transform.set_value], of the same base class,
    is not among the sources either. By the spec (4.2), "re-fitting
    overwrites the filter in place": the parameter takes the value given. *)
Definition set_value (parameter data : ndarray R) : result (ndarray R) :=
  Ok data.

(** [gwpy]: [TimeSeries(value, dt=dt).asd(fftlength=fftlength,
    window="hanning", method="median")]. *)
Variable gwpy_asd : ndarray R -> float -> float -> result (ndarray R).

(** [gwpy]: [asd.interpolate(df).value] followed by
    [fir_from_transfer(1 / asd, ntaps=ntaps, window="hanning", ncorner=0)]. *)
Variable gwpy_fir : ndarray R -> float -> Z -> result (ndarray R).

(** [x ** y] of two floats when it is a float, the power function of the
    C library. (Of a negative [x] and a fractional [y] Python makes a
    complex number.) *)
Variable float_pow : float -> float -> float.

(** [np.zeros(shape, dtype)] called with an [int] where numpy expects the
    data type. *)
Definition np_zeros_int_dtype (shape dtype : Z) : result (ndarray R) :=
  Raise TypeError.

(** Lines 12-29. *)
Definition __init__ (num_ifos : Z) (sample_rate kernel_length fftlength : float)
  : result WhiteningTransform :=
  rbind (int_of_float (fftlength * sample_rate)) (fun n =>
  rbind (np_zeros_int_dtype num_ifos n) (fun z =>
  rbind (add_parameter z) (fun filter =>
  rbind (int_of_float (fftlength * sample_rate)) (fun n' =>
  rbind (hann_window n') (fun w =>
  Ok {| num_ifos := num_ifos;
        sample_rate := sample_rate;
        kernel_length := kernel_length;
        fftlength := fftlength;
        time_domain_filter := filter;
        window := w |}))))).

(** [a.shape[0]]. *)
Definition shape0 (a : ndarray R) : result nat :=
  match shape a with
  | [] => Raise IndexError
  | d :: _ => Ok d
  end.

Definition set_time_domain_filter (t : WhiteningTransform) (p : ndarray R)
  : WhiteningTransform :=
  {| num_ifos := num_ifos t;
     sample_rate := sample_rate t;
     kernel_length := kernel_length t;
     fftlength := fftlength t;
     time_domain_filter := p;
     window := window t |}.

(** Lines 55-65: the filter of one background. *)
Definition fit_one (t : WhiteningTransform) (ntaps : Z)
  (background : ndarray R) : result (ndarray R) :=
  rbind (truediv 1 (sample_rate t)) (fun dt =>
  rbind (gwpy_asd background dt (fftlength t)) (fun asd =>
  rbind (truediv 1 (kernel_length t)) (fun df =>
  gwpy_fir asd df ntaps))).

(** Lines 40-68; the state is the object. *)
Definition fit (backgrounds : list (ndarray R)) : M WhiteningTransform unit :=
  t <- get ;;
  rows <- lift (shape0 (time_domain_filter t)) ;;
  if negb (List.length backgrounds =? rows) then raise ValueError
  else
    ntaps <- lift (int_of_float (fftlength t * sample_rate t)) ;;
    tdfs <- for_each (fun background => lift (fit_one t ntaps background))
                     backgrounds ;;
    tdf <- lift (np_stack tdfs) ;;
    p <- lift (set_value (time_domain_filter t) tdf) ;;
    put (set_time_domain_filter t p).

(** Lines 76-78: the constant detrend along the time axis. *)
Definition detrend (X : ndarray R) : result (ndarray R) :=
  rbind (transpose X 2 0) (fun X1 =>
  rbind (mean_axis X1 0) (fun m =>
  rbind (elementwise sub X1 m) (fun X2 =>
  transpose X2 0 2))).

(** Line 79: [X *= self.window]. *)
Definition apply_window (t : WhiteningTransform) (X : ndarray R)
  : result (ndarray R) :=
  inplace mul X (window t).

(** Lines 70-92. *)
Definition forward (t : WhiteningTransform) (X : ndarray R)
  : result (ndarray R) :=
  rbind (detrend X) (fun X1 =>
  rbind (apply_window t X1) (fun X2 =>
  rbind (conv1d_same X2 (time_domain_filter t) (num_ifos t)) (fun X3 =>
  rbind (truediv 2 (sample_rate t)) (fun q =>
  Ok (scale X3 (float_pow q 0.5)))))).

(** [int(self.fftlength * self.sample_rate)], the number of taps of the
    filter and of samples of the window. *)
Definition ntaps_of (t : WhiteningTransform) : result Z :=
  int_of_float (fftlength t * sample_rate t).

End WhiteningTransform.

Arguments WhiteningTransform R : clear implicits.

End Whitening.

(* ================================================================== *)
(** ** trainer.py                                                      *)
(* ================================================================== *)

Module Trainer.
Import Py Np.

(** A computation with a loop over an iterator, which the iterator may
    keep going for ever: [None] when the bound on the turns of its loops
    is used up. *)
Definition P (S A : Type) : Type := S -> option (result A * S).

Definition run {S A} (c : M S A) : P S A := fun s => Some (c s).

Definition pbind {S A B} (c : P S A) (k : A -> P S B) : P S B :=
  fun s =>
    match c s with
    | None => None
    | Some (Ok a, s') => k a s'
    | Some (Raise e, s') => Some (Raise e, s')
    end.

(** The iterator protocol: [__iter__] and [__next__], on the state [D] of
    the object iterated over and of what it draws from. *)
Record iterable (D X : Type) : Type := {
  iter_ : M D unit;
  next_ : M D X
}.

(** [for x in it: body], once [iter()] has returned [it]. The local
    variables the body assigns are [acc]. The loop ends when [next()]
    raises [StopIteration]; any other exception, and any exception of the
    body, leaves the loop and the function. *)
Fixpoint for_in {S X A} (bound : nat) (next : M S X)
  (body : X -> A -> M S A) (acc : A) : P S A :=
  fun s =>
    match bound with
    | 0 => None
    | S bound' =>
        match next s with
        | (Ok x, s1) =>
            match body x acc s1 with
            | (Ok acc', s2) => for_in bound' next body acc' s2
            | (Raise e, s2) => Some (Raise e, s2)
            end
        | (Raise StopIteration, s1) => Some (Ok acc, s1)
        | (Raise e, s1) => Some (Raise e, s1)
        end
    end.

Section Training.
Context {R : Type} {NR : Numeric R}.

(** [T]: the state of the torch objects (model, optimizer, criterion,
    scaler, profiler, the weights on disk); [D]: the state of the datasets
    and of the generator they draw from; [L]: the loss tensors. *)
Variables T D L : Type.

(** The calls of torch, each a computation on [T]. *)
Record torch_calls : Type := {
  (** [model.train()] and [model.eval()] *)
  model_train : M T unit;
  model_eval : M T unit;
  (** [optimizer.zero_grad(set_to_none=True)] *)
  zero_grad : M T unit;
  (** lines 35-38: the loss of a batch, under [torch.autocast] *)
  autocast_loss : ndarray R -> ndarray R -> M T L;
  (** lines 82-84: the loss of a batch, under [torch.no_grad] *)
  no_grad_loss : ndarray R -> ndarray R -> M T L;
  (** [loss.item()] *)
  loss_item : L -> result float;
  (** lines 44-46: [scaler.scale(loss).backward()], [scaler.step],
      [scaler.update] *)
  scaler_step : L -> M T unit;
  (** lines 48-49: [loss.backward()], [optimizer.step()] *)
  backward_step : L -> M T unit;
  (** [profiler.start()] of a new profiler, [profiler.step()],
      [profiler.stop()] *)
  profiler_start : M T unit;
  profiler_step : M T unit;
  profiler_stop : M T unit;
  (** [lr_scheduler.step(valid_loss)] *)
  lr_scheduler_step : float -> M T unit;
  (** [torch.save(model.state_dict(), weights_path)] *)
  torch_save : M T unit
}.

(** What a call of the trainer reads and writes: the torch objects, the
    datasets, and the clock: the readings [time.time()] still has to
    return (then zeros). *)
Record session : Type := {
  torch_objects : T;
  datasets : D;
  clock : list float
}.

Definition on_torch {A} (c : M T A) : M session A :=
  fun s =>
    let (r, t) := c (torch_objects s) in
    (r, {| torch_objects := t; datasets := datasets s; clock := clock s |}).

Definition on_data {A} (c : M D A) : M session A :=
  fun s =>
    let (r, d) := c (datasets s) in
    (r, {| torch_objects := torch_objects s; datasets := d;
           clock := clock s |}).

Definition time_time : M session float :=
  fun s =>
    match clock s with
    | [] => (Ok 0%float, s)
    | t :: rest =>
        (Ok t, {| torch_objects := torch_objects s; datasets := datasets s;
                  clock := rest |})
    end.

(** A batch: [samples, targets]. *)
Definition batch : Type := (ndarray R * ndarray R)%type.

Variable torch : torch_calls.

Section TrainForOneEpoch.

Variable train_dataset : iterable D batch.
Variable valid_dataset : option (iterable D batch).
(** [profiler is not None], [scaler is not None]. *)
Variables profiler scaler : bool.

(** Lines 32-52: the body of the training loop; [acc] is
    [(train_loss, samples_seen)]. *)
Definition train_batch (b : batch) (acc : float * Z) : M session (float * Z) :=
  on_torch (zero_grad torch) ;;;
  loss <- on_torch (autocast_loss torch (fst b) (snd b)) ;;
  x <- lift (loss_item torch loss) ;;
  let train_loss := (fst acc + x)%float in
  n <- lift (len (fst b)) ;;
  let samples_seen := (snd acc + Z.of_nat n)%Z in
  (if scaler then on_torch (scaler_step torch loss)
   else on_torch (backward_step torch loss)) ;;;
  (if profiler then on_torch (profiler_step torch) else ret tt) ;;;
  ret (train_loss, samples_seen).

(** Lines 54-60: duration, throughput and the loss per sample. *)
Definition epoch_metrics (start_time : float) (acc : float * Z)
  : M session (float * float * float) :=
  (if profiler then on_torch (profiler_stop torch) else ret tt) ;;;
  end_time <- time_time ;;
  let duration := (end_time - start_time)%float in
  n <- lift (float_of_int (snd acc)) ;;
  throughput <- lift (truediv n duration) ;;
  n' <- lift (float_of_int (snd acc)) ;;
  train_loss <- lift (truediv (fst acc) n') ;;
  ret (train_loss, duration, throughput).

(** Lines 82-87: the body of the validation loop; [acc] is
    [(valid_loss, samples_seen)]. *)
Definition valid_batch (b : batch) (acc : float * Z) : M session (float * Z) :=
  loss <- on_torch (no_grad_loss torch (fst b) (snd b)) ;;
  x <- lift (loss_item torch loss) ;;
  let valid_loss := (fst acc + x)%float in
  n <- lift (len (fst b)) ;;
  let samples_seen := (snd acc + Z.of_nat n)%Z in
  ret (valid_loss, samples_seen).

(** Lines 70-92. *)
Definition validate (bound : nat) : P session (option float) :=
  match valid_dataset with
  | Some v =>
      pbind (run (on_torch (model_eval torch) ;;; on_data (iter_ v)))
        (fun _ =>
      pbind (for_in bound (on_data (next_ v)) valid_batch (0%float, 0%Z))
        (fun acc =>
      run (n <- lift (float_of_int (snd acc)) ;;
           valid_loss <- lift (truediv (fst acc) n) ;;
           ret (Some valid_loss))))
  | None => run (ret None)
  end.

(** Lines 15-95. The result is
    [(train_loss, valid_loss, duration, throughput)]. *)
Definition train_for_one_epoch (bound : nat)
  : P session (float * option float * float * float) :=
  pbind (run (start_time <- time_time ;;
              on_torch (model_train torch) ;;;
              on_data (iter_ train_dataset) ;;;
              ret start_time))
    (fun start_time =>
  pbind (for_in bound (on_data (next_ train_dataset)) train_batch
                (0%float, 0%Z))
    (fun acc =>
  pbind (run (epoch_metrics start_time acc))
    (fun m =>
  pbind (validate bound)
    (fun valid_loss =>
  run (ret (fst (fst m), valid_loss, snd (fst m), snd m)))))).

End TrainForOneEpoch.

(* ------------------------------------------------------------------ *)
(** *** The loop of [train] (lines 310-372)                            *)
(* ------------------------------------------------------------------ *)

(** The local variables of the loop; [history] is the dictionary of the
    two lists, each in the order of its [append]s. *)
Record progress : Type := {
  best_valid_loss : float;
  since_last_improvement : Z;
  history_train_loss : list float;
  history_valid_loss : list float
}.

Section Train.

Variable train_dataset : iterable D batch.
Variable valid_dataset : iterable D batch.
(** [profile]; [patience is not None]; [early_stop]. *)
Variable profile : bool.
Variable patience : bool.
Variable early_stop : Z.

(** Lines 315-370, for the epochs still to run. A scaler is always
    handed to [train_for_one_epoch], and so is the validation set. *)
Fixpoint epochs (bound : nat) (todo : list Z) (p : progress)
  : P session progress :=
  match todo with
  | [] => run (ret p)
  | epoch :: rest =>
      let profiler := (epoch =? 0)%Z && profile in
      pbind (run (if profiler then on_torch (profiler_start torch)
                  else ret tt))
        (fun _ =>
      pbind (train_for_one_epoch train_dataset (Some valid_dataset)
               profiler true bound)
        (fun r =>
      let train_loss := fst (fst (fst r)) in
      let valid_loss := snd (fst (fst r)) in
      let trained := history_train_loss p ++ [train_loss] in
      match valid_loss with
      | Some v =>
          let validated := history_valid_loss p ++ [v] in
          pbind (run (if patience then on_torch (lr_scheduler_step torch v)
                      else ret tt))
            (fun _ =>
          if (v <? best_valid_loss p)%float
          then
            pbind (run (on_torch (torch_save torch)))
              (fun _ =>
            epochs bound rest
              {| best_valid_loss := v;
                 since_last_improvement := 0;
                 history_train_loss := trained;
                 history_valid_loss := validated |})
          else
            let since := (since_last_improvement p + 1)%Z in
            let p' := {| best_valid_loss := best_valid_loss p;
                         since_last_improvement := since;
                         history_train_loss := trained;
                         history_valid_loss := validated |} in
            if (early_stop <=? since)%Z then run (ret p')
            else epochs bound rest p')
      | None =>
          epochs bound rest
            {| best_valid_loss := best_valid_loss p;
               since_last_improvement := since_last_improvement p;
               history_train_loss := trained;
               history_valid_loss := history_valid_loss p |}
      end))
  end.

(** Lines 310-372: the loop over [range(max_epochs)] from its initial
    variables; the result is [history]. *)
Definition training_loop (max_epochs : Z) (bound : nat)
  : P session (list float * list float) :=
  pbind (epochs bound (arange max_epochs)
           {| best_valid_loss := infinity;
              since_last_improvement := 0;
              history_train_loss := [];
              history_valid_loss := [] |})
    (fun p => run (ret (history_train_loss p, history_valid_loss p))).

End Train.

End Training.

Arguments torch_calls R T L : clear implicits.
Arguments batch R : clear implicits.

(** A [RandomWaveformDataset] as the trainer iterates over it. *)
Definition dataset_iterable {R : Type} {NR : Numeric R}
  : iterable (Dataloader.world R) (batch R) :=
  {| iter_ := Dataloader.__iter__; next_ := Dataloader.__next__ |}.

End Trainer.

(* ================================================================== *)
(** ** Vocabulary of the statements                                    *)
(* ================================================================== *)

Section Outcomes.
Import Py.
Context {S : Type}.

(** A computation that never returns. *)
Definition never_ok {A} (c : M S A) : Prop :=
  forall s, is_ok (fst (c s)) = false.

(** A computation whose exceptions all satisfy [E]. *)
Definition raises_only {A} (E : exn -> Prop) (c : M S A) : Prop :=
  forall s e, fst (c s) = Raise e -> E e.

End Outcomes.

Section DatasetVocabulary.
Import Py Np Dataloader.
Context {R : Type} {NR : Numeric R}.

(** A computation that leaves the dataset object as it found it. *)
Definition keeps_self {A} (c : M (world R) A) : Prop :=
  forall w, self (snd (c w)) = self w.

(** The array of the given shape with every element [x]. *)
Definition full (s : list nat) (x : R) : ndarray R :=
  {| shape := s; item := fun _ => x |}.

(** The dataset of the spec's scenario: backgrounds of 4096 samples at
    1 Hz, a kernel of one sample, batches of 8 with a quarter of waveforms
    and no glitches; the pool holds four waveforms of three samples. *)
Definition scenario : RandomWaveformDataset R :=
  {| hanford_background := full [4096] zero;
     livingston_background := full [4096] zero;
     whitening_filter := full [2; 1; 2] one;
     whitening_scale := PrimFloat.sqrt 2;
     waveforms := Some (full [4; 2; 3] one);
     glitches := Some None;
     hanford_glitches := None;
     livingston_glitches := None;
     num_waveforms := 2;
     num_glitches := 0;
     kernel_size := 1;
     batch_size := 8;
     batches_per_epoch := 1;
     _batch_idx := None |}.

(** A fraction below 0, above 1, or that is not a number. *)
Definition outside_unit (f : float) : bool :=
  ((f <? 0) || (1 <? f) || is_nan f)%float.

(** The configurations the first checks are to refuse: a fraction outside
    [0, 1], or fractions that add up to more than 1. *)
Definition bad_fractions (a : Args.t) : bool :=
  outside_unit (Args.waveform_frac a)
  || outside_unit (Args.glitch_frac a)
  || (1 <? Args.waveform_frac a + Args.glitch_frac a)%float.

(** A source given with a zero fraction, or a nonzero fraction without its
    source. *)
Definition source_mismatch (source : option string) (frac : float) : bool :=
  match source with
  | Some _ => (frac =? 0)%float
  | None => negb (frac =? 0)%float
  end.

(** The valid configurations of the spec (sections 3 and 7). *)
Definition valid_configuration (a : Args.t) : bool :=
  between 0 (Args.waveform_frac a) 1
  && between 0 (Args.glitch_frac a) 1
  && (Args.waveform_frac a + Args.glitch_frac a <=? 1)%float
  && negb (source_mismatch (Args.waveform_dataset a) (Args.waveform_frac a))
  && negb (source_mismatch (Args.glitch_dataset a) (Args.glitch_frac a)).

(** The file of a source, when one is named, exists and holds the arrays
    of these names. *)
Definition readable (fs : filesystem R) (source : option string)
  (names : list string) : bool :=
  match source with
  | None => true
  | Some path =>
      match fs path with
      | None => false
      | Some f =>
          forallb (fun name => match f name with
                               | Some _ => true
                               | None => false
                               end) names
      end
  end.

End DatasetVocabulary.

Section WhiteningVocabulary.
Import Py Np Whitening.
Context {R : Type} {NR : Numeric R}.



End WhiteningVocabulary.

Section TrainerVocabulary.
Import Py Np Trainer.

(** The iterator hands out [xs] and then raises [e]: the states it goes
    through, from [d] to [d']. *)
Inductive yields {D X : Type} (next : M D X)
  : D -> list X -> exn -> D -> Prop :=
| yields_end d e d' :
    next d = (Raise e, d') -> yields next d [] e d'
| yields_item d x d1 xs e d' :
    next d = (Ok x, d1) -> yields next d1 xs e d' ->
    yields next d (x :: xs) e d'.

(** What the trainer reads off a batch: the loss that [loss_of] computes
    of it (in some state of the torch objects) and the number of its
    samples. *)
Definition reads {R T L : Type} (loss_of : ndarray R -> ndarray R -> M T L)
  (item_of : L -> result float) (b : ndarray R * ndarray R)
  (o : float * nat) : Prop :=
  len (fst b) = Ok (snd o)
  /\ exists t loss t',
       loss_of (fst b) (snd b) t = (Ok loss, t') /\ item_of loss = Ok (fst o).

(** The sums the loops accumulate, in the order of the batches. *)
Definition total_loss (obs : list (float * nat)) : float :=
  fold_left (fun a o => (a + fst o)%float) obs 0%float.

Definition total_samples (obs : list (float * nat)) : Z :=
  fold_left (fun a o => (a + Z.of_nat (snd o))%Z) obs 0%Z.

(** A computation of the trainer that leaves the datasets and the clock
    alone. *)
Definition keeps_data {T D A : Type} (c : M (session T D) A) : Prop :=
  forall s, datasets (snd (c s)) = datasets s /\ clock (snd (c s)) = clock s.

(** What the loop of [train] maintains: [since_last_improvement] counts
    the validation losses recorded after the best one, none of the losses
    recorded is below the best, and every epoch has recorded both of its
    losses. *)
Definition tracks_best (p : progress) : Prop :=
  exists pre stale,
    history_valid_loss p = pre ++ stale
    /\ Z.of_nat (List.length stale) = since_last_improvement p
    /\ (best_valid_loss p = infinity \/ In (best_valid_loss p) pre)
    /\ (forall u, In u (history_valid_loss p) ->
          (u <? best_valid_loss p)%float = false)
    /\ List.length (history_valid_loss p)
       = List.length (history_train_loss p).

End TrainerVocabulary.

(* ================================================================== *)
(** ** Concrete objects                                                *)
(* ================================================================== *)

Module Examples.
Import Py Np.

(** Exact integers as array elements, to run the definitions on. *)
#[export] Instance Z_numeric : Numeric Z :=
  {| zero := 0%Z;
     one := 1%Z;
     sub := Z.sub;
     mul := Z.mul;
     mean_of := fun l => (fold_right Z.add 0 l / Z.of_nat (List.length l))%Z;
     dot := fun u v =>
              fold_right Z.add 0%Z
                         (map (fun p => (fst p * snd p)%Z) (combine u v));
     times := fun x r => match int_of_float x with
                         | Ok z => (z * r)%Z
                         | Raise _ => 0%Z
                         end;
     hann_coeff := fun n i => Z.of_nat (i * (n - i)) |}.

(** The array of the given shape whose element at an index is the number
    the index spells in base 10. *)
Definition ramp (s : list nat) : ndarray Z :=
  {| shape := s;
     item := fun idx => fold_left (fun acc i => (10 * acc + Z.of_nat i)%Z)
                                  idx 0%Z |}.

(** A dataset of two backgrounds of 16 samples, with a kernel of
    [kernel_size] samples and batches of 4. *)
Definition dataset (waveforms : option (ndarray Z))
  (glitches : option (option (ndarray Z)))
  (hanford_glitches livingston_glitches : option (ndarray Z))
  (num_waveforms num_glitches kernel_size : Z)
  : Dataloader.RandomWaveformDataset Z :=
  {| Dataloader.hanford_background := ramp [16];
     Dataloader.livingston_background := ramp [16];
     Dataloader.whitening_filter := ramp [2; 1; 4];
     Dataloader.whitening_scale := 1;
     Dataloader.waveforms := waveforms;
     Dataloader.glitches := glitches;
     Dataloader.hanford_glitches := hanford_glitches;
     Dataloader.livingston_glitches := livingston_glitches;
     Dataloader.num_waveforms := num_waveforms;
     Dataloader.num_glitches := num_glitches;
     Dataloader.kernel_size := kernel_size;
     Dataloader.batch_size := 4;
     Dataloader.batches_per_epoch := 2;
     Dataloader._batch_idx := Some 0%Z |}.

(** No source of waveforms nor of glitches. *)
Definition plain : Dataloader.world Z :=
  {| Dataloader.self := dataset None (Some None) None None 0 0 2;
     Dataloader.np_random := [5; 3; 8] |}.

(** A pool of waveforms and a fraction so small that no row of a batch of
    4 is to carry one. *)
Definition no_row_for_waveforms : Dataloader.world Z :=
  {| Dataloader.self :=
       dataset (Some (ramp [3; 2; 6])) (Some None) None None 0 0 2;
     Dataloader.np_random := [5; 3; 8] |}.

(** Pools of glitches for both detectors, two glitches to place, and
    [glitches] an object, as line 192 tests it. *)
Definition with_glitches : Dataloader.world Z :=
  {| Dataloader.self :=
       dataset None (Some (Some (ramp [1]))) (Some (ramp [3; 6]))
               (Some (ramp [3; 6])) 0 2 2;
     Dataloader.np_random := [1; 2; 3; 0; 1] |}.


Definition kernel_of_4 : Dataloader.world Z :=
  {| Dataloader.self := dataset None (Some None) None None 0 0 4;
     Dataloader.np_random := [7; 1; 4; 1] |}.

(** A file system with the backgrounds, waveforms and glitches. *)
Definition files : Dataloader.filesystem Z :=
  fun path =>
    if String.eqb path "H1.h5" then
      Some (fun name => if String.eqb name "hoft" then Some (ramp [16])
                        else None)
    else if String.eqb path "L1.h5" then
      Some (fun name => if String.eqb name "hoft" then Some (ramp [16])
                        else None)
    else if String.eqb path "waveforms.h5" then
      Some (fun name => if String.eqb name "waveforms"
                        then Some (ramp [3; 2; 6]) else None)
    else if String.eqb path "glitches.h5" then
      Some (fun name => if String.eqb name "hanford" then Some (ramp [3; 6])
                        else if String.eqb name "livingston"
                        then Some (ramp [3; 6]) else None)
    else None.

(** A spectral estimate that returns, with the [nfft / 2 + 1] frequencies
    of a segment of [nfft] samples, and a filter design that returns the
    taps it is asked for. *)
Definition flat_design : Dataloader.filter_design Z :=
  {| Dataloader.signal_welch := fun timeseries sample_rate nfft =>
       Ok (ramp [Z.to_nat (nfft / 2 + 1)], ramp [Z.to_nat (nfft / 2 + 1)]);
     Dataloader.fir_from_transfer := fun asd nfft =>
       Ok (ramp [Z.to_nat nfft]) |}.

Definition arguments (waveform_dataset : option string) (waveform_frac : float)
  (glitch_dataset : option string) (glitch_frac : float) : Dataloader.Args.t :=
  {| Dataloader.Args.hanford_background := "H1.h5";
     Dataloader.Args.livingston_background := "L1.h5";
     Dataloader.Args.kernel_length := 1;
     Dataloader.Args.sample_rate := 2;
     Dataloader.Args.batch_size := 4;
     Dataloader.Args.batches_per_epoch := 2;
     Dataloader.Args.waveform_dataset := waveform_dataset;
     Dataloader.Args.waveform_frac := waveform_frac;
     Dataloader.Args.glitch_dataset := glitch_dataset;
     Dataloader.Args.glitch_frac := glitch_frac |}.

(** A whitening transform of two detectors sampled at 4 Hz, with the
    window and the filter of [int(2 * 4) = 8] samples. *)
Definition whitener : Whitening.WhiteningTransform Z :=
  {| Whitening.num_ifos := 2;
     Whitening.sample_rate := 4;
     Whitening.kernel_length := 1;
     Whitening.fftlength := 2;
     Whitening.time_domain_filter := ramp [2; 8];
     Whitening.window := ramp [8] |}.

(** One sampled at 1 Hz with an [fftlength] of one second: a window of
    one sample, and one tap for each detector. *)
Definition whitener_1hz : Whitening.WhiteningTransform Z :=
  {| Whitening.num_ifos := 2;
     Whitening.sample_rate := 1;
     Whitening.kernel_length := 2;
     Whitening.fftlength := 1;
     Whitening.time_domain_filter := ramp [2; 1; 1];
     Whitening.window := ramp [1] |}.

Definition asd_of (value : ndarray Z) (dt fftlength : float)
  : result (ndarray Z) :=
  Ok value.

Definition fir_of (asd : ndarray Z) (df : float) (ntaps : Z)
  : result (ndarray Z) :=
  Ok (ramp [Z.to_nat ntaps]).

(** A design that returns no more taps than the four samples of the
    impulse response of a spectrum interpolated to one frequency in two. *)
Definition short_fir (asd : ndarray Z) (df : float) (ntaps : Z)
  : result (ndarray Z) :=
  Ok (ramp [Z.to_nat (Z.min ntaps 4)]).

Definition power (x y : float) : float := PrimFloat.sqrt x.


(** A dataset on which [iter()] has not been called yet, and one at the
    end of its epoch of two batches. *)
Definition unstarted : Dataloader.world Z :=
  {| Dataloader.self := scenario; Dataloader.np_random := [5; 3; 8] |}.

Definition exhausted : Dataloader.world Z :=
  {| Dataloader.self :=
       Dataloader.set_batch_idx (Dataloader.self plain) 2;
     Dataloader.np_random := [5; 3; 8] |}.

(** A Python list as an iterable: [iter()] makes an iterator of the whole
    list, [next()] hands out its elements; the state is what the iterator
    has still to hand out. *)
Definition list_iterable {X : Type} (l : list X)
  : Trainer.iterable (list X) X :=
  {| Trainer.iter_ := fun _ => (Ok tt, l);
     Trainer.next_ := fun rest =>
                        match rest with
                        | [] => (Raise StopIteration, [])
                        | x :: rest' => (Ok x, rest')
                        end |}.

(** Two iterables side by side, each on its half of the state. *)
Definition on_first {A B X : Type} (it : Trainer.iterable A X)
  : Trainer.iterable (A * B) X :=
  {| Trainer.iter_ := fun d => let (r, a) := Trainer.iter_ it (fst d) in
                               (r, (a, snd d));
     Trainer.next_ := fun d => let (r, a) := Trainer.next_ it (fst d) in
                               (r, (a, snd d)) |}.

Definition on_second {A B X : Type} (it : Trainer.iterable B X)
  : Trainer.iterable (A * B) X :=
  {| Trainer.iter_ := fun d => let (r, b) := Trainer.iter_ it (snd d) in
                               (r, (fst d, b));
     Trainer.next_ := fun d => let (r, b) := Trainer.next_ it (snd d) in
                               (r, (fst d, b)) |}.

(** A training set of two batches of two samples and a validation set of
    one batch of two. *)
Definition training_set : list (Trainer.batch Z) :=
  [(ramp [2; 2; 4], ramp [2]); (ramp [2; 2; 4], ramp [2])].

Definition validation_set : list (Trainer.batch Z) :=
  [(ramp [2; 2; 4], ramp [2])].

Definition lists : Type :=
  (list (Trainer.batch Z) * list (Trainer.batch Z))%type.

Definition train_list : Trainer.iterable lists (Trainer.batch Z) :=
  on_first (list_iterable training_set).

Definition valid_list : Trainer.iterable lists (Trainer.batch Z) :=
  on_second (list_iterable validation_set).

(** Torch objects whose state is the number of optimizer steps taken: the
    loss of every training batch is 1.5, that of every validation batch
    2. *)
Definition counting : Trainer.torch_calls Z nat float :=
  {| Trainer.model_train := ret tt;
     Trainer.model_eval := ret tt;
     Trainer.zero_grad := ret tt;
     Trainer.autocast_loss := fun _ _ => ret 1.5%float;
     Trainer.no_grad_loss := fun _ _ => ret 2%float;
     Trainer.loss_item := fun loss => Ok loss;
     Trainer.scaler_step := fun _ t => (Ok tt, S t);
     Trainer.backward_step := fun _ t => (Ok tt, S t);
     Trainer.profiler_start := ret tt;
     Trainer.profiler_step := ret tt;
     Trainer.profiler_stop := ret tt;
     Trainer.lr_scheduler_step := fun _ => ret tt;
     Trainer.torch_save := ret tt |}.

(** No step taken yet, no iterator made yet, and a clock that advances by
    one second at each reading. *)
Definition fresh : Trainer.session nat lists :=
  {| Trainer.torch_objects := 0;
     Trainer.datasets := ([], []);
     Trainer.clock := [0; 1; 2; 3; 4; 5; 6; 7]%float |}.

End Examples.

(* ================================================================== *)
(** ** Theorems                                                        *)
(* ================================================================== *)

Section FrameFacts.
Import Py Np Dataloader.
Context {R : Type} {NR : Numeric R}.

Lemma keeps_ret A (a : A) : keeps_self (ret a : M (world R) A).
Proof. intro w; reflexivity. Qed.

Lemma keeps_raise A e : keeps_self (raise e : M (world R) A).
Proof. intro w; reflexivity. Qed.

Lemma keeps_lift A (r : result A) : keeps_self (lift r : M (world R) A).
Proof. intro w; reflexivity. Qed.

Lemma keeps_getattr A (o : option A) :
  keeps_self (getattr o : M (world R) A).
Proof. intro w; destruct o; reflexivity. Qed.

Lemma keeps_get_self : keeps_self (get_self (R := R)).
Proof. intro w; reflexivity. Qed.

Lemma keeps_with_rng A (draw : rng -> result A * rng) :
  keeps_self (with_rng (R := R) draw).
Proof. intro w; unfold with_rng; destruct (draw (np_random w)); reflexivity. Qed.

Lemma keeps_bind A B (c : M (world R) A) (k : A -> M (world R) B) :
  keeps_self c -> (forall a, keeps_self (k a)) -> keeps_self (bind c k).
Proof.
  intros Hc Hk w. unfold bind.
  specialize (Hc w). destruct (c w) as [[a | e] w1]; simpl in *.
  - rewrite Hk. exact Hc.
  - exact Hc.
Qed.

Lemma keeps_for_each A B (body : A -> M (world R) B) l :
  (forall x, keeps_self (body x)) -> keeps_self (for_each body l).
Proof.
  intro Hb. induction l as [| x l IH]; simpl.
  - apply keeps_ret.
  - apply keeps_bind; [apply Hb |]. intro y.
    apply keeps_bind; [exact IH |]. intro ys. apply keeps_ret.
Qed.

Ltac keeps :=
  repeat match goal with
    | |- forall _, _ => intro
    | |- keeps_self (bind _ _) => apply keeps_bind
    | |- keeps_self (ret _) => apply keeps_ret
    | |- keeps_self (raise _) => apply keeps_raise
    | |- keeps_self (lift _) => apply keeps_lift
    | |- keeps_self (getattr _) => apply keeps_getattr
    | |- keeps_self get_self => apply keeps_get_self
    | |- keeps_self (with_rng _) => apply keeps_with_rng
    | |- keeps_self (for_each _ _) => apply keeps_for_each
    | |- keeps_self (let _ := _ in _) => cbv zeta
    | |- keeps_self (match ?x with _ => _ end) => destruct x
    end.

Lemma keeps_sample_from_array (array : ndarray R) N :
  keeps_self (sample_from_array array N).
Proof. unfold sample_from_array, sample_one. keeps. Qed.

Lemma keeps_sample_from_background b :
  keeps_self (sample_from_background (R := R) b).
Proof. unfold sample_from_background, background_starts. keeps. Qed.

Lemma keeps_glitch_step (X : ndarray R) : keeps_self (glitch_step X).
Proof.
  unfold glitch_step. keeps; apply keeps_sample_from_array.
Qed.

Lemma keeps_waveform_step (X y : ndarray R) :
  keeps_self (waveform_step X y).
Proof.
  unfold waveform_step, inject_waveforms. keeps; apply keeps_sample_from_array.
Qed.

Lemma keeps_whiten (X : ndarray R) : keeps_self (whiten X).
Proof. unfold whiten. keeps. Qed.

Lemma keeps_next : keeps_self (__next__ (R := R)).
Proof.
  unfold __next__. keeps.
  - apply keeps_sample_from_background.
  - apply keeps_glitch_step.
  - apply keeps_waveform_step.
  - apply keeps_whiten.
Qed.

End FrameFacts.

Section MonadFacts.
Import Py.
Context {S : Type}.

Lemma never_ok_bind_l A B (c : M S A) (k : A -> M S B) :
  never_ok c -> never_ok (bind c k).
Proof.
  intros Hc s. unfold bind. specialize (Hc s).
  destruct (c s) as [[a | e] s1]; simpl in *; [discriminate | reflexivity].
Qed.

Lemma never_ok_bind_r A B (c : M S A) (k : A -> M S B) :
  (forall a, never_ok (k a)) -> never_ok (bind c k).
Proof.
  intros Hk s. unfold bind.
  destruct (c s) as [[a | e] s1]; simpl; [apply Hk | reflexivity].
Qed.

Lemma raises_only_bind A B E (c : M S A) (k : A -> M S B) :
  raises_only E c -> (forall a, raises_only E (k a)) ->
  raises_only E (bind c k).
Proof.
  intros Hc Hk s e. unfold bind. specialize (Hc s).
  destruct (c s) as [[a | e1] s1]; simpl in *.
  - apply Hk.
  - intro H. inversion H; subst. apply Hc. reflexivity.
Qed.

Lemma raises_only_ret A E (a : A) : raises_only E (ret a : M S A).
Proof. intros s e H; discriminate H. Qed.

Lemma raises_only_lift A (E : exn -> Prop) (r : result A) :
  (forall e, r = Raise e -> E e) -> raises_only E (lift r : M S A).
Proof. intros H s e He. apply H. exact He. Qed.

End MonadFacts.

Section ExceptionFacts.
Import Py Np Dataloader.
Context {R : Type} {NR : Numeric R}.

Lemma len_raises (a : ndarray R) e : len a = Raise e -> e = TypeError.
Proof.
  unfold len. destruct (shape a); intro H; inversion H; reflexivity.
Qed.

Lemma choice_raises a size g e :
  fst (choice a size g) = Raise e -> e = ValueError.
Proof.
  unfold choice.
  destruct ((a <=? 0)%Z && negb (size =? 0)%Z);
    [intro H; inversion H; reflexivity |].
  destruct (a <? size)%Z; [intro H; inversion H; reflexivity |].
  destruct (size <? 0)%Z; [intro H; inversion H; reflexivity |].
  destruct (draw_distinct _ _ _); discriminate.
Qed.

Lemma with_rng_raises A (draw : rng -> result A * rng) (E : exn -> Prop) :
  (forall g e, fst (draw g) = Raise e -> E e) ->
  raises_only E (with_rng (R := R) draw).
Proof.
  intros H w e. unfold with_rng. specialize (H (np_random w)).
  destruct (draw (np_random w)) as [r g]; simpl in *. apply H.
Qed.

Lemma slice0_raises (a : ndarray R) start stop e :
  slice0 a start stop = Raise e -> e = IndexError.
Proof.
  unfold slice0. destruct (shape a).
  - intro H; inversion H; reflexivity.
  - destruct (slice_bounds _ _ _); discriminate.
Qed.

Lemma background_windows_raises (d : RandomWaveformDataset R) starts e :
  background_windows d starts = Raise e -> e = IndexError.
Proof.
  induction starts as [| [h l] rest IH]; simpl.
  - discriminate.
  - destruct (slice0 (hanford_background d) _ _) eqn:H1; simpl.
    + destruct (slice0 (livingston_background d) _ _) eqn:H2; simpl.
      * destruct (background_windows d rest); simpl; [discriminate |].
        intro H; inversion H; subst. apply IH; reflexivity.
      * intro H; inversion H; subst. eapply slice0_raises; eassumption.
    + intro H; inversion H; subst. eapply slice0_raises; eassumption.
Qed.

Lemma torch_cat_of_lists (d : RandomWaveformDataset R) starts X :
  background_windows d starts = Ok X ->
  torch_cat X = Raise (match X with [] => RuntimeError | _ => TypeError end).
Proof.
  destruct starts as [| [h l] rest]; simpl.
  - intro H; inversion H; reflexivity.
  - destruct (slice0 (hanford_background d) _ _); simpl; [| discriminate].
    destruct (slice0 (livingston_background d) _ _); simpl; [| discriminate].
    destruct (background_windows d rest); simpl; [| discriminate].
    intro H; inversion H; reflexivity.
Qed.

(** Lines 156-166: whatever the start offsets, [torch.cat] is handed a list
    of lists (or nothing) and raises. *)
Lemma cat_of_windows (d : RandomWaveformDataset R) starts :
  exists e, rbind (background_windows d starts) torch_cat = Raise e
            /\ In e [IndexError; RuntimeError; TypeError].
Proof.
  destruct (background_windows d starts) as [X | e] eqn:H; simpl.
  - rewrite (torch_cat_of_lists _ _ H).
    destruct X; eexists; (split; [reflexivity | simpl; tauto]).
  - apply background_windows_raises in H; subst.
    eexists; (split; [reflexivity | simpl; tauto]).
Qed.

Lemma background_starts_raises independent :
  raises_only (fun e => e <> StopIteration)
    (background_starts (R := R) independent).
Proof.
  unfold background_starts.
  repeat first
    [ apply raises_only_bind; [| intro]
    | apply raises_only_ret
    | match goal with
      | |- raises_only _ (if ?b then _ else _) => destruct b
      end ];
    try (intros w e H; discriminate H);
    try (apply raises_only_lift; intros e H; apply len_raises in H;
         subst; discriminate);
    try (apply with_rng_raises; intros g e H; apply choice_raises in H;
         subst; discriminate).
Qed.

(** Lines 140-166: [sample_from_background] returns no batch. *)
Lemma sample_from_background_fails independent (w : world R) :
  exists e, fst (sample_from_background independent w) = Raise e
            /\ e <> StopIteration.
Proof.
  unfold sample_from_background, bind.
  destruct (background_starts independent w) as [[starts | e] w1] eqn:Hs.
  - unfold get_self, lift.
    destruct (cat_of_windows (self w1) (combine (fst starts) (snd starts)))
      as [e [He Hin]].
    exists e. split.
    + destruct (background_windows (self w1) _); simpl in *; rewrite He;
        reflexivity.
    + simpl in Hin. intro; subst.
      destruct Hin as [H | [H | [H | []]]]; discriminate H.
  - exists e. split; [reflexivity |].
    apply (@background_starts_raises independent w).
    rewrite Hs. reflexivity.
Qed.

End ExceptionFacts.

Section EpochFacts.
Import Py Np Dataloader.
Context {R : Type} {NR : Numeric R}.

Lemma next_calls_keep_self n (w : world R) :
  self (snd (next_calls n w)) = self w.
Proof.
  revert w. induction n as [| n IH]; intro w; simpl.
  - reflexivity.
  - pose proof (keeps_next w) as Hk.
    destruct (__next__ w) as [r w1]. simpl in Hk.
    specialize (IH w1). destruct (next_calls n w1) as [rs w2]. simpl in *.
    congruence.
Qed.

(** Before the index has reached [batches_per_epoch], [next()] goes on to
    sample the background, and raises what that raises. *)
Lemma next_within_epoch (w : world R) i :
  _batch_idx (self w) = Some i ->
  (batches_per_epoch (self w) <=? i)%Z = false ->
  exists e, fst (__next__ w) = Raise e /\ e <> StopIteration.
Proof.
  intros Hi Hlt. unfold __next__, bind at 1, get_self. rewrite Hi.
  unfold bind at 1, getattr, ret. rewrite Hlt.
  unfold bind at 1.
  destruct (sample_from_background_fails true w) as [e [He Hne]].
  destruct (sample_from_background true w) as [r w1]; simpl in He; subst r.
  exists e. split; [reflexivity | exact Hne].
Qed.

Lemma next_at_end_of_epoch (w : world R) i :
  _batch_idx (self w) = Some i ->
  (batches_per_epoch (self w) <=? i)%Z = true ->
  __next__ w = (Raise StopIteration, w).
Proof.
  intros Hi Hge. unfold __next__, bind at 1, get_self. rewrite Hi.
  unfold bind at 1, getattr, ret. rewrite Hge. reflexivity.
Qed.

Lemma next_calls_no_stop n (w : world R) i :
  _batch_idx (self w) = Some i ->
  (batches_per_epoch (self w) <=? i)%Z = false ->
  Forall (fun r => r <> Raise StopIteration) (fst (next_calls n w)).
Proof.
  revert w. induction n as [| n IH]; intros w Hi Hlt; simpl.
  - constructor.
  - destruct (next_within_epoch w Hi Hlt) as [e [He Hne]].
    pose proof (keeps_next w) as Hk.
    destruct (__next__ w) as [r w1]. simpl in He, Hk. subst r.
    assert (Hi1 : _batch_idx (self w1) = Some i) by (rewrite Hk; exact Hi).
    assert (Hlt1 : (batches_per_epoch (self w1) <=? i)%Z = false)
      by (rewrite Hk; exact Hlt).
    specialize (IH w1 Hi1 Hlt1).
    destruct (next_calls n w1) as [rs w2]. simpl in *.
    constructor; [| exact IH]. intro H; inversion H; subst. apply Hne; reflexivity.
Qed.

Lemma next_never_ok : never_ok (__next__ (R := R)).
Proof.
  intro w. unfold __next__, bind at 1, get_self.
  unfold bind at 1, getattr.
  destruct (_batch_idx (self w)) as [i |]; [| reflexivity].
  unfold ret. destruct (batches_per_epoch (self w) <=? i)%Z; [reflexivity |].
  apply never_ok_bind_l. intro s.
  destruct (sample_from_background_fails true s) as [e [He _]].
  rewrite He. reflexivity.
Qed.

Lemma next_calls_never_ok n (w : world R) :
  Forall (fun r => is_ok r = false) (fst (next_calls n w)).
Proof.
  revert w. induction n as [| n IH]; intro w; simpl.
  - constructor.
  - pose proof (next_never_ok w) as Hn.
    destruct (__next__ w) as [r w1]. specialize (IH w1).
    destruct (next_calls n w1) as [rs w2]. simpl in *.
    constructor; assumption.
Qed.

(** C1 (code defect). [__next__] has no statement that assigns
    [_batch_idx]: after [__iter__] has set it to 0, it is still 0 after any
    number of calls of [next()], so that with [batches_per_epoch > 0] no
    call ever raises [StopIteration]; and no call returns a batch either
    (each raises the exception of [sample_from_background]). *)
Theorem next_never_advances_the_epoch (w : world R) (n : nat) :
  let w0 := snd (__iter__ w) in
  _batch_idx (self (snd (next_calls n w0))) = Some 0%Z
  /\ Forall (fun r => is_ok r = false) (fst (next_calls n w0))
  /\ (if (batches_per_epoch (self w) <=? 0)%Z then True
      else Forall (fun r => r <> Raise StopIteration) (fst (next_calls n w0))).
Proof.
  intro w0. split; [| split].
  - rewrite next_calls_keep_self. reflexivity.
  - apply next_calls_never_ok.
  - destruct (batches_per_epoch (self w) <=? 0)%Z eqn:Hb; [exact I |].
    apply (@next_calls_no_stop n w0 0%Z); [reflexivity | exact Hb].
Qed.

End EpochFacts.

Section RandomFacts.
Import Py.

Lemma remove_nth_In A (x : A) i l : In x (remove_nth i l) -> In x l.
Proof.
  revert i. induction l as [| y l IH]; intros i H; simpl in *.
  - destruct i; exact H.
  - destruct i as [| i]; [right; exact H |].
    destruct H as [H | H]; [left; exact H | right; eapply IH; exact H].
Qed.

Lemma remove_nth_length A i (l : list A) :
  i < List.length l -> List.length (remove_nth i l) = pred (List.length l).
Proof.
  revert i. induction l as [| y l IH]; intros i H; simpl in *.
  - lia.
  - destruct i as [| i]; [reflexivity |]. simpl. rewrite IH by lia. lia.
Qed.

Lemma remove_nth_NoDup A i (l : list A) : NoDup l -> NoDup (remove_nth i l).
Proof.
  revert i. induction l as [| y l IH]; intros i H; simpl.
  - destruct i; constructor.
  - inversion H; subst. destruct i as [| i]; [assumption |].
    constructor; [| apply IH; assumption].
    intro Hin. apply remove_nth_In in Hin. contradiction.
Qed.

Lemma nth_not_in_remove_nth A (d : A) i l :
  NoDup l -> i < List.length l -> ~ In (nth i l d) (remove_nth i l).
Proof.
  revert i. induction l as [| y l IH]; intros i H Hi; simpl in *.
  - lia.
  - inversion H; subst. destruct i as [| i]; [assumption |].
    simpl. intros [Heq | Hin].
    + apply H2. rewrite Heq. apply nth_In. lia.
    + apply (IH i); [assumption | lia | exact Hin].
Qed.

(** Draws without replacement are distinct members of the population, as
    many as asked for. *)
Lemma draw_distinct_spec n population g :
  NoDup population -> n <= List.length population ->
  List.length (fst (draw_distinct n population g)) = n
  /\ NoDup (fst (draw_distinct n population g))
  /\ (forall x, In x (fst (draw_distinct n population g)) ->
                In x population).
Proof.
  revert population g. induction n as [| n IH]; intros population g Hnd Hn.
  - simpl. repeat split; [constructor | intros x []].
  - simpl. destruct population as [| p0 rest] eqn:Hp; [simpl in Hn; lia |].
    rewrite <- Hp in *. destruct (raw g) as [r g1].
    set (i := r mod List.length population).
    assert (Hi : i < List.length population).
    { apply Nat.mod_upper_bound. rewrite Hp. discriminate. }
    specialize (IH (remove_nth i population) g1
                   (remove_nth_NoDup i Hnd)).
    rewrite remove_nth_length in IH by exact Hi.
    specialize (IH ltac:(lia)).
    destruct (draw_distinct n (remove_nth i population) g1) as [xs g2].
    simpl in *. destruct IH as [Hlen [Hnd' Hin]].
    repeat split.
    + rewrite Hlen. reflexivity.
    + constructor; [| exact Hnd'].
      intro Hx. apply Hin in Hx.
      exact (nth_not_in_remove_nth 0%Z Hnd Hi Hx).
    + intros x [Hx | Hx].
      * subst x. apply nth_In. exact Hi.
      * eapply remove_nth_In. apply Hin. exact Hx.
Qed.

Lemma arange_NoDup a : NoDup (arange a).
Proof.
  unfold arange. apply NoDup_map_NoDup_ForallPairs.
  - intros x y _ _ H. apply Nat2Z.inj. exact H.
  - apply seq_NoDup.
Qed.

Lemma arange_In a x : In x (arange a) <-> (0 <= x < a)%Z.
Proof.
  unfold arange. rewrite in_map_iff. split.
  - intros [k [Hk Hin]]. apply in_seq in Hin. subst. lia.
  - intros H. exists (Z.to_nat x). split; [lia |]. apply in_seq. lia.
Qed.

Lemma arange_length a : List.length (arange a) = Z.to_nat a.
Proof. unfold arange. rewrite length_map, length_seq. reflexivity. Qed.

(** [np.random.choice(a, size, replace=False)] raises exactly when more is
    asked than there is (or a negative number). *)
Lemma choice_ok_iff a size g :
  is_ok (fst (choice a size g)) = true <-> (0 <= size <= a)%Z.
Proof.
  unfold choice.
  destruct (a <=? 0)%Z eqn:H1; destruct (size =? 0)%Z eqn:H2; simpl;
    destruct (a <? size)%Z eqn:H3; simpl;
    try destruct (size <? 0)%Z eqn:H4; simpl;
    try destruct (draw_distinct _ _ _); simpl;
    split; intro H; try discriminate; try reflexivity; try lia.
Qed.

(** When it does not raise, it returns [size] distinct integers of [0, a). *)
Lemma choice_spec a size g :
  (0 <= size <= a)%Z ->
  exists xs g', choice a size g = (Ok xs, g')
    /\ List.length xs = Z.to_nat size
    /\ NoDup xs
    /\ (forall x, In x xs -> (0 <= x < a)%Z).
Proof.
  intro H. unfold choice.
  replace ((a <=? 0)%Z && negb (size =? 0)%Z) with false
    by (symmetry; destruct (a <=? 0)%Z eqn:H1; destruct (size =? 0)%Z eqn:H2;
        simpl; try reflexivity; lia).
  replace (a <? size)%Z with false by (symmetry; apply Z.ltb_ge; lia).
  replace (size <? 0)%Z with false by (symmetry; apply Z.ltb_ge; lia).
  pose proof (@draw_distinct_spec (Z.to_nat size) (arange a) g
                (arange_NoDup a)) as Hd.
  rewrite arange_length in Hd. specialize (Hd ltac:(lia)).
  destruct (draw_distinct (Z.to_nat size) (arange a) g) as [xs g'].
  simpl in Hd. destruct Hd as [Hl [Hn Hi]].
  exists xs, g'. split; [reflexivity |]. split; [exact Hl |].
  split; [exact Hn |]. intros x Hx. apply arange_In, Hi, Hx.
Qed.

Lemma randint_spec high g :
  (0 < high)%Z ->
  exists x g', randint high g = (Ok x, g') /\ (0 <= x < high)%Z.
Proof.
  intro H. unfold randint.
  replace (high <=? 0)%Z with false by (symmetry; apply Z.leb_gt; lia).
  destruct (raw g) as [r g']. eexists; eexists; split; [reflexivity |].
  apply Z.mod_pos_bound. exact H.
Qed.

Lemma randint_nonpositive high g :
  (high <= 0)%Z -> randint high g = (Raise ValueError, g).
Proof.
  intro H. unfold randint.
  replace (high <=? 0)%Z with true by (symmetry; apply Z.leb_le; lia).
  reflexivity.
Qed.

End RandomFacts.

Section PoolFacts.
Import Py Np Dataloader.
Context {R : Type} {NR : Numeric R}.

Lemma stretch_ok (array : ndarray R) P rest i start stop :
  shape array = P :: rest -> rest <> [] -> (0 <= i < Z.of_nat P)%Z ->
  exists seg, stretch array i start stop = Ok seg.
Proof.
  intros Hs Hr Hi. unfold stretch, ndim, getitem_i_slice,
    getitem_i_all_slice, index0, subscript. rewrite Hs.
  replace (i <? 0)%Z with false by (symmetry; apply Z.ltb_ge; lia).
  replace ((0 <=? i)%Z && (i <? Z.of_nat P)%Z) with true
    by (symmetry; apply andb_true_iff; split;
        [apply Z.leb_le | apply Z.ltb_lt]; lia).
  destruct rest as [| d1 rest]; [congruence |]. simpl.
  destruct rest as [| d2 rest]; simpl.
  - unfold slice0, slice_bounds; simpl. eexists; reflexivity.
  - unfold slice1, slice_bounds; simpl. eexists; reflexivity.
Qed.

(** The loop of [sample_from_array] on examples longer than the kernel:
    each turn draws its own start offset and crops one example. *)
Lemma sample_loop (array : ndarray R) P rest L K idx :
  shape array = P :: rest -> rest <> [] -> shape_last array = Ok L ->
  (K < Z.of_nat L)%Z ->
  (forall i, In i idx -> (0 <= i < Z.of_nat P)%Z) ->
  forall w, kernel_size (self w) = K ->
  exists starts segments w',
    for_each (sample_one array) idx w = (Ok segments, w')
    /\ self w' = self w
    /\ List.length starts = List.length idx
    /\ Forall (fun s => 0 <= s < Z.of_nat L - K)%Z starts
    /\ Forall2 (fun p seg => stretch array (fst p) (snd p) (snd p + K) = Ok seg)
               (combine idx starts) segments.
Proof.
  intros Hs Hr HL HK. induction idx as [| i idx IH]; intros Hidx w Hw.
  - exists [], [], w. simpl. repeat split; constructor.
  - simpl. unfold bind at 1. unfold sample_one at 1.
    unfold bind at 1, get_self. unfold bind at 1, lift at 1. rewrite HL.
    unfold bind at 1, with_rng. rewrite Hw.
    destruct (@randint_spec (Z.of_nat L - K) (np_random w) ltac:(lia))
      as [start [g' [Hr' Hstart]]].
    rewrite Hr'. cbv zeta.
    destruct (@stretch_ok array P rest i start (start + K)%Z Hs Hr
                (Hidx i (or_introl eq_refl))) as [seg Hseg].
    unfold lift. rewrite Hseg.
    destruct (IH (fun j Hj => Hidx j (or_intror Hj))
                 {| self := self w; np_random := g' |} Hw)
      as [starts [segs [w' [Hf [Hself [Hlen [Hin Hall]]]]]]].
    unfold bind at 1. rewrite Hf. unfold ret.
    exists (start :: starts), (seg :: segs), w'. simpl.
    repeat split; try assumption.
    + rewrite Hlen. reflexivity.
    + constructor; assumption.
    + constructor; assumption.
Qed.

End PoolFacts.

Section PoolTheorem.
Import Py Np Dataloader.
Context {R : Type} {NR : Numeric R}.

(** When no more is asked than the pool holds, and the examples are
    longer than the kernel, [sample_from_array] returns: the segments, the
    pool indices they come from and the start offsets they are cropped
    at. *)
Lemma sample_from_array_ok
  (w : world R) (array : ndarray R) (N : Z) (P L : nat) (rest : list nat) :
  shape array = P :: rest -> rest <> [] -> shape_last array = Ok L ->
  (kernel_size (self w) < Z.of_nat L)%Z -> (0 <= N <= Z.of_nat P)%Z ->
  exists idx starts segments,
    fst (sample_from_array array N w) = Ok segments
    /\ List.length idx = Z.to_nat N
    /\ NoDup idx
    /\ (forall i, In i idx -> (0 <= i < Z.of_nat P)%Z)
    /\ List.length starts = Z.to_nat N
    /\ Forall (fun s => 0 <= s < Z.of_nat L - kernel_size (self w))%Z starts
    /\ Forall2 (fun p seg =>
                  stretch array (fst p) (snd p)
                          (snd p + kernel_size (self w)) = Ok seg)
               (combine idx starts) segments.
Proof.
  intros Hs Hr HL HK HN.
  unfold sample_from_array, bind at 1, lift, len. rewrite Hs.
  unfold bind at 1, with_rng.
  destruct (@choice_spec (Z.of_nat P) N (np_random w) HN)
    as [idx [g' [Hc [Hlen [Hnd Hin]]]]].
  rewrite Hc.
  destruct (@sample_loop R array P rest L (kernel_size (self w)) idx
              Hs Hr HL HK Hin {| self := self w; np_random := g' |}
              eq_refl)
    as [starts [segs [w' [Hf [_ [Hl [Hst Hall]]]]]]].
  rewrite Hf. exists idx, starts, segs. simpl.
  repeat split; try assumption; try (apply Hin; assumption). congruence.
Qed.



End PoolTheorem.

Section FloatFacts.

Lemma SFcompare_antisym x y :
  SFcompare y x = option_map CompOpp (SFcompare x y).
Proof.
  destruct x as [sx | sx | | sx mx ex], y as [sy | sy | | sy my ey]; simpl;
    try reflexivity;
    try (destruct sx; reflexivity); try (destruct sy; reflexivity);
    try (destruct sx, sy; reflexivity).
  destruct sx, sy; simpl; try reflexivity;
    rewrite (Z.compare_antisym ex ey);
    destruct (ex ?= ey)%Z; simpl; try reflexivity;
    change (PosDef.Pos.compare_cont Eq my mx) with (Pos.compare my mx);
    change (PosDef.Pos.compare_cont Eq mx my) with (Pos.compare mx my);
    rewrite (Pos.compare_antisym mx my); reflexivity.
Qed.

Lemma ltb_leb_false (x y : float) :
  (x <? y)%float = true -> (y <=? x)%float = false.
Proof.
  rewrite FloatAxioms.ltb_spec, FloatAxioms.leb_spec. unfold SFltb, SFleb.
  rewrite (SFcompare_antisym (Prim2SF x) (Prim2SF y)).
  destruct (SFcompare (Prim2SF x) (Prim2SF y)) as [[| |] |]; simpl;
    intro H; try discriminate; reflexivity.
Qed.

Lemma eqb_ltb_false (x y : float) :
  (x =? y)%float = true -> (y <? x)%float = false.
Proof.
  rewrite FloatAxioms.eqb_spec, FloatAxioms.ltb_spec. unfold SFeqb, SFltb.
  rewrite (SFcompare_antisym (Prim2SF x) (Prim2SF y)).
  destruct (SFcompare (Prim2SF x) (Prim2SF y)) as [[| |] |]; simpl;
    intro H; try discriminate; reflexivity.
Qed.

Lemma leb_neq_ltb (x y : float) :
  (x <=? y)%float = true -> (y =? x)%float = false -> (x <? y)%float = true.
Proof.
  rewrite FloatAxioms.eqb_spec, FloatAxioms.ltb_spec, FloatAxioms.leb_spec.
  unfold SFeqb, SFltb, SFleb.
  rewrite (SFcompare_antisym (Prim2SF x) (Prim2SF y)).
  destruct (SFcompare (Prim2SF x) (Prim2SF y)) as [[| |] |]; simpl;
    intros H1 H2; try discriminate; reflexivity.
Qed.

(** A NaN compares with nothing, and it alone. *)
Lemma SFcompare_none x y :
  SFcompare x y = None <-> x = S754_nan \/ y = S754_nan.
Proof.
  split.
  - destruct x as [sx | sx | | sx mx ex], y as [sy | sy | | sy my ey]; simpl;
      auto; try (destruct sx; discriminate); try (destruct sy; discriminate);
      try (destruct sx, sy; discriminate);
      try (destruct sx, sy; try discriminate;
           destruct (ex ?= ey)%Z; try discriminate;
           destruct (PosDef.Pos.compare_cont Eq mx my); discriminate).
  - intros [-> | ->]; [reflexivity |]. destruct x; reflexivity.
Qed.

Lemma is_nan_spec (x : float) :
  is_nan x = true <-> Prim2SF x = S754_nan.
Proof.
  unfold is_nan. rewrite negb_true_iff, FloatAxioms.eqb_spec. unfold SFeqb.
  split.
  - intro H. destruct (SFcompare (Prim2SF x) (Prim2SF x)) as [c |] eqn:Hc.
    + destruct (Prim2SF x) as [s | s | | s m e]; simpl in Hc;
        try reflexivity; exfalso.
      * inversion Hc; subst; discriminate.
      * destruct s; inversion Hc; subst; discriminate.
      * destruct s; rewrite Z.compare_refl in Hc;
          change (PosDef.Pos.compare_cont Eq m m) with (Pos.compare m m) in Hc;
          rewrite Pos.compare_refl in Hc; inversion Hc; subst; discriminate.
    + apply SFcompare_none in Hc. destruct Hc; assumption.
  - intros ->. reflexivity.
Qed.

(** Of two floats that are numbers, one is below the other or they are
    equal. *)
Lemma ltb_false_leb (x y : float) :
  is_nan x = false -> is_nan y = false ->
  (x <? y)%float = false -> (y <=? x)%float = true.
Proof.
  intros Hx Hy.
  rewrite FloatAxioms.ltb_spec, FloatAxioms.leb_spec. unfold SFltb, SFleb.
  rewrite (SFcompare_antisym (Prim2SF x) (Prim2SF y)).
  destruct (SFcompare (Prim2SF x) (Prim2SF y)) as [[| |] |] eqn:Hc; simpl;
    intro H; try discriminate; try reflexivity.
  apply SFcompare_none in Hc. destruct Hc as [Hc | Hc];
    apply is_nan_spec in Hc; congruence.
Qed.

Lemma leb_not_nan (x y : float) :
  (x <=? y)%float = true -> is_nan x = false /\ is_nan y = false.
Proof.
  rewrite FloatAxioms.leb_spec. unfold SFleb. intro H.
  split; apply not_true_is_false; intro Hn; apply is_nan_spec in Hn;
    rewrite Hn in H; [| destruct (Prim2SF x)]; discriminate.
Qed.

Lemma shr_1_nonneg mrs : (0 <= shr_m mrs)%Z -> (0 <= shr_m (shr_1 mrs))%Z.
Proof.
  destruct mrs as [m r s]. simpl.
  destruct m as [| [p | p |] | p]; simpl; lia.
Qed.

Lemma iter_pos_shr_1_nonneg p mrs :
  (0 <= shr_m mrs)%Z -> (0 <= shr_m (iter_pos shr_1 p mrs))%Z.
Proof.
  revert mrs. induction p as [p IH | p IH |]; intros mrs H; simpl.
  - apply IH, IH, shr_1_nonneg, H.
  - apply IH, IH, H.
  - apply shr_1_nonneg, H.
Qed.

Lemma shr_fexp_nonneg prec emax m e l :
  (0 <= m)%Z -> (0 <= shr_m (fst (shr_fexp prec emax m e l)))%Z.
Proof.
  intro H. unfold shr_fexp, shr.
  assert (H0 : (0 <= shr_m (shr_record_of_loc m l))%Z)
    by (destruct l as [| []]; exact H).
  destruct (fexp prec emax (Zdigits2 m + e) - e)%Z; simpl;
    try exact H0. apply iter_pos_shr_1_nonneg, H0.
Qed.

Lemma round_nearest_even_nonneg m l :
  (0 <= m)%Z -> (0 <= round_nearest_even m l)%Z.
Proof.
  intro H. unfold round_nearest_even.
  destruct l as [| []]; try destruct (IntDef.Z.even m); lia.
Qed.

Lemma binary_round_aux_not_nan prec emax sx mx ex lx :
  (0 <= mx)%Z -> binary_round_aux prec emax sx mx ex lx <> S754_nan.
Proof.
  intro H. unfold binary_round_aux.
  pose proof (@shr_fexp_nonneg prec emax mx ex lx H) as H1.
  destruct (shr_fexp prec emax mx ex lx) as [mrs' e']. simpl in H1.
  pose proof (@shr_fexp_nonneg prec emax
                (round_nearest_even (shr_m mrs') (loc_of_shr_record mrs')) e'
                loc_Exact
                (@round_nearest_even_nonneg _ (loc_of_shr_record mrs') H1))
    as H2.
  destruct (shr_fexp prec emax _ e' loc_Exact) as [mrs'' e'']. simpl in H2.
  destruct (shr_m mrs''); try discriminate; [| lia].
  destruct (e'' <=? emax - prec)%Z; discriminate.
Qed.

Lemma binary_normalize_not_nan prec emax m e szero :
  binary_normalize prec emax m e szero <> S754_nan.
Proof.
  unfold binary_normalize, binary_round. destruct m; [discriminate | |];
    destruct (shl_align _ _ _); apply binary_round_aux_not_nan; lia.
Qed.

(** The sum of two numbers that are not infinite is a number. *)
Lemma SFadd_not_nan prec emax x y :
  x <> S754_nan -> y <> S754_nan ->
  (forall s, x <> S754_infinity s) -> (forall s, y <> S754_infinity s) ->
  SFadd prec emax x y <> S754_nan.
Proof.
  intros Hx Hy Hxi Hyi.
  destruct x as [sx | sx | | sx mx ex]; [| elim (Hxi sx); reflexivity
                                          | elim Hx; reflexivity |];
    (destruct y as [sy | sy | | sy my ey]; [| elim (Hyi sy); reflexivity
                                            | elim Hy; reflexivity |]);
    simpl; try discriminate.
  - destruct sx, sy; discriminate.
  - apply binary_normalize_not_nan.
Qed.

(** A float of [0, 1] is a number, and not an infinite one. *)
Lemma unit_float_finite (x : float) :
  (0 <=? x)%float = true -> (x <=? 1)%float = true ->
  Prim2SF x <> S754_nan /\ forall s, Prim2SF x <> S754_infinity s.
Proof.
  rewrite !FloatAxioms.leb_spec. unfold SFleb.
  change (Prim2SF 0) with (S754_zero false).
  change (Prim2SF 1) with (S754_finite false 4503599627370496 (-52)).
  intros H0 H1. destruct (Prim2SF x) as [s | s | | s m e].
  - split; [discriminate | intros; discriminate].
  - destruct s; simpl in *; discriminate.
  - simpl in *. discriminate.
  - split; [discriminate | intros; discriminate].
Qed.

Lemma unit_floats_add (x y : float) :
  (0 <=? x)%float = true -> (x <=? 1)%float = true ->
  (0 <=? y)%float = true -> (y <=? 1)%float = true ->
  is_nan (x + y) = false.
Proof.
  intros Hx0 Hx1 Hy0 Hy1.
  destruct (@unit_float_finite x Hx0 Hx1) as [Hxn Hxi].
  destruct (@unit_float_finite y Hy0 Hy1) as [Hyn Hyi].
  apply not_true_is_false. intro H. apply is_nan_spec in H.
  rewrite FloatAxioms.add_spec in H.
  exact (@SFadd_not_nan _ _ _ _ Hxn Hyn Hxi Hyi H).
Qed.


End FloatFacts.

Section WhiteningFacts.
Import Py Np Whitening.
Context {R : Type} {NR : Numeric R}.

Lemma bidx_in_range d i : i < d -> (if d =? 1 then 0 else i) = i.
Proof.
  intro H. destruct (Nat.eqb_spec d 1); [lia | reflexivity].
Qed.

(** Lines 76-78 on a batch of shape (B, C, K): the mean of each row and
    channel along the time axis is subtracted, and the shape is kept. *)
Lemma detrend_spec (X : ndarray R) B C K :
  shape X = [B; C; K] ->
  exists Y, detrend X = Ok Y
    /\ shape Y = [B; C; K]
    /\ forall b c k, b < B -> c < C -> k < K ->
         item Y [b; c; k] =
         sub (item X [b; c; k])
             (mean_of (map (fun j => item X [b; c; j]) (seq 0 K))).
Proof.
  intro Hs. unfold detrend, transpose, ndim. rewrite Hs. simpl.
  unfold mean_axis, ndim. simpl.
  unfold elementwise, broadcast_shapes. simpl. rewrite !Nat.eqb_refl. simpl.
  unfold transpose, ndim. simpl.
  eexists. split; [reflexivity |]. split; [reflexivity |].
  intros b c k Hb Hc Hk. simpl. unfold bidx. simpl.
  rewrite !bidx_in_range by assumption. reflexivity.
Qed.

Lemma shape_eqb_true s1 s2 : shape_eqb s1 s2 = true <-> s1 = s2.
Proof.
  unfold shape_eqb. destruct (list_eq_dec Nat.eq_dec s1 s2); split;
    intro H; try reflexivity; try assumption; try discriminate; contradiction.
Qed.

(** Line 79 on a batch of shape (B, C, K) and a window of [W] samples:
    the product in place is defined when the window has the length of the
    batch's time axis, or one sample only (which broadcasts). *)
Lemma inplace_window_iff (X win : ndarray R) B C K W :
  shape X = [B; C; K] -> shape win = [W] ->
  (is_ok (inplace mul X win) = true <-> K = W \/ W = 1).
Proof.
  intros Hs Hw. unfold inplace, broadcast_shapes. rewrite Hs, Hw. simpl.
  destruct (Nat.eqb_spec K W) as [-> | Hne]; simpl.
  - replace (shape_eqb [B; C; W] [B; C; W]) with true
      by (symmetry; apply shape_eqb_true; reflexivity).
    simpl. split; [intros _; left; reflexivity | reflexivity].
  - destruct (Nat.eqb_spec K 1) as [-> | Hk1]; simpl.
    + destruct (shape_eqb [B; C; W] [B; C; 1]) eqn:He; simpl.
      * apply shape_eqb_true in He. inversion He; subst.
        split; [intros _; right; reflexivity | reflexivity].
      * split; [discriminate |]. intros [H | H]; [congruence |].
        subst W. contradiction.
    + destruct (Nat.eqb_spec W 1) as [-> | Hw1]; simpl.
      * replace (shape_eqb [B; C; K] [B; C; K]) with true
          by (symmetry; apply shape_eqb_true; reflexivity).
        simpl. split; [intros _; right; reflexivity | reflexivity].
      * split; [discriminate |]. intros [H | H]; contradiction.
Qed.

Lemma inplace_raises (X win : ndarray R) e :
  inplace mul X win = Raise e -> e = RuntimeError.
Proof.
  unfold inplace. destruct (broadcast_shapes _ _);
    [destruct (shape_eqb _ _) |]; intro H; inversion H; reflexivity.
Qed.

(** Line 79 when the window has the length of the time axis. *)
Lemma apply_window_spec (t : WhiteningTransform R) (Y : ndarray R) B C K :
  shape Y = [B; C; K] -> shape (window t) = [K] ->
  exists Z, apply_window t Y = Ok Z
    /\ shape Z = [B; C; K]
    /\ forall b c k, k < K ->
         item Z [b; c; k] = mul (item Y [b; c; k]) (item (window t) [k]).
Proof.
  intros Hs Hw. unfold apply_window, inplace, broadcast_shapes.
  rewrite Hs, Hw. simpl. rewrite Nat.eqb_refl. simpl.
  replace (shape_eqb [B; C; K] [B; C; K]) with true
    by (symmetry; apply shape_eqb_true; reflexivity).
  eexists. split; [reflexivity |]. split; [reflexivity |].
  intros b c k Hk. simpl. unfold bidx. simpl.
  rewrite (bidx_in_range Hk). reflexivity.
Qed.


Variable float_pow : float -> float -> float.


(** C10 (amended). On an input batch of shape (B, C, K), with the analysis
    window of [int(fftlength * sample_rate)] samples that the constructor
    assigns: the lines of [forward] up to the product with the window
    succeed exactly when [K] is that number or that number is 1 (a window
    of one sample broadcasts to any [K]); for every other [K], [forward]
    raises [RuntimeError] there. *)
Theorem forward_defined_iff_window_fits
  (t : WhiteningTransform R) (X : ndarray R) (B C K : nat) (n : Z) :
  shape X = [B; C; K] ->
  ntaps_of t = Ok n ->
  shape (window t) = [Z.to_nat n] ->
  (is_ok (rbind (detrend X) (apply_window t)) = true
     <-> K = Z.to_nat n \/ Z.to_nat n = 1)
  /\ (~ (K = Z.to_nat n \/ Z.to_nat n = 1) ->
      forward float_pow t X = Raise RuntimeError).
Proof.
  intros Hs _ Hw.
  destruct (detrend_spec X Hs) as [Y [HY [HsY _]]].
  pose proof (@inplace_window_iff Y (window t) B C K (Z.to_nat n) HsY Hw)
    as Hiff.
  split.
  - rewrite HY. simpl. unfold apply_window. exact Hiff.
  - intro Hno. unfold forward. rewrite HY. simpl. unfold apply_window.
    destruct (inplace mul Y (window t)) as [Z' | e] eqn:Hi.
    + exfalso. apply Hno. apply Hiff. reflexivity.
    + simpl. apply inplace_raises in Hi. subst. reflexivity.
Qed.

(** C3 (code defect). The transform of the repository's own test: two
    seconds of [fftlength], a kernel of one second, so that the window has
    twice the samples of the batch's time axis. Whatever the batch, the
    filter and the sample values, [forward] raises at the product with the
    window: no whitened batch of the input's shape is returned. *)
Theorem forward_rejects_kernel_sized_batch
  (num_ifos : Z) (sample_rate : float) (filter : ndarray R)
  (window_item batch_item : list nat -> R) (B C k : nat) :
  forward float_pow
    {| num_ifos := num_ifos;
       sample_rate := sample_rate;
       kernel_length := 1;
       fftlength := 2;
       time_domain_filter := filter;
       window := {| shape := [2 * S k]; item := window_item |} |}
    {| shape := [B; C; S k]; item := batch_item |}
  = Raise RuntimeError.
Proof.
  set (X := {| shape := [B; C; S k]; item := batch_item |}).
  match goal with |- forward _ ?t0 _ = _ => set (t := t0) end.
  assert (Hw : shape (window t) = [2 * S k]) by reflexivity.
  destruct (@detrend_spec X B C (S k) eq_refl) as [Y [HY [HsY _]]].
  unfold forward. rewrite HY. cbn [rbind]. unfold apply_window.
  destruct (inplace mul Y (window t)) as [Z' | e] eqn:Hi.
  - assert (Hok : is_ok (inplace mul Y (window t)) = true)
      by (rewrite Hi; reflexivity).
    apply (@inplace_window_iff Y _ B C (S k) (2 * S k) HsY Hw) in Hok.
    lia.
  - cbn [rbind]. apply inplace_raises in Hi. subst. reflexivity.
Qed.

End WhiteningFacts.

Section ConstructorFacts.
Import Py Np Dataloader.
Context {R : Type} {NR : Numeric R}.
Variable design : filter_design R.

Lemma outside_unit_not_between f :
  outside_unit f = true -> between 0 f 1 = false.
Proof.
  unfold outside_unit, between. intro H.
  apply orb_true_iff in H. destruct H as [H | H];
    [apply orb_true_iff in H; destruct H as [H | H] |].
  - apply ltb_leb_false in H. rewrite H. reflexivity.
  - apply ltb_leb_false in H. rewrite H. apply andb_false_r.
  - destruct (0 <=? f)%float eqn:H0; [| reflexivity].
    apply leb_not_nan in H0. destruct H0 as [_ H0]. congruence.
Qed.

Lemma inside_unit_between f :
  outside_unit f = false -> between 0 f 1 = true.
Proof.
  unfold outside_unit, between. intro H.
  apply orb_false_iff in H. destruct H as [H Hn].
  apply orb_false_iff in H. destruct H as [H0 H1].
  apply andb_true_iff. split; apply ltb_false_leb;
    solve [assumption | reflexivity].
Qed.

Lemma check_fractions_bad a s :
  bad_fractions a = true ->
  check_fractions a s = (Raise AssertionError, s).
Proof.
  unfold bad_fractions, check_fractions, bind, assert. intro H.
  apply orb_true_iff in H. destruct H as [H | H];
    [apply orb_true_iff in H; destruct H as [H | H] |].
  - rewrite (outside_unit_not_between _ H). reflexivity.
  - rewrite (outside_unit_not_between _ H).
    destruct (between 0 (Args.waveform_frac a) 1); reflexivity.
  - apply ltb_leb_false in H. rewrite H.
    destruct (between 0 (Args.waveform_frac a) 1);
      destruct (between 0 (Args.glitch_frac a) 1); reflexivity.
Qed.

Lemma check_fractions_good a s :
  bad_fractions a = false -> check_fractions a s = (Ok tt, s).
Proof.
  unfold bad_fractions. intro H.
  apply orb_false_iff in H. destruct H as [H Hsum].
  apply orb_false_iff in H. destruct H as [Hw Hg].
  apply inside_unit_between in Hw, Hg.
  unfold check_fractions, bind, assert. rewrite Hw, Hg.
  unfold between in Hw, Hg.
  apply andb_true_iff in Hw, Hg. destruct Hw as [Hw0 Hw1], Hg as [Hg0 Hg1].
  rewrite (@ltb_false_leb 1 _ eq_refl (unit_floats_add Hw0 Hw1 Hg0 Hg1)
             Hsum).
  reflexivity.
Qed.

(** Lines 42-50 refuse the fractions the spec calls invalid, and these
    only. *)
Lemma check_fractions_outcome a s :
  check_fractions a s
  = (if bad_fractions a then Raise AssertionError else Ok tt, s).
Proof.
  destruct (bad_fractions a) eqn:H.
  - apply check_fractions_bad. exact H.
  - apply check_fractions_good. exact H.
Qed.

Lemma check_fractions_valid a s :
  valid_configuration a = true -> check_fractions a s = (Ok tt, s).
Proof.
  unfold valid_configuration, check_fractions, bind, assert. intro H.
  apply andb_true_iff in H. destruct H as [H _].
  apply andb_true_iff in H. destruct H as [H _].
  apply andb_true_iff in H. destruct H as [H Hsum].
  apply andb_true_iff in H. destruct H as [Hw Hg].
  rewrite Hw, Hg, Hsum. reflexivity.
Qed.

Lemma load_waveforms_mismatch (fs : filesystem R) a s :
  source_mismatch (Args.waveform_dataset a) (Args.waveform_frac a) = true ->
  load_waveforms fs a s = (Raise AssertionError, s).
Proof.
  unfold load_waveforms, source_mismatch, bind, assert. intros H.
  destruct (Args.waveform_dataset a).
  - apply eqb_ltb_false in H. rewrite H. reflexivity.
  - apply negb_true_iff in H. rewrite H. reflexivity.
Qed.

Lemma load_glitches_mismatch (fs : filesystem R) a s :
  source_mismatch (Args.glitch_dataset a) (Args.glitch_frac a) = true ->
  load_glitches fs a s = (Raise AssertionError, s).
Proof.
  unfold load_glitches, source_mismatch, bind, assert. intros H.
  destruct (Args.glitch_dataset a).
  - apply eqb_ltb_false in H. rewrite H. reflexivity.
  - apply negb_true_iff in H. rewrite H. reflexivity.
Qed.

Lemma source_frac_positive (source : option string) frac p :
  between 0 frac 1 = true -> source_mismatch source frac = false ->
  source = Some p -> (0 <? frac)%float = true.
Proof.
  unfold between, source_mismatch. intros Hb Hm ->.
  apply andb_true_iff in Hb. destruct Hb as [Hb _].
  apply leb_neq_ltb; assumption.
Qed.

Lemma load_waveforms_valid (fs : filesystem R) a s :
  between 0 (Args.waveform_frac a) 1 = true ->
  source_mismatch (Args.waveform_dataset a) (Args.waveform_frac a) = false ->
  readable fs (Args.waveform_dataset a) ["waveforms"%string] = true ->
  is_ok (fst (load_waveforms fs a s)) = true.
Proof.
  intros Hb Hm Hr. unfold load_waveforms, bind, assert.
  destruct (Args.waveform_dataset a) as [p |] eqn:Hsrc.
  - rewrite (source_frac_positive _ Hb Hm eq_refl).
    unfold ret, h5py_File, readable in *.
    destruct (fs p) as [f |]; [| discriminate]. simpl in Hr.
    unfold lift, h5_read. destruct (f "waveforms"%string); [| discriminate].
    reflexivity.
  - unfold source_mismatch in Hm. apply negb_false_iff in Hm. rewrite Hm.
    reflexivity.
Qed.

Lemma load_glitches_valid (fs : filesystem R) a s :
  between 0 (Args.glitch_frac a) 1 = true ->
  source_mismatch (Args.glitch_dataset a) (Args.glitch_frac a) = false ->
  readable fs (Args.glitch_dataset a)
           ["hanford"%string; "livingston"%string] = true ->
  is_ok (fst (load_glitches fs a s)) = true.
Proof.
  intros Hb Hm Hr. unfold load_glitches, bind, assert.
  destruct (Args.glitch_dataset a) as [p |] eqn:Hsrc.
  - rewrite (source_frac_positive _ Hb Hm eq_refl).
    unfold ret, h5py_File, readable in *.
    destruct (fs p) as [f |]; [| discriminate]. simpl in Hr.
    unfold lift, h5_read.
    destruct (f "hanford"%string); [| discriminate].
    destruct (f "livingston"%string); [| discriminate].
    reflexivity.
  - unfold source_mismatch in Hm. apply negb_false_iff in Hm. rewrite Hm.
    reflexivity.
Qed.

(** Line 109 reads an attribute that was never assigned: no call of the
    constructor returns an object. *)
Lemma init_never_returns (fs : filesystem R) a :
  never_ok (__init__ design fs a).
Proof.
  unfold __init__. apply never_ok_bind_r. intros p s. reflexivity.
Qed.

(** Lines 14-22 raise the tuple of [signal.welch] to a power: the filter
    design is never reached. *)
Lemma _build_filter_outcome (timeseries : ndarray R) sample_rate :
  _build_filter design timeseries sample_rate
  = rbind (int_of_float (DEFAULT_FFTLENGTH * sample_rate)) (fun nfft =>
    rbind (signal_welch design timeseries sample_rate nfft) (fun _ =>
    Raise TypeError)).
Proof.
  unfold _build_filter.
  destruct (int_of_float (DEFAULT_FFTLENGTH * sample_rate)) as [nfft | e];
    [| reflexivity].
  simpl. destruct (signal_welch design timeseries sample_rate nfft);
    reflexivity.
Qed.

Lemma _build_filter_raises (timeseries : ndarray R) sample_rate :
  is_ok (_build_filter design timeseries sample_rate) = false.
Proof.
  rewrite _build_filter_outcome.
  destruct (int_of_float (DEFAULT_FFTLENGTH * sample_rate)) as [nfft | e];
    [| reflexivity].
  simpl. destruct (signal_welch design timeseries sample_rate nfft);
    reflexivity.
Qed.

(** Lines 52-78 stop at line 56 at the latest, with the hanford file the
    only one opened. *)
Lemma load_background_outcome (fs : filesystem R) a opened :
  load_background design fs a opened
  = (match fs (Args.hanford_background a) with
     | None => Raise OSError
     | Some f =>
         rbind (h5_read f "hoft") (fun hoft =>
         rbind (int_of_float (DEFAULT_FFTLENGTH * Args.sample_rate a))
               (fun nfft =>
         rbind (signal_welch design hoft (Args.sample_rate a) nfft) (fun _ =>
         Raise TypeError)))
     end, Args.hanford_background a :: opened).
Proof.
  unfold load_background, bind at 1, h5py_File.
  destruct (fs (Args.hanford_background a)) as [f |]; [| reflexivity].
  unfold bind at 1, lift at 1.
  destruct (h5_read f "hoft") as [hoft | e]; [| reflexivity].
  unfold bind at 1, lift at 1. rewrite _build_filter_outcome. simpl.
  destruct (int_of_float (DEFAULT_FFTLENGTH * Args.sample_rate a))
    as [nfft | e]; [| reflexivity].
  simpl. destruct (signal_welch design hoft (Args.sample_rate a) nfft);
    reflexivity.
Qed.

Lemma load_background_stops (fs : filesystem R) a opened :
  exists e,
    load_background design fs a opened
    = (Raise e, Args.hanford_background a :: opened).
Proof.
  rewrite load_background_outcome.
  destruct (fs (Args.hanford_background a)) as [f |];
    [| eexists; reflexivity].
  destruct (h5_read f "hoft") as [hoft | e]; [| eexists; reflexivity].
  simpl.
  destruct (int_of_float (DEFAULT_FFTLENGTH * Args.sample_rate a))
    as [nfft | e]; [| eexists; reflexivity].
  simpl. destruct (signal_welch design hoft (Args.sample_rate a) nfft);
    eexists; reflexivity.
Qed.

Lemma load_background_TypeError (fs : filesystem R) a opened f hoft nfft
  spectrum :
  fs (Args.hanford_background a) = Some f ->
  f "hoft"%string = Some hoft ->
  int_of_float (DEFAULT_FFTLENGTH * Args.sample_rate a) = Ok nfft ->
  signal_welch design hoft (Args.sample_rate a) nfft = Ok spectrum ->
  load_background design fs a opened
  = (Raise TypeError, Args.hanford_background a :: opened).
Proof.
  intros Hf Hh Hn Hw. rewrite load_background_outcome, Hf.
  unfold h5_read. rewrite Hh. simpl. rewrite Hn. simpl. rewrite Hw.
  reflexivity.
Qed.

(** Once the fractions have passed, the constructor ends as lines 52-78
    do. *)
Lemma init_after_fractions (fs : filesystem R) a opened e s :
  check_fractions a opened = (Ok tt, opened) ->
  load_background design fs a opened = (Raise e, s) ->
  __init__ design fs a opened = (Raise e, s).
Proof.
  intros Hc Hb. unfold __init__, init_checks, bind. rewrite Hc, Hb.
  reflexivity.
Qed.

Lemma valid_configuration_parts a :
  valid_configuration a = true ->
  between 0 (Args.waveform_frac a) 1 = true
  /\ between 0 (Args.glitch_frac a) 1 = true
  /\ source_mismatch (Args.waveform_dataset a) (Args.waveform_frac a) = false
  /\ source_mismatch (Args.glitch_dataset a) (Args.glitch_frac a) = false.
Proof.
  unfold valid_configuration. intro H.
  apply andb_true_iff in H. destruct H as [H Hg].
  apply andb_true_iff in H. destruct H as [H Hw].
  apply andb_true_iff in H. destruct H as [H _].
  apply andb_true_iff in H. destruct H as [Hbw Hbg].
  apply negb_true_iff in Hg, Hw. auto.
Qed.

(** C7. The constructor and its checks (lines 42-105):
    - lines 42-50 raise [AssertionError] for the fractions the spec calls
      invalid (a fraction outside [0, 1], a NaN among them, or fractions
      that add up to more than 1) and pass for the others; with such
      fractions the constructor raises [AssertionError] and no file has
      been opened;
    - lines 83-105 raise [AssertionError], before the file of the source is
      opened, for a source given with a zero fraction and for a nonzero
      fraction given without its source;
    - for a valid configuration lines 42-50 pass, and lines 83-105 return
      when the files of the sources hold their arrays;
    - but construction never proceeds: no call of the constructor returns
      an object. For a valid configuration it raises with the hanford
      file the only one opened, and the exception is [TypeError] when that
      file holds its array, [int(DEFAULT_FFTLENGTH * sample_rate)] is
      defined and [signal.welch] returns: line 22 raises the tuple it
      returns to a power. *)
Theorem construction_checks_then_stops (fs : filesystem R) (a : Args.t)
  (opened : list string) :
  check_fractions a opened
  = (if bad_fractions a then Raise AssertionError else Ok tt, opened)
  /\ (bad_fractions a = true ->
      __init__ design fs a opened = (Raise AssertionError, opened))
  /\ (source_mismatch (Args.waveform_dataset a) (Args.waveform_frac a) = true ->
      load_waveforms fs a opened = (Raise AssertionError, opened))
  /\ (source_mismatch (Args.glitch_dataset a) (Args.glitch_frac a) = true ->
      load_glitches fs a opened = (Raise AssertionError, opened))
  /\ (valid_configuration a = true ->
      check_fractions a opened = (Ok tt, opened)
      /\ (readable fs (Args.waveform_dataset a) ["waveforms"%string] = true ->
          is_ok (fst (load_waveforms fs a opened)) = true)
      /\ (readable fs (Args.glitch_dataset a)
                   ["hanford"%string; "livingston"%string] = true ->
          is_ok (fst (load_glitches fs a opened)) = true))
  /\ is_ok (fst (__init__ design fs a opened)) = false
  /\ (valid_configuration a = true ->
      (exists e, __init__ design fs a opened
                 = (Raise e, Args.hanford_background a :: opened))
      /\ forall f hoft nfft spectrum,
           fs (Args.hanford_background a) = Some f ->
           f "hoft"%string = Some hoft ->
           int_of_float (DEFAULT_FFTLENGTH * Args.sample_rate a) = Ok nfft ->
           signal_welch design hoft (Args.sample_rate a) nfft = Ok spectrum ->
           __init__ design fs a opened
           = (Raise TypeError, Args.hanford_background a :: opened)).
Proof.
  split; [apply check_fractions_outcome |].
  split.
  { intro H. unfold __init__, init_checks, bind.
    rewrite (check_fractions_bad _ opened H). reflexivity. }
  split; [apply load_waveforms_mismatch |].
  split; [apply load_glitches_mismatch |].
  split.
  { intro Hv.
    destruct (valid_configuration_parts a Hv) as [Hbw [Hbg [Hmw Hmg]]].
    split; [apply check_fractions_valid; exact Hv |].
    split; intro Hr.
    - apply load_waveforms_valid; assumption.
    - apply load_glitches_valid; assumption. }
  split; [apply init_never_returns |].
  intro Hv. pose proof (check_fractions_valid a opened Hv) as Hc. split.
  - destruct (load_background_stops fs a opened) as [e He].
    exists e. apply init_after_fractions; assumption.
  - intros f hoft nfft spectrum Hf Hh Hn Hw.
    apply init_after_fractions; [exact Hc |].
    eapply load_background_TypeError; eassumption.
Qed.

End ConstructorFacts.

Section FitFacts.
Import Py Np Whitening.
Context {R : Type} {NR : Numeric R}.
Variable gwpy_asd : ndarray R -> float -> float -> result (ndarray R).
Variable gwpy_fir : ndarray R -> float -> Z -> result (ndarray R).

(** A loop whose body reads no state leaves the state alone, and what it
    returns is what the body returned, turn by turn. *)
Lemma for_each_lift S A B (f : A -> result B) (l : list A) (s : S) :
  snd (for_each (fun x => lift (f x)) l s) = s
  /\ forall ys, fst (for_each (fun x => lift (f x)) l s) = Ok ys ->
                Forall2 (fun x y => f x = Ok y) l ys.
Proof.
  revert s. induction l as [| x l IH]; intro s.
  - simpl. split; [reflexivity |]. intros ys H. inversion H. constructor.
  - specialize (IH s). cbn [for_each].
    set (rest := for_each (fun x0 => lift (f x0)) l) in *.
    unfold bind, lift, ret. destruct (f x) as [y | e] eqn:Hx.
    + destruct IH as [Hs Hys]. destruct (rest s) as [[ys' | e] s'];
        simpl in *.
      * split; [exact Hs |]. intros ys H. inversion H; subst.
        constructor; [exact Hx | apply Hys; reflexivity].
      * split; [exact Hs |]. intros ys H. discriminate.
    + simpl. split; [reflexivity |]. intros ys H. discriminate.
Qed.

(** A stack has one row for each array, each of the shape of all. *)
Lemma np_stack_shape (arrays : list (ndarray R)) a :
  np_stack arrays = Ok a ->
  arrays <> []
  /\ Forall (fun b => shape a = List.length arrays :: shape b) arrays.
Proof.
  unfold np_stack, stack_with. destruct arrays as [| b rest]; [discriminate |].
  destruct (forallb _ rest) eqn:Hall; [| discriminate].
  intro H. inversion H; subst. clear H. split; [discriminate |].
  constructor; [reflexivity |].
  apply Forall_forall. intros c Hc. rewrite forallb_forall in Hall.
  apply Hall in Hc. apply shape_eqb_true in Hc. cbn [shape]. rewrite Hc.
  reflexivity.
Qed.

(** The state [fit] leaves: the object as it was when it raises, the
    object with the stack of the designed filters when it returns. *)
Lemma fit_outcome (t : WhiteningTransform R) backgrounds r t' :
  fit gwpy_asd gwpy_fir backgrounds t = (r, t') ->
  (is_ok r = false /\ t' = t)
  \/ exists n tdfs tdf,
       ntaps_of t = Ok n
       /\ shape0 (time_domain_filter t) = Ok (List.length backgrounds)
       /\ Forall2 (fun b f => fit_one gwpy_asd gwpy_fir t n b = Ok f)
                  backgrounds tdfs
       /\ np_stack tdfs = Ok tdf
       /\ r = Ok tt
       /\ t' = set_time_domain_filter t tdf.
Proof.
  unfold fit, bind at 1, get. unfold bind at 1, lift at 1.
  destruct (shape0 (time_domain_filter t)) as [rows | e] eqn:Hrows;
    [| intro H; inversion H; left; split; reflexivity].
  destruct (Nat.eqb_spec (List.length backgrounds) rows) as [Hlen | Hlen];
    cbn [negb];
    [| intro H; inversion H; left; split; reflexivity].
  unfold bind at 1, lift at 1. unfold ntaps_of.
  destruct (int_of_float _) as [n | e];
    [| intro H; inversion H; left; split; reflexivity].
  unfold bind at 1.
  destruct (for_each_lift (S := WhiteningTransform R)
              (fit_one gwpy_asd gwpy_fir t n) backgrounds t) as [Hs Hall].
  destruct (for_each _ backgrounds t) as [[tdfs | e] s1]; simpl in Hs; subst s1;
    [| intro H; inversion H; left; split; reflexivity].
  unfold bind at 1, lift at 1.
  destruct (np_stack tdfs) as [tdf | e] eqn:Hst;
    [| intro H; inversion H; left; split; reflexivity].
  unfold bind, lift, set_value, put. intro H; inversion H; subst.
  right. exists n, tdfs, tdf. repeat split; try reflexivity; try assumption.
  apply Hall. reflexivity.
Qed.

(** C9 (amended). A call of [fit] that returns has changed the filter
    only: [num_ifos], [sample_rate], [kernel_length], [fftlength] and the
    window are as before. The new filter is the stack of the filters
    designed of the backgrounds, one row for each: it has the rows of the
    old one, and after them the shape of each design. [fit] does not
    compare the designs with the [int(fftlength * sample_rate)] taps it
    asks for: the filter keeps its shape if and only if the designs have
    that many taps. *)
Theorem fit_changes_only_the_filter
  (t t' : WhiteningTransform R) (backgrounds : list (ndarray R)) :
  fit gwpy_asd gwpy_fir backgrounds t = (Ok tt, t') ->
  num_ifos t' = num_ifos t
  /\ sample_rate t' = sample_rate t
  /\ kernel_length t' = kernel_length t
  /\ fftlength t' = fftlength t
  /\ window t' = window t
  /\ ntaps_of t' = ntaps_of t
  /\ shape0 (time_domain_filter t') = shape0 (time_domain_filter t)
  /\ exists n tdfs,
       ntaps_of t = Ok n
       /\ Forall2 (fun b f => fit_one gwpy_asd gwpy_fir t n b = Ok f)
                  backgrounds tdfs
       /\ np_stack tdfs = Ok (time_domain_filter t')
       /\ Forall (fun f => shape (time_domain_filter t')
                           = List.length backgrounds :: shape f) tdfs
       /\ forall rows,
            shape (time_domain_filter t) = [rows; Z.to_nat n] ->
            (shape (time_domain_filter t') = shape (time_domain_filter t)
             <-> Forall (fun f => shape f = [Z.to_nat n]) tdfs).
Proof.
  intro Hfit.
  destruct (fit_outcome _ _ Hfit)
    as [[Hno _] | [n [tdfs [tdf [Hn [Hrows [Hall [Hst [_ Ht']]]]]]]]];
    [discriminate |].
  subst t'. cbn [num_ifos sample_rate kernel_length fftlength window
                 time_domain_filter set_time_domain_filter].
  destruct (@np_stack_shape tdfs tdf Hst) as [Hne Hshapes].
  rewrite <- (Forall2_length Hall) in Hshapes.
  do 5 (split; [reflexivity |]). split; [reflexivity |].
  split.
  { rewrite Hrows. unfold shape0. destruct tdfs as [| f tdfs'];
      [contradiction |].
    inversion Hshapes as [| ? ? Hf _]; subst. rewrite Hf. reflexivity. }
  exists n, tdfs. repeat (split; [assumption |]).
  intros rows Hshape. unfold shape0 in Hrows. rewrite Hshape in Hrows.
  inversion Hrows as [Hr]. rewrite Hshape. split.
  - intro Heq. eapply Forall_impl; [| exact Hshapes].
    intros f Hf. cbv beta in Hf. rewrite Hf in Heq. inversion Heq.
    reflexivity.
  - intro Htaps. destruct tdfs as [| f tdfs']; [contradiction |].
    inversion Hshapes as [| ? ? Hf _]; subst.
    inversion Htaps as [| ? ? Hfn _]; subst. rewrite Hf, Hfn. reflexivity.
Qed.

End FitFacts.

Section ComposeFacts.
Import Py Np Dataloader.
Context {R : Type} {NR : Numeric R}.

(** With a pool of waveforms, lines 216-223 never reach the assignment of
    the labels: [inject_waveforms] raises first. *)
Lemma waveform_step_with_pool (w : world R) X y pool :
  waveforms (self w) = Some pool ->
  is_ok (fst (waveform_step X y w)) = false.
Proof.
  intro Hp. unfold waveform_step, bind at 1, get_self. rewrite Hp.
  apply never_ok_bind_r. intro sampled.
  apply never_ok_bind_r. intro background.
  apply never_ok_bind_l. intro s. reflexivity.
Qed.

Lemma waveform_step_without_pool (w : world R) X y :
  waveforms (self w) = None -> waveform_step X y w = (Ok (X, y), w).
Proof.
  intro Hp. unfold waveform_step, bind, get_self. rewrite Hp. reflexivity.
Qed.

Lemma glitch_step_without_source (w : world R) X :
  glitches (self w) = Some None -> glitch_step X w = (Ok X, w).
Proof.
  intro Hg. unfold glitch_step, bind, get_self, getattr. rewrite Hg.
  reflexivity.
Qed.

Lemma glitch_step_unset (w : world R) X :
  glitches (self w) = None -> glitch_step X w = (Raise AttributeError, w).
Proof.
  intro Hg. unfold glitch_step, bind, get_self, getattr. rewrite Hg.
  reflexivity.
Qed.

(** Asked for no example, [sample_from_array] returns the empty list, if it
    returns. *)
Lemma sample_from_array_none (array : ndarray R) (w : world R) l :
  fst (sample_from_array array 0 w) = Ok l -> l = [].
Proof.
  unfold sample_from_array, bind at 1, lift.
  destruct (len array) as [n | e]; [| discriminate].
  unfold bind, with_rng, choice.
  replace ((Z.of_nat n <=? 0)%Z && negb (0 =? 0)%Z) with false
    by (rewrite Z.eqb_refl, andb_false_r; reflexivity).
  replace (Z.of_nat n <? 0)%Z with false by (symmetry; apply Z.ltb_ge; lia).
  simpl. intro H. inversion H. reflexivity.
Qed.

(** With at most one glitch to place, nothing goes to the first detector,
    and [torch.stack] is handed the empty list. *)
Lemma glitch_step_single (w : world R) X g :
  glitches (self w) = Some (Some g) ->
  (num_glitches (self w) <=? 1)%Z = true ->
  is_ok (fst (glitch_step X w)) = false.
Proof.
  intros Hg Hn. unfold glitch_step, bind at 1, get_self.
  unfold bind at 1, getattr. rewrite Hg. unfold ret.
  unfold bind at 1, with_rng.
  destruct (Z.leb_spec (num_glitches (self w)) 0) as [Hle | Hgt].
  - rewrite (randint_nonpositive _ Hle). reflexivity.
  - assert (H1 : num_glitches (self w) = 1%Z)
      by (apply Z.leb_le in Hn; lia).
    rewrite H1. unfold randint. simpl (1 <=? 0)%Z. cbv iota.
    destruct (raw (np_random w)) as [r g']. rewrite Z.mod_1_r.
    apply never_ok_bind_r. intro pool.
    intro s. unfold bind at 1.
    destruct (sample_from_array pool 0 s) as [[l | e] s1] eqn:Hs;
      [| reflexivity].
    assert (l = []) by (apply (@sample_from_array_none pool s); rewrite Hs;
                        reflexivity).
    subst l. reflexivity.
Qed.

Lemma bind_ok S A B (c : M S A) (k : A -> M S B) s b s' :
  bind c k s = (Ok b, s') ->
  exists a s1, c s = (Ok a, s1) /\ k a s1 = (Ok b, s').
Proof.
  unfold bind. destruct (c s) as [[a | e] s1]; intro H; [| discriminate].
  exists a, s1. split; [reflexivity | exact H].
Qed.

(** [a[start:stop, c] = v] writes column [c] of the rows of the slice and
    nothing else. *)
Lemma setitem_slice_col_frame (a v a' : ndarray R) start stop c :
  setitem_slice_col a start stop c v = Ok a' ->
  shape a' = shape a
  /\ exists d0 d1 s j,
       shape a = d0 :: d1 :: s
       /\ subscript d1 c = Ok j
       /\ forall idx,
            item a' idx = item a idx
            \/ exists i r, idx = i :: j :: r
                 /\ fst (slice_bounds d0 start stop) <= i
                    < snd (slice_bounds d0 start stop).
Proof.
  unfold setitem_slice_col.
  destruct (shape a) as [| d0 [| d1 s]] eqn:Hs; try discriminate.
  destruct (subscript d1 c) as [j |] eqn:Hj; [| discriminate]. cbn [rbind].
  destruct (slice_bounds d0 start stop) as [lo hi] eqn:Hb.
  destruct (broadcast_shapes _ _); [| discriminate].
  destruct (shape_eqb _ _); [| discriminate].
  intro H. inversion H; subst a'. cbn [shape item].
  split; [reflexivity |].
  exists d0, d1, s, j. split; [reflexivity |]. split; [exact Hj |].
  intros [| i [| c' r]]; try (left; reflexivity).
  destruct ((lo <=? i) && (i <? hi) && (c' =? j)) eqn:Hc;
    [| left; reflexivity].
  apply andb_true_iff in Hc. destruct Hc as [Hc Hc3].
  apply andb_true_iff in Hc. destruct Hc as [Hc1 Hc2].
  apply Nat.leb_le in Hc1. apply Nat.ltb_lt in Hc2.
  apply Nat.eqb_eq in Hc3. subst c'.
  right. exists i, r. split; [reflexivity |]. rewrite Hb. simpl. lia.
Qed.

Lemma subscript_small d c j :
  subscript d (Z.of_nat c) = Ok j -> j = c.
Proof.
  unfold subscript.
  replace (Z.of_nat c <? 0)%Z with false by (symmetry; apply Z.ltb_ge; lia).
  destruct ((0 <=? Z.of_nat c)%Z && (Z.of_nat c <? Z.of_nat d)%Z);
    intro H; inversion H. apply Nat2Z.id.
Qed.

(** X7. What lines 190-214 write when they run to their end: the first
    detector's channel of the rows before [num_hanford], the second's of
    the rows from [num_hanford] to [num_glitches], with [num_hanford] a
    draw of [0, num_glitches); the shape and every other element of the
    batch are kept. *)
Lemma glitch_step_frame (w w' : world R) (X X' g : ndarray R) :
  glitches (self w) = Some (Some g) ->
  glitch_step X w = (Ok X', w') ->
  shape X' = shape X
  /\ exists num_hanford,
       (0 <= num_hanford < num_glitches (self w))%Z
       /\ forall idx,
            item X' idx = item X idx
            \/ (exists i r, idx = i :: 0 :: r
                  /\ (Z.of_nat i < num_hanford)%Z)
            \/ (exists i r, idx = i :: 1 :: r
                  /\ (num_hanford <= Z.of_nat i
                      < num_glitches (self w))%Z).
Proof.
  intros Hg. unfold glitch_step, bind at 1, get_self.
  unfold bind at 1, getattr. rewrite Hg. unfold ret.
  intro H. apply bind_ok in H. destruct H as [nh [w1 [Hnh H]]].
  apply bind_ok in H. destruct H as [pool_h [w2 [_ H]]].
  apply bind_ok in H. destruct H as [hs [w3 [_ H]]].
  apply bind_ok in H. destruct H as [vh [w4 [_ H]]].
  apply bind_ok in H. destruct H as [X1 [w5 [H1 H]]].
  apply bind_ok in H. destruct H as [pool_l [w6 [_ H]]].
  apply bind_ok in H. destruct H as [ls [w7 [_ H]]].
  apply bind_ok in H. destruct H as [vl [w8 [_ H]]].
  apply bind_ok in H. destruct H as [X2 [w9 [H2 H]]].
  unfold ret in H. inversion H; subst X' w'. clear H.
  unfold lift in H1, H2. inversion H1 as [[H1' Hw5]]. clear H1.
  inversion H2 as [[H2' Hw9]]. clear H2.
  destruct (setitem_slice_col_frame _ _ _ _ _ H1')
    as [Hs1 [d0 [d1 [s [j0 [HsX [Hj0 Hf1]]]]]]].
  destruct (setitem_slice_col_frame _ _ _ _ _ H2')
    as [Hs2 [d0' [d1' [s' [j1 [HsX1 [Hj1 Hf2]]]]]]].
  apply (subscript_small d1 0) in Hj0. apply (subscript_small d1' 1) in Hj1.
  subst j0 j1.
  rewrite Hs1, HsX in HsX1. inversion HsX1; subst d0' d1' s'.
  assert (Hrange : (0 <= nh < num_glitches (self w))%Z).
  { unfold with_rng, randint in Hnh.
    destruct (num_glitches (self w) <=? 0)%Z eqn:Hle; [discriminate |].
    destruct (raw (np_random w)) as [r g']. inversion Hnh; subst.
    apply Z.mod_pos_bound. apply Z.leb_gt in Hle. exact Hle. }
  split; [congruence |]. exists nh. split; [exact Hrange |].
  intro idx.
  destruct (Hf2 idx) as [He2 | [i [r [Hidx Hi]]]].
  - destruct (Hf1 idx) as [He1 | [i [r [Hidx Hi]]]].
    + left. congruence.
    + right. left. exists i, r. split; [exact Hidx |].
      unfold slice_bounds, clamp_index in Hi. simpl in Hi.
      replace (nh <? 0)%Z with false in Hi
        by (symmetry; apply Z.ltb_ge; lia).
      lia.
  - right. right. exists i, r. split; [exact Hidx |].
    unfold slice_bounds, clamp_index in Hi. simpl in Hi.
    replace (nh <? 0)%Z with false in Hi by (symmetry; apply Z.ltb_ge; lia).
    replace (num_glitches (self w) <? 0)%Z with false in Hi
      by (symmetry; apply Z.ltb_ge; lia).
    lia.
Qed.

(** C5 (code defect). Lines 190-214 on any state and batch:
    - an object built with a file of glitches has no attribute [glitches]
      ([__init__] assigns [hanford_glitches] and [livingston_glitches]
      then), and the test of line 192 raises [AttributeError];
    - built without one, it has [glitches = None] and the batch is left
      alone;
    - were [glitches] an object, one glitch to place (or none) would never
      be placed: [randint(1)] is 0, and [torch.stack] of no sample raises. *)
Theorem glitch_step_defects (w : world R) (X : ndarray R)
  (fs : filesystem R) (a : Args.t) (opened : list string) :
  match glitches (self w) with
  | None => glitch_step X w = (Raise AttributeError, w)
  | Some None => glitch_step X w = (Ok X, w)
  | Some (Some _) =>
      if (num_glitches (self w) <=? 1)%Z
      then is_ok (fst (glitch_step X w)) = false
      else True
  end
  /\ match Args.glitch_dataset a, fst (load_glitches fs a opened) with
     | Some _, Ok (g, _, _) => g = None
     | None, Ok (g, _, _) => g = Some None
     | _, Raise _ => True
     end.
Proof.
  split.
  - destruct (glitches (self w)) as [[g |] |] eqn:Hg.
    + destruct (num_glitches (self w) <=? 1)%Z eqn:Hn; [| exact I].
      eapply glitch_step_single; eassumption.
    + apply glitch_step_without_source; assumption.
    + apply glitch_step_unset; assumption.
  - unfold load_glitches, bind, assert, h5py_File, lift, h5_read, ret.
    destruct (Args.glitch_dataset a) as [p |].
    + destruct (0 <? Args.glitch_frac a)%float; [| exact I].
      destruct (fs p) as [f |]; [| exact I].
      destruct (f "hanford"%string); [| exact I].
      destruct (f "livingston"%string); [| exact I].
      reflexivity.
    + destruct (Args.glitch_frac a =? 0)%float; [| exact I]. reflexivity.
Qed.

(** C6 (amended). Without a source of glitches ([glitches] is [None]) the
    glitch step returns the batch it was given; without a source of
    waveforms ([waveforms] is [None]) the waveform step returns the batch
    and the labels it was given; neither touches the generator. *)
Theorem steps_skipped_without_source (w : world R) (X y : ndarray R) :
  (glitches (self w) = Some None -> glitch_step X w = (Ok X, w))
  /\ (waveforms (self w) = None -> waveform_step X y w = (Ok (X, y), w)).
Proof.
  split.
  - apply glitch_step_without_source.
  - apply waveform_step_without_pool.
Qed.

End ComposeFacts.

Section BackgroundFacts.
Import Py Np Dataloader.
Context {R : Type} {NR : Numeric R}.

(** Lines 141-153, when the batch fits in the offsets there are: each
    detector gets [batch_size] pairwise distinct start offsets of
    [0, len - kernel_size); with [independent] they come from two draws in
    a row, without it the second list is the first. *)
Lemma background_starts_spec (w : world R) independent n_h n_l rest_h rest_l :
  shape (hanford_background (self w)) = n_h :: rest_h ->
  shape (livingston_background (self w)) = n_l :: rest_l ->
  (0 <= batch_size (self w) <= Z.of_nat n_h - kernel_size (self w))%Z ->
  (batch_size (self w) <= Z.of_nat n_l - kernel_size (self w))%Z ->
  exists hs ls w',
    background_starts independent w = (Ok (hs, ls), w')
    /\ self w' = self w
    /\ List.length hs = Z.to_nat (batch_size (self w))
    /\ NoDup hs
    /\ (forall x, In x hs ->
          (0 <= x < Z.of_nat n_h - kernel_size (self w))%Z)
    /\ List.length ls = Z.to_nat (batch_size (self w))
    /\ NoDup ls
    /\ (if independent
        then forall x, In x ls ->
               (0 <= x < Z.of_nat n_l - kernel_size (self w))%Z
        else ls = hs).
Proof.
  intros Hh Hl Hbh Hbl.
  unfold background_starts, bind at 1, get_self.
  unfold bind at 1, lift, len. rewrite Hh.
  unfold bind at 1, with_rng.
  destruct (@choice_spec (Z.of_nat n_h - kernel_size (self w))
              (batch_size (self w)) (np_random w) Hbh)
    as [hs [g1 [Hc1 [Hlen1 [Hnd1 Hin1]]]]].
  rewrite Hc1. destruct independent.
  - unfold bind at 1. unfold bind at 1. cbn [self np_random]. rewrite Hl.
    destruct (@choice_spec (Z.of_nat n_l - kernel_size (self w))
                (batch_size (self w)) g1 ltac:(lia))
      as [ls [g2 [Hc2 [Hlen2 [Hnd2 Hin2]]]]].
    rewrite Hc2. unfold ret.
    exists hs, ls, {| self := self w; np_random := g2 |}.
    repeat (split; [first [reflexivity | assumption] |]). exact Hin2.
  - unfold bind, ret.
    exists hs, hs, {| self := self w; np_random := g1 |}.
    repeat (split; [first [reflexivity | assumption] |]). reflexivity.
Qed.

Lemma background_windows_ok (d : RandomWaveformDataset R) starts n_h n_l
  rest_h rest_l :
  shape (hanford_background d) = n_h :: rest_h ->
  shape (livingston_background d) = n_l :: rest_l ->
  exists X, background_windows d starts = Ok X
            /\ List.length X = List.length starts.
Proof.
  intros Hh Hl. induction starts as [| [h l] rest IH]; simpl.
  - exists []. split; reflexivity.
  - unfold slice0 at 1. rewrite Hh.
    destruct (slice_bounds n_h _ _) as [lo hi]. simpl.
    unfold slice0 at 1. rewrite Hl.
    destruct (slice_bounds n_l _ _) as [lo' hi']. simpl.
    destruct IH as [X [HX Hlen]]. rewrite HX. simpl.
    eexists. split; [reflexivity |]. simpl. rewrite Hlen. reflexivity.
Qed.

(** Lines 140-166 on a batch of one window or more that fits: [torch.cat]
    is handed a list of lists and raises [TypeError]. *)
Lemma sample_from_background_type_error (w : world R) independent n_h n_l
  rest_h rest_l :
  shape (hanford_background (self w)) = n_h :: rest_h ->
  shape (livingston_background (self w)) = n_l :: rest_l ->
  (0 < batch_size (self w) <= Z.of_nat n_h - kernel_size (self w))%Z ->
  (batch_size (self w) <= Z.of_nat n_l - kernel_size (self w))%Z ->
  fst (sample_from_background independent w) = Raise TypeError.
Proof.
  intros Hh Hl Hbh Hbl.
  destruct (@background_starts_spec w independent n_h n_l rest_h rest_l
              Hh Hl ltac:(lia) Hbl)
    as [hs [ls [w' [Hs [Hself [Hlh [_ [_ [Hll _]]]]]]]]].
  unfold sample_from_background, bind at 1. rewrite Hs.
  unfold bind at 1, get_self. unfold bind, lift. cbn [fst snd].
  rewrite <- Hself in Hh, Hl.
  destruct (@background_windows_ok (self w') (combine hs ls) n_h n_l
              rest_h rest_l Hh Hl) as [X [HX Hlen]].
  rewrite HX. rewrite (torch_cat_of_lists _ _ HX).
  rewrite length_combine, Hlh, Hll, Nat.min_id in Hlen.
  destruct X as [| x X]; [simpl in Hlen; lia | reflexivity].
Qed.

(** C4 (code defect). [sample_from_background] returns no batch, of any
    shape: whatever the state and the flag, it raises; on the backgrounds
    of the spec's scenario it raises the [TypeError] of [torch.cat], which
    line 166 hands a list of two-element lists. *)
Theorem sample_from_background_returns_no_batch
  (w : world R) (independent : bool) (g : rng) :
  is_ok (fst (sample_from_background independent w)) = false
  /\ fst (sample_from_background independent
            {| self := scenario; np_random := g |}) = Raise TypeError.
Proof.
  split.
  - destruct (sample_from_background_fails independent w) as [e [He _]].
    rewrite He. reflexivity.
  - apply (@sample_from_background_type_error _ independent 4096 4096 [] []);
      simpl; try reflexivity; lia.
Qed.

End BackgroundFacts.

Section LabelFacts.
Import Py Np Dataloader.
Context {R : Type} {NR : Numeric R}.

Lemma map_const_repeat A B (c : B) (l : list A) :
  map (fun _ => c) l = repeat c (List.length l).
Proof. induction l as [| x l IH]; simpl; [| rewrite IH]; reflexivity. Qed.

Lemma map_threshold A (a b : A) lo n :
  lo <= n ->
  map (fun i => if (lo <=? i) && (i <? n) then a else b) (seq 0 n)
  = repeat b lo ++ repeat a (n - lo).
Proof.
  intro H.
  assert (Hs : seq 0 n = seq 0 lo ++ seq (0 + lo) (n - lo))
    by (rewrite <- seq_app; f_equal; lia).
  rewrite Hs, map_app. f_equal.
  - transitivity (map (fun _ : nat => b) (seq 0 lo)).
    + apply map_ext_in. intros i Hi. apply in_seq in Hi.
      replace (lo <=? i) with false by (symmetry; apply Nat.leb_gt; lia).
      reflexivity.
    + rewrite map_const_repeat, length_seq. reflexivity.
  - transitivity (map (fun _ : nat => a) (seq (0 + lo) (n - lo))).
    + apply map_ext_in. intros i Hi. apply in_seq in Hi.
      replace (lo <=? i) with true by (symmetry; apply Nat.leb_le; lia).
      replace (i <? n) with true by (symmetry; apply Nat.ltb_lt; lia).
      reflexivity.
    + rewrite map_const_repeat, length_seq. reflexivity.
Qed.

(** The slice assignment of line 223 on a vector of zeros,
    [y = zeros((n,))] followed by [y[-k:] = 1]: for [0 < k <= n] the last
    [k] labels are 1 and the others 0; for [k = 0] the slice [y[-0:]] is
    the whole vector, and every label is 1. *)
Lemma labels_of_last_rows (n : nat) (k : Z) :
  (0 <= k <= Z.of_nat n)%Z ->
  exists y,
    rbind (zeros1 (Z.of_nat n))
          (fun y0 => setitem_slice_scalar y0 (Some (- k)%Z) None one) = Ok y
    /\ to_list y = if (k =? 0)%Z then repeat one n
                   else repeat zero (n - Z.to_nat k) ++ repeat one (Z.to_nat k).
Proof.
  intro Hk. unfold zeros1.
  replace (Z.of_nat n <? 0)%Z with false by (symmetry; apply Z.ltb_ge; lia).
  simpl rbind. unfold setitem_slice_scalar. simpl shape.
  rewrite Nat2Z.id. unfold slice_bounds, clamp_index.
  eexists. split; [reflexivity |]. unfold to_list. simpl shape. simpl item.
  destruct (Z.eqb_spec k 0) as [-> | Hne].
  - simpl. rewrite (@map_threshold R one zero 0 n) by lia.
    simpl. rewrite Nat.sub_0_r. reflexivity.
  - replace (- k <? 0)%Z with true by (symmetry; apply Z.ltb_lt; lia).
    replace (Z.to_nat (Z.max (- k + Z.of_nat n) 0)) with (n - Z.to_nat k)
      by lia.
    replace (Nat.max (n - Z.to_nat k) n) with n by lia.
    rewrite (@map_threshold R one zero (n - Z.to_nat k) n) by lia.
    replace (n - (n - Z.to_nat k)) with (Z.to_nat k) by lia. reflexivity.
Qed.

Lemma bind_raises S A B (c : M S A) (k : A -> M S B) s e :
  fst (c s) = Raise e -> fst (bind c k s) = Raise e.
Proof.
  unfold bind. destruct (c s) as [[a | e'] s']; simpl; intro H;
    [discriminate | inversion H; reflexivity].
Qed.

(** C2 (code defect). No call composes a batch whose labels mark the
    waveforms:
    - [next()] never returns, on any state;
    - with a pool of waveforms, lines 216-223 raise before the labels are
      assigned, and without one they leave every label at 0;
    - the constructor, whose line 109 is to compute [num_waveforms], never
      returns an object;
    - on the dataset of the spec's scenario (batch_size 8, two waveforms
      per batch) the waveform step raises [NotImplementedError] and
      [next()] raises [TypeError], where the spec expects the labels
      0, 0, 0, 0, 0, 0, 1, 1. *)
Theorem compose_yields_no_waveform_labels
  (w : world R) (X y : ndarray R)
  (design : filter_design R)
  (fs : filesystem R) (a : Args.t) (opened : list string) (g : rng) :
  is_ok (fst (__next__ w)) = false
  /\ match waveforms (self w) with
     | Some _ => is_ok (fst (waveform_step X y w)) = false
     | None => waveform_step X y w = (Ok (X, y), w)
     end
  /\ is_ok (fst (__init__ design fs a opened)) = false
  /\ fst (waveform_step (full [8; 2; 1] zero) (full [8] zero)
            {| self := scenario; np_random := g |})
     = Raise NotImplementedError
  /\ fst (__next__ (snd (__iter__ {| self := scenario; np_random := g |})))
     = Raise TypeError.
Proof.
  split; [apply next_never_ok |].
  split.
  { destruct (waveforms (self w)) as [pool |] eqn:Hp.
    - eapply waveform_step_with_pool; eassumption.
    - apply waveform_step_without_pool; assumption. }
  split; [apply init_never_returns |].
  split.
  - set (w0 := {| self := scenario; np_random := g |}).
    destruct (@sample_from_array_ok R w0 (full [4; 2; 3] one) 2 4 3 [2; 3]
                eq_refl ltac:(discriminate) eq_refl ltac:(simpl; lia)
                ltac:(simpl; lia))
      as [idx [starts [segs [Hok _]]]].
    unfold waveform_step, bind at 1, get_self.
    change (waveforms (self w0)) with (Some (full [4; 2; 3] one)).
    change (num_waveforms (self w0)) with 2%Z. cbv iota.
    unfold bind at 1.
    destruct (sample_from_array (full [4; 2; 3] one) 2 w0) as [[l | e] w1];
      simpl in Hok; [| discriminate].
    reflexivity.
  - unfold __next__, bind at 1, get_self. unfold bind at 1, getattr.
    cbn [__iter__ snd self _batch_idx set_batch_idx batches_per_epoch
         scenario ret].
    simpl (1 <=? 0)%Z. cbv iota.
    apply bind_raises.
    apply (@sample_from_background_type_error _ _ true 4096 4096 [] []);
      simpl; try reflexivity; lia.
Qed.

End LabelFacts.

Section MoreDatasetFacts.
Import Py Np Dataloader.
Context {R : Type} {NR : Numeric R}.

(** X10. No method called while sampling assigns an attribute of the
    dataset: after [sample_from_array], [sample_from_background], the
    glitch and waveform steps, [whiten], [next()], or any number of calls
    of [next()], whether they return or raise, the object is the one they
    were called on. Only the random generator moves. *)
Theorem sampling_leaves_the_dataset_alone
  (w : world R) (array X y : ndarray R) (N : Z) (independent : bool)
  (n : nat) :
  self (snd (sample_from_array array N w)) = self w
  /\ self (snd (sample_from_background independent w)) = self w
  /\ self (snd (glitch_step X w)) = self w
  /\ self (snd (waveform_step X y w)) = self w
  /\ self (snd (whiten X w)) = self w
  /\ self (snd (__next__ w)) = self w
  /\ self (snd (next_calls n w)) = self w.
Proof.
  repeat split.
  - apply keeps_sample_from_array.
  - apply keeps_sample_from_background.
  - apply keeps_glitch_step.
  - apply keeps_waveform_step.
  - apply keeps_whiten.
  - apply keeps_next.
  - apply next_calls_keep_self.
Qed.

Lemma shape_last_app (a : ndarray R) pre L :
  shape a = pre ++ [L] -> shape_last a = Ok L.
Proof.
  intro H. unfold shape_last. rewrite H, rev_app_distr. reflexivity.
Qed.

Lemma clamp_index_inside n i :
  (0 <= i <= Z.of_nat n)%Z -> clamp_index n i = Z.to_nat i.
Proof.
  intro H. unfold clamp_index.
  replace (i <? 0)%Z with false by (symmetry; apply Z.ltb_ge; lia). lia.
Qed.

Lemma stretch_spec (array : ndarray R) (P L : nat) (mid : list nat)
  (i start K : Z) :
  shape array = P :: mid ++ [L] -> List.length mid <= 1 ->
  (0 <= i < Z.of_nat P)%Z -> (0 <= start)%Z -> (0 <= K)%Z ->
  (start + K <= Z.of_nat L)%Z ->
  exists seg,
    stretch array i start (start + K) = Ok seg
    /\ shape seg = mid ++ [Z.to_nat K]
    /\ forall pre k, List.length pre = List.length mid -> k < Z.to_nat K ->
         item seg (pre ++ [k])
         = item array (Z.to_nat i :: pre ++ [Z.to_nat start + k]).
Proof.
  intros Hs Hm Hi Hstart HK Hstop.
  unfold stretch, ndim, getitem_i_slice, getitem_i_all_slice, index0,
    subscript. rewrite Hs.
  replace (i <? 0)%Z with false by (symmetry; apply Z.ltb_ge; lia).
  replace ((0 <=? i)%Z && (i <? Z.of_nat P)%Z) with true
    by (symmetry; apply andb_true_iff; split;
        [apply Z.leb_le | apply Z.ltb_lt]; lia).
  destruct mid as [| C [| C' mid]]; [| | simpl in Hm; lia].
  - simpl. unfold slice0, slice_bounds. simpl.
    rewrite !clamp_index_inside by lia.
    eexists. split; [reflexivity |]. split.
    + simpl. f_equal. lia.
    + intros pre k Hpre Hk. destruct pre; [| discriminate]. reflexivity.
  - simpl. unfold slice1, slice_bounds. simpl.
    rewrite !clamp_index_inside by lia.
    eexists. split; [reflexivity |]. split.
    + simpl. f_equal. f_equal. lia.
    + intros pre k Hpre Hk.
      destruct pre as [| c [| c' pre]]; try discriminate. reflexivity.
Qed.

(** X8. What [sample_from_array] returns on a pool of shape (P, L) or
    (P, C, L) with [0 <= kernel_size < L] and [0 <= N <= P]: [N] segments,
    each of shape (kernel_size) or (C, kernel_size), each holding the
    samples [start .. start + kernel_size) of one example [i] of the pool,
    for an [i] in [0, P) and a [start] in [0, L - kernel_size); the
    dataset object is unchanged. *)
Theorem sample_from_array_crops_pool_examples
  (w : world R) (array : ndarray R) (N : Z) (P L : nat) (mid : list nat) :
  shape array = P :: mid ++ [L] -> List.length mid <= 1 ->
  (0 <= kernel_size (self w) < Z.of_nat L)%Z -> (0 <= N <= Z.of_nat P)%Z ->
  exists segments w',
    sample_from_array array N w = (Ok segments, w')
    /\ self w' = self w
    /\ List.length segments = Z.to_nat N
    /\ Forall (fun seg =>
         shape seg = mid ++ [Z.to_nat (kernel_size (self w))]
         /\ exists i start,
              (0 <= i < Z.of_nat P)%Z
              /\ (0 <= start < Z.of_nat L - kernel_size (self w))%Z
              /\ forall pre k,
                   List.length pre = List.length mid ->
                   k < Z.to_nat (kernel_size (self w)) ->
                   item seg (pre ++ [k])
                   = item array (Z.to_nat i :: pre ++ [Z.to_nat start + k]))
         segments.
Proof.
  intros Hs Hm HK HN.
  assert (HL : shape_last array = Ok L)
    by (apply (@shape_last_app array (P :: mid) L); exact Hs).
  assert (Hr : mid ++ [L] <> []) by (destruct mid; discriminate).
  destruct (@sample_from_array_ok R w array N P L (mid ++ [L]) Hs Hr HL
              ltac:(lia) HN)
    as [idx [starts [segs [Hok [Hli [_ [Hin [Hls [Hst Hall]]]]]]]]].
  pose proof (keeps_sample_from_array array N w) as Hk.
  destruct (sample_from_array array N w) as [r w'] eqn:Hrun.
  simpl in Hok, Hk. subst r. exists segs, w'.
  split; [reflexivity |]. split; [exact Hk |].
  assert (Hlc : List.length (combine idx starts) = Z.to_nat N)
    by (rewrite length_combine, Hli, Hls; apply Nat.min_id).
  split; [rewrite <- (Forall2_length Hall); exact Hlc |].
  assert (Hpairs : Forall (fun p => (0 <= fst p < Z.of_nat P)%Z
                            /\ (0 <= snd p
                                < Z.of_nat L - kernel_size (self w))%Z)
                          (combine idx starts)).
  { apply Forall_forall. intros [i s] Hp. simpl. split.
    - apply Hin. eapply in_combine_l; exact Hp.
    - rewrite Forall_forall in Hst. apply Hst.
      eapply in_combine_r; exact Hp. }
  clear - Hall Hpairs Hs Hm HK.
  induction Hall as [| [i s] seg ps segs' Hseg Hall IH]; constructor.
  - inversion Hpairs as [| ? ? [Hi Hsr] _]; subst. simpl in *.
    destruct (@stretch_spec array P L mid i s (kernel_size (self w))
                Hs Hm Hi ltac:(lia) ltac:(lia) ltac:(lia))
      as [seg' [Hseg' [Hshape Hitem]]].
    rewrite Hseg in Hseg'. inversion Hseg'; subst seg'.
    split; [exact Hshape |]. exists i, s. repeat split; try lia.
    exact Hitem.
  - apply IH. inversion Hpairs; assumption.
Qed.

(** X9. [RandomWaveformDataset.whiten] on a batch of shape (B, C, K)
    never returns, and leaves the state alone. Line 173 subtracts a mean
    of shape (B, C) from the batch without keeping the reduced axis: when
    the trailing axes do not broadcast (K against C, C against B) it
    raises [RuntimeError]; when they do, line 174 looks up
    [torch.functional.conv1d] and raises [AttributeError]. *)
Theorem whiten_raises (w : world R) (X : ndarray R) (B C K : nat) :
  shape X = [B; C; K] ->
  whiten X w
  = (Raise (if ((K =? C) || (K =? 1) || (C =? 1))
               && ((C =? B) || (C =? 1) || (B =? 1))
            then AttributeError else RuntimeError), w).
Proof.
  intro Hs. unfold whiten, bind at 1, get_self.
  unfold bind at 1, lift at 1, mean_last, ndim. rewrite Hs.
  unfold mean_axis, ndim. rewrite Hs. simpl.
  unfold bind at 1, lift at 1, elementwise, broadcast_shapes.
  rewrite Hs. simpl.
  destruct (C =? B) eqn:H1; destruct (C =? 1) eqn:H2;
    destruct (B =? 1) eqn:H3; simpl;
    destruct (K =? C) eqn:H4; destruct (K =? 1) eqn:H5; simpl;
    reflexivity.
Qed.

(** X11. [next()] outside an epoch: before any call of [iter()] the
    attribute [_batch_idx] does not exist and [next()] raises
    [AttributeError]; once the index has reached [batches_per_epoch],
    every further call raises [StopIteration], draws nothing from the
    generator and changes nothing. *)
Theorem next_outside_an_epoch (w : world R) (n : nat) :
  (_batch_idx (self w) = None -> __next__ w = (Raise AttributeError, w))
  /\ (forall i, _batch_idx (self w) = Some i ->
        (batches_per_epoch (self w) <= i)%Z ->
        next_calls n w = (repeat (Raise StopIteration) n, w)).
Proof.
  split.
  - intro H. unfold __next__, bind, get_self, getattr. rewrite H. reflexivity.
  - intros i Hi Hle. induction n as [| n IH]; simpl.
    + reflexivity.
    + rewrite (@next_at_end_of_epoch R NR w i Hi)
        by (apply Z.leb_le; exact Hle).
      rewrite IH. reflexivity.
Qed.

End MoreDatasetFacts.

Section MoreBackgroundFacts.
Import Py Np Dataloader.
Context {R : Type} {NR : Numeric R}.

Lemma choice_outcome a size g :
  match choice a size g with
  | (Ok xs, _) =>
      (0 <= size <= a)%Z
      /\ List.length xs = Z.to_nat size
      /\ NoDup xs
      /\ (forall x, In x xs -> (0 <= x < a)%Z)
  | (Raise _, g') => ~ (0 <= size <= a)%Z /\ g' = g
  end.
Proof.
  pose proof (choice_ok_iff a size g) as Hiff.
  destruct (choice a size g) as [[xs | e] g'] eqn:Hc; simpl in Hiff.
  - assert (H : (0 <= size <= a)%Z) by (apply Hiff; reflexivity).
    split; [exact H |].
    destruct (@choice_spec a size g H) as [xs' [g'' [Hc' Hrest]]].
    rewrite Hc in Hc'. inversion Hc'; subst. exact Hrest.
  - split.
    + intro H. apply Hiff in H. discriminate.
    + unfold choice in Hc.
      destruct ((a <=? 0)%Z && negb (size =? 0)%Z);
        [inversion Hc; reflexivity |].
      destruct (a <? size)%Z; [inversion Hc; reflexivity |].
      destruct (size <? 0)%Z; [inversion Hc; reflexivity |].
      destruct (draw_distinct _ _ _); discriminate.
Qed.

(** X5. Lines 141-153 on backgrounds of [n_h] and [n_l] samples: the
    start offsets are drawn exactly when
    [0 <= batch_size <= n_h - kernel_size] (and, with [independent],
    [batch_size <= n_l - kernel_size]); when they are, each detector gets
    [batch_size] pairwise distinct offsets, so that every window lies
    inside its background; with [independent] the second list is a draw of
    its own, without it the second list is the first. *)
Theorem background_offsets (w : world R) (independent : bool)
  (n_h n_l : nat) (rest_h rest_l : list nat) :
  shape (hanford_background (self w)) = n_h :: rest_h ->
  shape (livingston_background (self w)) = n_l :: rest_l ->
  (is_ok (fst (background_starts independent w)) = true
   <-> (0 <= batch_size (self w) <= Z.of_nat n_h - kernel_size (self w))%Z
       /\ (independent = true ->
           (batch_size (self w)
            <= Z.of_nat n_l - kernel_size (self w))%Z))
  /\ forall hs ls w',
       background_starts independent w = (Ok (hs, ls), w') ->
       self w' = self w
       /\ List.length hs = Z.to_nat (batch_size (self w))
       /\ NoDup hs
       /\ (forall x, In x hs ->
             (0 <= x < Z.of_nat n_h - kernel_size (self w))%Z)
       /\ List.length ls = Z.to_nat (batch_size (self w))
       /\ NoDup ls
       /\ (if independent
           then forall x, In x ls ->
                  (0 <= x < Z.of_nat n_l - kernel_size (self w))%Z
           else ls = hs).
Proof.
  intros Hh Hl.
  assert (Hrun :
    match background_starts independent w with
    | (Ok (hs, ls), w') =>
        ((0 <= batch_size (self w)
          <= Z.of_nat n_h - kernel_size (self w))%Z
         /\ (independent = true ->
             (batch_size (self w)
              <= Z.of_nat n_l - kernel_size (self w))%Z))
        /\ self w' = self w
        /\ List.length hs = Z.to_nat (batch_size (self w))
        /\ NoDup hs
        /\ (forall x, In x hs ->
              (0 <= x < Z.of_nat n_h - kernel_size (self w))%Z)
        /\ List.length ls = Z.to_nat (batch_size (self w))
        /\ NoDup ls
        /\ (if independent
            then forall x, In x ls ->
                   (0 <= x < Z.of_nat n_l - kernel_size (self w))%Z
            else ls = hs)
    | (Raise _, _) =>
        ~ ((0 <= batch_size (self w)
            <= Z.of_nat n_h - kernel_size (self w))%Z
           /\ (independent = true ->
               (batch_size (self w)
                <= Z.of_nat n_l - kernel_size (self w))%Z))
    end).
  { unfold background_starts, bind at 1, get_self.
    unfold bind at 1, lift, len. rewrite Hh.
    unfold bind at 1, with_rng.
    pose proof (choice_outcome (Z.of_nat n_h - kernel_size (self w))
                  (batch_size (self w)) (np_random w)) as H1.
    destruct (choice (Z.of_nat n_h - kernel_size (self w))
                     (batch_size (self w)) (np_random w))
      as [[hs | e] g1].
    - destruct H1 as [Hb1 [Hlen1 [Hnd1 Hin1]]].
      destruct independent.
      + unfold bind at 1. unfold bind at 1. cbn [self np_random]. rewrite Hl.
        pose proof (choice_outcome (Z.of_nat n_l - kernel_size (self w))
                      (batch_size (self w)) g1) as H2.
        destruct (choice (Z.of_nat n_l - kernel_size (self w))
                         (batch_size (self w)) g1) as [[ls | e] g2].
        * destruct H2 as [Hb2 [Hlen2 [Hnd2 Hin2]]]. unfold ret. simpl.
          split; [split; [exact Hb1 | intros _; lia] |].
          repeat (split; [first [reflexivity | assumption] |]). exact Hin2.
        * destruct H2 as [Hno _]. simpl. intros [Hb Hi]. apply Hno.
          specialize (Hi eq_refl). lia.
      + unfold bind, ret. simpl.
        split; [split; [exact Hb1 | discriminate] |].
        repeat (split; [first [reflexivity | assumption] |]). reflexivity.
    - destruct H1 as [Hno _]. simpl. intros [Hb _]. apply Hno. exact Hb. }
  destruct (background_starts independent w) as [[[hs ls] | e] w1]; simpl.
  - destruct Hrun as [Hc Hpost]. split.
    + split; [intros _; exact Hc | reflexivity].
    + intros hs' ls' w' H. inversion H; subst. exact Hpost.
  - split.
    + split; [discriminate | intro Hc; exfalso; exact (Hrun Hc)].
    + intros hs' ls' w' H. discriminate.
Qed.

End MoreBackgroundFacts.

(** One statement of a body that has run to its end. *)
Tactic Notation "step" hyp(H) ident(x) ident(s) ident(Hx) :=
  apply bind_ok in H; destruct H as [x [s [Hx H]]].

Section MoreConstructorFacts.
Import Py Np Dataloader.
Context {R : Type} {NR : Numeric R}.
Variable design : filter_design R.

Lemma lift_ok S A (r : result A) (s s' : S) a :
  lift r s = (Ok a, s') -> r = Ok a /\ s' = s.
Proof. unfold lift. intro H. inversion H. split; reflexivity. Qed.

(** X12. Lines 52-78 of [__init__] never complete, and [_build_filter]
    never returns a filter: [signal.welch] returns a tuple, which line 22
    raises to a power. Whatever the files and the arguments, lines 52-78
    raise with the hanford file opened and the livingston one not; the
    exception is [TypeError] when the hanford file holds its array,
    [int(DEFAULT_FFTLENGTH * sample_rate)] is defined and [signal.welch]
    returns. The design of gwpy is never called: the outcome is the same
    for any two designs with one [signal.welch]. *)
Theorem load_background_stops_at_the_first_filter
  (fs : filesystem R) (a : Args.t) (opened : list string) :
  (forall timeseries sample_rate,
     is_ok (_build_filter design timeseries sample_rate) = false)
  /\ (exists e, load_background design fs a opened
                = (Raise e, Args.hanford_background a :: opened))
  /\ (forall f hoft nfft spectrum,
        fs (Args.hanford_background a) = Some f ->
        f "hoft"%string = Some hoft ->
        int_of_float (DEFAULT_FFTLENGTH * Args.sample_rate a) = Ok nfft ->
        signal_welch design hoft (Args.sample_rate a) nfft = Ok spectrum ->
        load_background design fs a opened
        = (Raise TypeError, Args.hanford_background a :: opened))
  /\ (forall design' : filter_design R,
        signal_welch design' = signal_welch design ->
        load_background design' fs a opened
        = load_background design fs a opened).
Proof.
  split; [apply _build_filter_raises |].
  split; [apply load_background_stops |].
  split; [intros; eapply load_background_TypeError; eassumption |].
  intros design' Hw. rewrite !load_background_outcome, Hw. reflexivity.
Qed.

End MoreConstructorFacts.

Section MoreWhiteningFacts.
Import Py Np Whitening.
Context {R : Type} {NR : Numeric R}.
Variable gwpy_asd : ndarray R -> float -> float -> result (ndarray R).
Variable gwpy_fir : ndarray R -> float -> Z -> result (ndarray R).
Variable float_pow : float -> float -> float.

(** X3. [fit] changes the transform only when it returns: a call that
    raises leaves every attribute as it was. With a number of backgrounds
    other than the number of rows of the filter it raises [ValueError];
    with no background at all it never returns. *)
Theorem fit_is_all_or_nothing
  (t : WhiteningTransform R) (backgrounds : list (ndarray R)) :
  (is_ok (fst (fit gwpy_asd gwpy_fir backgrounds t)) = false ->
   snd (fit gwpy_asd gwpy_fir backgrounds t) = t)
  /\ (forall rows, shape0 (time_domain_filter t) = Ok rows ->
        List.length backgrounds <> rows ->
        fit gwpy_asd gwpy_fir backgrounds t = (Raise ValueError, t))
  /\ is_ok (fst (fit gwpy_asd gwpy_fir [] t)) = false.
Proof.
  split; [| split].
  - destruct (fit gwpy_asd gwpy_fir backgrounds t) as [r t'] eqn:H.
    simpl. intro Hr.
    destruct (fit_outcome _ _ _ _ H)
      as [[_ Ht] | [n [tdfs [tdf [_ [_ [_ [_ [Hok _]]]]]]]]].
    + exact Ht.
    + subst r. discriminate.
  - intros rows Hrows Hne. unfold fit, bind at 1, get.
    unfold bind at 1, lift at 1. rewrite Hrows.
    replace (List.length backgrounds =? rows) with false
      by (symmetry; apply Nat.eqb_neq; exact Hne).
    reflexivity.
  - destruct (fit gwpy_asd gwpy_fir [] t) as [r t'] eqn:H. simpl.
    destruct (fit_outcome _ _ _ _ H)
      as [[Hr _] | [n [tdfs [tdf [_ [_ [Hall [Hst _]]]]]]]].
    + exact Hr.
    + inversion Hall; subst. discriminate.
Qed.

(** X2. [forward] hands [time_domain_filter] to [conv1d] as its weight,
    which must have three axes (channels out, channels in per group,
    taps). With a filter of any other number of axes, such as the
    two-axis filter that the repository's test expects of the constructor
    ([time_domain_filter.ndim == 2]), [forward] never returns; on a batch
    of shape (B, C, K) that passes the window it raises [RuntimeError]. *)
Theorem forward_needs_a_three_axis_filter
  (t : WhiteningTransform R) (X : ndarray R) :
  ndim (time_domain_filter t) <> 3 ->
  is_ok (forward float_pow t X) = false
  /\ forall B C K, shape X = [B; C; K] -> shape (window t) = [K] ->
       forward float_pow t X = Raise RuntimeError.
Proof.
  intro Hn.
  assert (Hconv : forall Y, conv1d_same Y (time_domain_filter t) (num_ifos t)
                            = Raise RuntimeError).
  { intro Y. unfold conv1d_same. unfold ndim in Hn.
    destruct (shape Y) as [| b [| c [| k [| ? ?]]]]; try reflexivity.
    destruct (shape (time_domain_filter t)) as [| o [| i [| x [| ? ?]]]];
      try reflexivity.
    exfalso. apply Hn. reflexivity. }
  split.
  - unfold forward. destruct (detrend X); [| reflexivity]. cbn [rbind].
    destruct (apply_window t a); [| reflexivity]. cbn [rbind].
    rewrite Hconv. reflexivity.
  - intros B C K Hs Hw.
    destruct (detrend_spec X Hs) as [X1 [H1 [Hs1 _]]].
    destruct (apply_window_spec t X1 Hs1 Hw) as [X2 [H2 _]].
    unfold forward. rewrite H1. cbn [rbind]. rewrite H2. cbn [rbind].
    rewrite Hconv. reflexivity.
Qed.

End MoreWhiteningFacts.

Section LoopFacts.
Import Py Np Trainer.
Context {R : Type}.
Variables T D L : Type.
Variable torch : torch_calls R T L.

Lemma keeps_data_ret A (a : A) : keeps_data (ret a : M (session T D) A).
Proof. intro s. split; reflexivity. Qed.

Lemma keeps_data_lift A (r : result A) :
  keeps_data (lift r : M (session T D) A).
Proof. intro s. split; reflexivity. Qed.

Lemma keeps_data_on_torch A (c : M T A) : keeps_data (on_torch (D := D) c).
Proof.
  intro s. unfold on_torch. destruct (c (torch_objects s)). split; reflexivity.
Qed.

Lemma keeps_data_bind A B (c : M (session T D) A) (k : A -> M (session T D) B) :
  keeps_data c -> (forall a, keeps_data (k a)) -> keeps_data (bind c k).
Proof.
  intros Hc Hk s. unfold bind. specialize (Hc s).
  destruct (c s) as [[a | e] s1]; simpl in *.
  - destruct (Hk a s1) as [H1 H2]. destruct Hc as [H3 H4].
    split; congruence.
  - exact Hc.
Qed.

Ltac keeps_data :=
  repeat match goal with
    | |- forall _, _ => intro
    | |- keeps_data (bind _ _) => apply keeps_data_bind
    | |- keeps_data (ret _) => apply keeps_data_ret
    | |- keeps_data (lift _) => apply keeps_data_lift
    | |- keeps_data (on_torch _) => apply keeps_data_on_torch
    | |- keeps_data (let _ := _ in _) => cbv zeta
    | |- keeps_data (if ?b then _ else _) => destruct b
    end.

Lemma keeps_data_train_batch profiler scaler b acc :
  keeps_data (train_batch (D := D) torch profiler scaler b acc).
Proof. unfold train_batch. keeps_data. Qed.

Lemma keeps_data_valid_batch b acc :
  keeps_data (valid_batch (D := D) torch b acc).
Proof. unfold valid_batch. keeps_data. Qed.

Lemma on_torch_ok A (c : M T A) (s s' : session T D) a :
  on_torch c s = (Ok a, s') ->
  exists t', c (torch_objects s) = (Ok a, t').
Proof.
  unfold on_torch. destruct (c (torch_objects s)) as [r t'].
  intro H. inversion H; subst. exists t'. reflexivity.
Qed.

Lemma train_batch_reads profiler scaler b acc (s : session T D) acc'
  (s' : session T D) :
  train_batch torch profiler scaler b acc s = (Ok acc', s') ->
  exists o, reads (autocast_loss torch) (loss_item torch) b o
    /\ acc' = ((fst acc + fst o)%float, (snd acc + Z.of_nat (snd o))%Z).
Proof.
  unfold train_batch. intro H.
  step H u s1 H1.
  step H loss s2 H2. apply on_torch_ok in H2. destruct H2 as [t' H2].
  step H x s3 H3. apply lift_ok in H3. destruct H3 as [H3 ->].
  cbv zeta in H.
  step H n s4 H4. apply lift_ok in H4. destruct H4 as [H4 ->].
  step H u1 s5 H5. step H u2 s6 H6.
  unfold ret in H. inversion H; subst.
  exists (x, n). split; [| reflexivity].
  split; [exact H4 |]. exists (torch_objects s1), loss, t'.
  split; assumption.
Qed.

Lemma valid_batch_reads b acc (s : session T D) acc' (s' : session T D) :
  valid_batch torch b acc s = (Ok acc', s') ->
  exists o, reads (no_grad_loss torch) (loss_item torch) b o
    /\ acc' = ((fst acc + fst o)%float, (snd acc + Z.of_nat (snd o))%Z).
Proof.
  unfold valid_batch. intro H.
  step H loss s2 H2. apply on_torch_ok in H2. destruct H2 as [t' H2].
  step H x s3 H3. apply lift_ok in H3. destruct H3 as [H3 ->].
  cbv zeta in H.
  step H n s4 H4. apply lift_ok in H4. destruct H4 as [H4 ->].
  unfold ret in H. inversion H; subst.
  exists (x, n). split; [| reflexivity].
  split; [exact H4 |]. exists (torch_objects s), loss, t'.
  split; assumption.
Qed.

(** A loop whose body leaves the datasets alone goes through the states
    of the iterator alone; when it ends, the iterator has raised
    [StopIteration], and the local variables hold the sums of what the
    body has read. *)
Lemma for_in_accumulates X (nxt : M D X)
  (body : X -> float * Z -> M (session T D) (float * Z))
  (reads_ : X -> float * nat -> Prop) :
  (forall x acc, keeps_data (body x acc)) ->
  (forall x acc s acc' s', body x acc s = (Ok acc', s') ->
     exists o, reads_ x o
       /\ acc' = ((fst acc + fst o)%float, (snd acc + Z.of_nat (snd o))%Z)) ->
  forall bound acc s acc' s',
    for_in bound (on_data nxt) body acc s = Some (Ok acc', s') ->
    exists xs obs,
      yields nxt (datasets s) xs StopIteration (datasets s')
      /\ clock s' = clock s
      /\ Forall2 reads_ xs obs
      /\ fst acc' = fold_left (fun a o => (a + fst o)%float) obs (fst acc)
      /\ snd acc'
         = fold_left (fun a o => (a + Z.of_nat (snd o))%Z) obs (snd acc).
Proof.
  intros Hk Hb. induction bound as [| bound IH]; intros acc s acc' s' H.
  - discriminate.
  - simpl in H. unfold on_data at 1 in H.
    destruct (nxt (datasets s)) as [[x | e] d1] eqn:Hn.
    + destruct (body x acc _) as [[acc1 | e] s2] eqn:Hbody; [| discriminate].
      pose proof (Hk x acc {| torch_objects := torch_objects s;
                              datasets := d1; clock := clock s |}) as Hf.
      rewrite Hbody in Hf. simpl in Hf. destruct Hf as [Hd Hc].
      destruct (Hb _ _ _ _ _ Hbody) as [o [Ho Hacc]].
      destruct (IH _ _ _ _ H) as [xs [obs [Hy [Hc' [Hall [Hl Hs]]]]]].
      exists (x :: xs), (o :: obs). rewrite Hd in Hy.
      split; [eapply yields_item; eassumption |].
      split; [congruence |].
      split; [constructor; assumption |].
      subst acc1. simpl in *. split; assumption.
    + destruct e; try discriminate. inversion H; subst. simpl.
      exists [], []. split; [apply yields_end; exact Hn |].
      repeat split. constructor.
Qed.

(** Such a loop ends once the iterator has raised, and it has by the
    turn after its last item. *)
Lemma for_in_terminates X A (nxt : M D X)
  (body : X -> A -> M (session T D) A) :
  (forall x acc, keeps_data (body x acc)) ->
  forall d xs e d', yields nxt d xs e d' ->
  forall bound acc s, datasets s = d -> List.length xs < bound ->
    exists r s', for_in bound (on_data nxt) body acc s = Some (r, s')
      /\ (is_ok r = true -> e = StopIteration /\ datasets s' = d').
Proof.
  intros Hk d xs e d' Hy. induction Hy; intros bound acc s Hd Hlen.
  - destruct bound as [| bound]; [simpl in Hlen; lia |].
    simpl. unfold on_data at 1. rewrite Hd, H.
    destruct e; eexists; eexists; (split; [reflexivity |]); simpl;
      try discriminate.
    intros _. split; reflexivity.
  - destruct bound as [| bound]; [simpl in Hlen; lia |].
    simpl. unfold on_data at 1. rewrite Hd, H.
    pose proof (Hk x acc {| torch_objects := torch_objects s;
                            datasets := d1; clock := clock s |}) as Hf.
    destruct (body x acc _) as [[acc1 | e0] s2].
    + simpl in Hf. destruct Hf as [Hf _].
      apply IHHy; [exact Hf | simpl in Hlen; lia].
    + eexists; eexists. split; [reflexivity |]. discriminate.
Qed.

End LoopFacts.

Section EpochAccounting.
Import Py Np Trainer.
Context {R : Type}.
Variables T D L : Type.
Variable torch : torch_calls R T L.

Lemma pbind_ok S A B (c : P S A) (k : A -> P S B) s b s' :
  pbind c k s = Some (Ok b, s') ->
  exists a s1, c s = Some (Ok a, s1) /\ k a s1 = Some (Ok b, s').
Proof.
  unfold pbind. destruct (c s) as [[[a | e] s1] |]; intro H;
    try discriminate.
  exists a, s1. split; [reflexivity | exact H].
Qed.

Lemma run_ok S A (c : M S A) s a s' :
  run c s = Some (Ok a, s') -> c s = (Ok a, s').
Proof. unfold run. intro H. inversion H. reflexivity. Qed.

Lemma time_time_reads (s : session T D) :
  time_time s
  = (Ok (nth 0 (clock s) 0%float),
     {| torch_objects := torch_objects s; datasets := datasets s;
        clock := tl (clock s) |}).
Proof.
  unfold time_time. destruct s as [t d [| x c]]; reflexivity.
Qed.

Lemma on_data_ok A (c : M D A) (s s' : session T D) a :
  on_data c s = (Ok a, s') ->
  c (datasets s) = (Ok a, datasets s') /\ clock s' = clock s.
Proof.
  unfold on_data. destruct (c (datasets s)) as [r d'].
  intro H. inversion H; subst. split; reflexivity.
Qed.

Lemma on_torch_state A (c : M T A) (s s' : session T D) r :
  on_torch c s = (r, s') ->
  datasets s' = datasets s /\ clock s' = clock s.
Proof.
  intro H. pose proof (keeps_data_on_torch (D := D) c s) as Hk.
  rewrite H in Hk. exact Hk.
Qed.

Lemma float_of_int_0 : float_of_int 0 = Ok 0%float.
Proof. vm_compute. reflexivity. Qed.

Lemma total_samples_from obs a :
  fold_left (fun a o => (a + Z.of_nat (snd o))%Z) obs a
  = (a + total_samples obs)%Z.
Proof.
  unfold total_samples. revert a.
  induction obs as [| o obs IH]; intro a; simpl.
  - lia.
  - rewrite IH. rewrite (IH (Z.of_nat (snd o))). lia.
Qed.

Lemma total_samples_nonneg obs : (0 <= total_samples obs)%Z.
Proof.
  induction obs as [| o obs IH].
  - unfold total_samples. simpl. lia.
  - unfold total_samples. simpl. rewrite total_samples_from. lia.
Qed.

(** The mean of a loop's losses is defined only when a sample was seen. *)
Lemma mean_defined obs (sum : float) n x :
  float_of_int (total_samples obs) = Ok n -> truediv sum n = Ok x ->
  (0 < total_samples obs)%Z /\ x = (sum / n)%float.
Proof.
  intros Hn Hd. unfold truediv in Hd.
  destruct (n =? 0)%float eqn:Hz; [discriminate |]. inversion Hd; subst.
  split; [| reflexivity].
  pose proof (total_samples_nonneg obs) as H0.
  destruct (Z.eq_dec (total_samples obs) 0) as [He | Hne]; [| lia].
  rewrite He, float_of_int_0 in Hn. inversion Hn; subst.
  vm_compute in Hz. discriminate.
Qed.

Lemma nth_tl A (l : list A) d k : nth k (tl l) d = nth (S k) l d.
Proof. destruct l; [destruct k |]; reflexivity. Qed.

Lemma validate_returns (valid : option (iterable D (batch R))) bound
  (s s' : session T D) valid_loss :
  validate torch valid bound s = Some (Ok valid_loss, s') ->
  clock s' = clock s
  /\ match valid, valid_loss with
     | None, None => datasets s' = datasets s
     | Some v, Some vl =>
         exists d3 vbatches vobs m,
           iter_ v (datasets s) = (Ok tt, d3)
           /\ yields (next_ v) d3 vbatches StopIteration (datasets s')
           /\ Forall2 (reads (no_grad_loss torch) (loss_item torch))
                      vbatches vobs
           /\ (0 < total_samples vobs)%Z
           /\ float_of_int (total_samples vobs) = Ok m
           /\ vl = (total_loss vobs / m)%float
     | _, _ => False
     end.
Proof.
  unfold validate. destruct valid as [v |].
  - intro H. apply pbind_ok in H. destruct H as [u [s1 [H1 H]]].
    apply run_ok in H1. step H1 u1 s0 H0.
    apply on_torch_state in H0. destruct H0 as [Hd0 Hc0].
    apply on_data_ok in H1. destruct H1 as [Hit Hc1].
    apply pbind_ok in H. destruct H as [acc [s2 [H2 H]]].
    destruct (@for_in_accumulates T D _ (next_ v) _ _
                (keeps_data_valid_batch torch)
                (@valid_batch_reads R T D L torch) _ _ _ _ _ H2)
      as [xs [obs [Hy [Hc2 [Hall [Hl Hs]]]]]].
    apply run_ok in H. step H n s3 H3.
    apply lift_ok in H3. destruct H3 as [H3 ->].
    step H vl s4 H4. apply lift_ok in H4. destruct H4 as [H4 ->].
    unfold ret in H. inversion H; subst. clear H.
    split; [congruence |].
    rewrite Hs, total_samples_from in H3. simpl in H3.
    destruct (mean_defined _ _ H3 H4) as [Hpos Hvl].
    exists (datasets s1), xs, obs, n. rewrite <- Hd0.
    destruct u.
    repeat split; try assumption.
    rewrite Hvl, Hl. reflexivity.
  - intro H. apply run_ok in H. unfold ret in H. inversion H; subst.
    split; reflexivity.
Qed.

(** X14. What [train_for_one_epoch] returns, when it returns: the
    training iterator was exhausted (it raised [StopIteration]) after at
    least one sample; [train_loss] is the sum of the losses of its batches,
    in order, divided by the number of samples seen (not by the number of
    batches); [duration] is the difference of the two readings of the
    clock and is not 0; [throughput] is the number of samples over the
    duration; [valid_loss] is [None] exactly when no validation set is
    given, and otherwise the same mean over the validation batches, which
    are iterated after the training ones. *)
Theorem train_for_one_epoch_returns_the_means
  (train : iterable D (batch R)) (valid : option (iterable D (batch R)))
  (profiler scaler : bool) (bound : nat) (s s' : session T D)
  (train_loss : float) (valid_loss : option float)
  (duration throughput : float) :
  train_for_one_epoch torch train valid profiler scaler bound s
  = Some (Ok (train_loss, valid_loss, duration, throughput), s') ->
  exists d1 d2 batches obs n,
    iter_ train (datasets s) = (Ok tt, d1)
    /\ yields (next_ train) d1 batches StopIteration d2
    /\ Forall2 (reads (autocast_loss torch) (loss_item torch)) batches obs
    /\ (0 < total_samples obs)%Z
    /\ float_of_int (total_samples obs) = Ok n
    /\ train_loss = (total_loss obs / n)%float
    /\ duration = (nth 1 (clock s) 0 - nth 0 (clock s) 0)%float
    /\ (duration =? 0)%float = false
    /\ throughput = (n / duration)%float
    /\ match valid, valid_loss with
       | None, None => datasets s' = d2
       | Some v, Some vl =>
           exists d3 vbatches vobs m,
             iter_ v d2 = (Ok tt, d3)
             /\ yields (next_ v) d3 vbatches StopIteration (datasets s')
             /\ Forall2 (reads (no_grad_loss torch) (loss_item torch))
                        vbatches vobs
             /\ (0 < total_samples vobs)%Z
             /\ float_of_int (total_samples vobs) = Ok m
             /\ vl = (total_loss vobs / m)%float
       | _, _ => False
       end.
Proof.
  unfold train_for_one_epoch. intro H.
  apply pbind_ok in H. destruct H as [start_time [s1 [H1 H]]].
  apply run_ok in H1. step H1 t0 s0 H0.
  rewrite time_time_reads in H0. inversion H0; subst t0 s0. clear H0.
  step H1 u s0 H0. apply on_torch_state in H0. destruct H0 as [Hd0 Hc0].
  step H1 u1 s0' H0'. apply on_data_ok in H0'. destruct H0' as [Hit Hc1].
  destruct u1.
  unfold ret in H1. inversion H1; subst start_time s0'. clear H1.
  simpl in Hd0, Hc0.
  apply pbind_ok in H. destruct H as [acc [s2 [H2 H]]].
  destruct (@for_in_accumulates T D _ (next_ train) _ _
              (keeps_data_train_batch torch profiler scaler)
              (@train_batch_reads R T D L torch profiler scaler)
              _ _ _ _ _ H2)
    as [xs [obs [Hy [Hc2 [Hall [Hl Hs]]]]]].
  apply pbind_ok in H. destruct H as [m [s3 [H3 H]]].
  apply run_ok in H3. unfold epoch_metrics in H3.
  step H3 u2 s4 H4.
  assert (Hf4 : datasets s4 = datasets s2 /\ clock s4 = clock s2).
  { destruct profiler.
    - apply on_torch_state in H4. exact H4.
    - unfold ret in H4. inversion H4. split; reflexivity. }
  destruct Hf4 as [Hd4 Hc4].
  step H3 end_time s5 H5. rewrite time_time_reads in H5.
  inversion H5; subst end_time s5. clear H5. cbv zeta in H3.
  step H3 n s6 H6. apply lift_ok in H6. destruct H6 as [H6 ->].
  step H3 thr s7 H7. apply lift_ok in H7. destruct H7 as [H7 ->].
  step H3 n' s8 H8. apply lift_ok in H8. destruct H8 as [H8 ->].
  step H3 tl' s9 H9. apply lift_ok in H9. destruct H9 as [H9 ->].
  unfold ret in H3. inversion H3; subst m s3. clear H3.
  apply pbind_ok in H. destruct H as [vl [s10 [H10 H]]].
  apply run_ok in H. unfold ret in H. simpl in H. inversion H; subst.
  clear H.
  apply validate_returns in H10. destruct H10 as [_ Hv]. simpl in Hv.
  rewrite Hs, total_samples_from in H6, H8. simpl in H6, H8.
  rewrite H6 in H8. inversion H8; subst n'. clear H8.
  destruct (mean_defined _ _ H6 H9) as [Hpos Htl].
  unfold truediv in H7.
  destruct (_ =? 0)%float eqn:Hdur in H7; [discriminate |].
  inversion H7; subst throughput. clear H7.
  rewrite Hc4, Hc2, Hc1, Hc0 in Hdur |- *. simpl in Hdur |- *.
  rewrite nth_tl in Hdur |- *.
  exists (datasets s1), (datasets s2), xs, obs, n.
  rewrite <- Hd0.
  split; [exact Hit |]. split; [exact Hy |]. split; [exact Hall |].
  split; [exact Hpos |]. split; [exact H6 |].
  split; [rewrite Htl, Hl; reflexivity |].
  split; [reflexivity |]. split; [exact Hdur |]. split; [reflexivity |].
  rewrite Hd4 in Hv. exact Hv.
Qed.

End EpochAccounting.

Section TerminationFacts.
Import Py Np Trainer.
Context {R : Type}.
Variables T D L : Type.
Variable torch : torch_calls R T L.

Lemma validate_terminates (valid : option (iterable D (batch R))) bound
  (s : session T D) :
  (forall v d3, valid = Some v -> iter_ v (datasets s) = (Ok tt, d3) ->
     exists vbatches e d4,
       yields (next_ v) d3 vbatches e d4 /\ List.length vbatches < bound) ->
  validate torch valid bound s <> None.
Proof.
  intro Hv. unfold validate. destruct valid as [v |]; [| discriminate].
  unfold pbind at 1, run at 1, bind at 1.
  pose proof (keeps_data_on_torch (D := D) (model_eval torch) s) as Hk.
  destruct (on_torch (model_eval torch) s) as [[u | e] s1]; [| discriminate].
  simpl in Hk. destruct Hk as [Hd1 _].
  unfold on_data at 1. rewrite Hd1.
  destruct (iter_ v (datasets s)) as [[[] | e] d3] eqn:Hit; [| discriminate].
  destruct (Hv v d3 eq_refl ltac:(first [exact Hit | reflexivity])) as [vb [e [d4 [Hy Hlen]]]].
  unfold pbind at 1.
  destruct (@for_in_terminates T D _ _ (next_ v) (valid_batch torch)
              (keeps_data_valid_batch torch) _ _ _ _ Hy bound (0%float, 0%Z)
              {| torch_objects := torch_objects s1; datasets := d3;
                 clock := clock s1 |} eq_refl Hlen)
    as [r [s2 [Hrun _]]].
  rewrite Hrun. destruct r; discriminate.
Qed.

Lemma epoch_metrics_datasets profiler start_time acc (s : session T D) :
  datasets (snd (epoch_metrics torch profiler start_time acc s)) = datasets s.
Proof.
  unfold epoch_metrics, bind at 1.
  assert (Hp : datasets
                 (snd ((if profiler then on_torch (profiler_stop torch)
                        else ret tt) s)) = datasets s).
  { destruct profiler; [apply keeps_data_on_torch | reflexivity]. }
  destruct ((if profiler then on_torch (profiler_stop torch) else ret tt) s)
    as [[u | e] s1]; simpl in Hp; [| exact Hp].
  unfold bind at 1. rewrite time_time_reads. cbv zeta.
  unfold bind, lift, ret, truediv.
  destruct (float_of_int (snd acc)) as [n | e1]; simpl; [| exact Hp].
  destruct (_ =? 0)%float; simpl; [exact Hp |].
  destruct (n =? 0)%float; simpl; exact Hp.
Qed.

(** X15. [train_for_one_epoch] comes to an end once its iterators do: if
    the training iterator raises after fewer batches than the bound, and
    the validation iterator (if there is one, and if training got that
    far) does too, the call returns or raises; it does not run on. *)
Theorem train_for_one_epoch_terminates
  (train : iterable D (batch R)) (valid : option (iterable D (batch R)))
  (profiler scaler : bool) (bound : nat) (s : session T D) :
  (forall d1, iter_ train (datasets s) = (Ok tt, d1) ->
     exists batches e d2,
       yields (next_ train) d1 batches e d2
       /\ List.length batches < bound
       /\ (e = StopIteration ->
           forall v d3, valid = Some v -> iter_ v d2 = (Ok tt, d3) ->
             exists vbatches e' d4,
               yields (next_ v) d3 vbatches e' d4
               /\ List.length vbatches < bound)) ->
  train_for_one_epoch torch train valid profiler scaler bound s <> None.
Proof.
  intro Ht. unfold train_for_one_epoch.
  unfold pbind at 1, run at 1, bind at 1. rewrite time_time_reads.
  unfold bind at 1.
  pose proof (keeps_data_on_torch (D := D) (model_train torch)
                {| torch_objects := torch_objects s; datasets := datasets s;
                   clock := tl (clock s) |}) as Hk.
  destruct (on_torch (model_train torch) _) as [[u | e] s1];
    [| discriminate].
  simpl in Hk. destruct Hk as [Hd1 _].
  unfold bind at 1, on_data at 1. rewrite Hd1.
  destruct (iter_ train (datasets s)) as [[[] | e] d1] eqn:Hit;
    [| discriminate].
  destruct (Ht d1 ltac:(first [exact Hit | reflexivity])) as [bs [e [d2 [Hy [Hlen Hvalid]]]]].
  unfold ret. unfold pbind at 1.
  destruct (@for_in_terminates T D _ _ (next_ train)
              (train_batch torch profiler scaler)
              (keeps_data_train_batch torch profiler scaler) _ _ _ _ Hy
              bound (0%float, 0%Z)
              {| torch_objects := torch_objects s1; datasets := d1;
                 clock := clock s1 |} eq_refl Hlen)
    as [r [s2 [Hrun Hok]]].
  rewrite Hrun. destruct r as [acc | e0]; [| discriminate].
  destruct (Hok eq_refl) as [He Hd2].
  unfold pbind at 1, run at 1.
  pose proof (epoch_metrics_datasets profiler (nth 0 (clock s) 0%float)
                acc s2) as Hm.
  destruct (epoch_metrics torch profiler _ acc s2) as [[m | e1] s3];
    [| discriminate].
  simpl in Hm. unfold pbind at 1.
  assert (Hv : validate torch valid bound s3 <> None).
  { apply validate_terminates. intros v d3 Hvv Hiv.
    rewrite Hm, Hd2 in Hiv. exact (Hvalid He v d3 Hvv Hiv). }
  destruct (validate torch valid bound s3) as [[[vl | e2] s4] |];
    [discriminate | discriminate | contradiction].
Qed.

End TerminationFacts.

Section DatasetEpochFacts.
Import Py Np Dataloader Trainer.
Context {R : Type} {NR : Numeric R}.
Variables T L : Type.
Variable torch : torch_calls R T L.

(** The loop of an epoch over a dataset whose index is set: it is over at
    once when the index has reached [batches_per_epoch], and is left with
    the exception of the first [next()] otherwise. *)
Lemma loop_over_the_dataset A
  (body : batch R -> A -> M (session T (world R)) A) (acc : A)
  (bound : nat) (s : session T (world R)) (i : Z) :
  _batch_idx (self (datasets s)) = Some i ->
  if (batches_per_epoch (self (datasets s)) <=? i)%Z
  then for_in (S bound) (on_data (next_ dataset_iterable)) body acc s
       = Some (Ok acc, s)
  else exists e,
         fst (__next__ (datasets s)) = Raise e /\ e <> StopIteration
         /\ for_in (S bound) (on_data (next_ dataset_iterable)) body acc s
            = Some (Raise e,
                    {| torch_objects := torch_objects s;
                       datasets := snd (__next__ (datasets s));
                       clock := clock s |}).
Proof.
  intro Hi.
  change (next_ dataset_iterable) with (__next__ (R := R)).
  destruct (batches_per_epoch (self (datasets s)) <=? i)%Z eqn:Hb.
  - cbn [for_in]. unfold on_data at 1.
    rewrite (next_at_end_of_epoch (datasets s) Hi Hb).
    destruct s; reflexivity.
  - destruct (next_within_epoch (datasets s) Hi Hb) as [e [He Hne]].
    exists e. split; [exact He |]. split; [exact Hne |].
    cbn [for_in]. unfold on_data at 1.
    destruct (__next__ (datasets s)) as [r w1]. simpl in He. subst r.
    destruct e; try contradiction; reflexivity.
Qed.

(** Lines 57-60 after an epoch without a sample: the division of line 60
    (or that of line 59) raises [ZeroDivisionError]. *)
Lemma empty_epoch_divides_by_zero start_time (x : float)
  (s : session T (world R)) :
  exists s',
    epoch_metrics torch false start_time (x, 0%Z) s
    = (Raise ZeroDivisionError, s')
    /\ torch_objects s' = torch_objects s.
Proof.
  unfold epoch_metrics. cbn [fst snd]. cbv zeta.
  unfold bind at 1, ret at 1.
  unfold bind at 1. rewrite time_time_reads.
  rewrite float_of_int_0. unfold bind at 1, lift at 1.
  unfold bind at 1, lift at 1, truediv.
  destruct (_ =? 0)%float; [eexists; split; reflexivity |].
  unfold bind at 1, lift at 1. unfold bind at 1, lift at 1.
  change (0 =? 0)%float with true. eexists; split; reflexivity.
Qed.

(** Lines 54-60 after an epoch without a sample: with a profiler,
    [profiler.stop()] comes first, and may raise. *)
Lemma empty_epoch_metrics profiler start_time (x : float)
  (s : session T (world R)) :
  exists e s',
    epoch_metrics torch profiler start_time (x, 0%Z) s = (Raise e, s')
    /\ (profiler = false ->
        e = ZeroDivisionError /\ torch_objects s' = torch_objects s)
    /\ (profiler = true ->
        torch_objects s' = snd (profiler_stop torch (torch_objects s))).
Proof.
  destruct profiler.
  - unfold epoch_metrics. unfold bind at 1, on_torch at 1.
    destruct (profiler_stop torch (torch_objects s)) as [[[] | e1] t2].
    + destruct (empty_epoch_divides_by_zero start_time x
                  {| torch_objects := t2; datasets := datasets s;
                     clock := clock s |}) as [s' [Hs Ht]].
      exists ZeroDivisionError, s'.
      split; [exact Hs |]. split; [discriminate | intros _; exact Ht].
    + eexists; eexists. split; [reflexivity |].
      split; [discriminate | intros _; reflexivity].
  - destruct (empty_epoch_divides_by_zero start_time x s) as [s' [Hs Ht]].
    exists ZeroDivisionError, s'. split; [exact Hs |].
    split; [intros _; split; [reflexivity | exact Ht] | discriminate].
Qed.

(** Lines 28-31 over a dataset: the clock is read, [model.train()] is
    called, and [iter()] sets the index of the dataset to 0. *)
Lemma epoch_start (valid : option (iterable (world R) (batch R)))
  (profiler scaler : bool) (bound : nat) (s : session T (world R)) :
  train_for_one_epoch torch dataset_iterable valid profiler scaler bound s
  = match model_train torch (torch_objects s) with
    | (Ok _, t1) =>
        pbind (for_in bound (on_data (next_ dataset_iterable))
                 (train_batch torch profiler scaler) (0%float, 0%Z))
          (fun acc =>
           pbind (run (epoch_metrics torch profiler
                         (nth 0 (clock s) 0%float) acc))
             (fun m =>
              pbind (validate torch valid bound)
                (fun valid_loss =>
                 run (ret (fst (fst m), valid_loss, snd (fst m), snd m)))))
          {| torch_objects := t1;
             datasets := snd (__iter__ (datasets s));
             clock := tl (clock s) |}
    | (Raise e, t1) =>
        Some (Raise e, {| torch_objects := t1; datasets := datasets s;
                          clock := tl (clock s) |})
    end.
Proof.
  unfold train_for_one_epoch.
  unfold pbind at 1, run at 1, bind at 1. rewrite time_time_reads.
  unfold bind at 1, on_torch at 1. cbn [torch_objects datasets clock].
  destruct (model_train torch (torch_objects s)) as [[[] | e0] t1];
    reflexivity.
Qed.

(** An epoch over a dataset raises. *)
Lemma epoch_over_the_dataset_raises
  (valid : option (iterable (world R) (batch R))) (profiler scaler : bool)
  (bound : nat) (s : session T (world R)) :
  exists e s',
    train_for_one_epoch torch dataset_iterable valid profiler scaler
      (S bound) s = Some (Raise e, s').
Proof.
  rewrite epoch_start.
  destruct (model_train torch (torch_objects s)) as [[[] | e0] t1];
    [| eexists; eexists; reflexivity].
  set (s1 := {| torch_objects := t1;
                datasets := snd (__iter__ (datasets s));
                clock := tl (clock s) |}).
  pose proof (@loop_over_the_dataset _
                (train_batch torch profiler scaler) (0%float, 0%Z) bound
                s1 0%Z eq_refl) as Hl.
  unfold pbind at 1.
  destruct (batches_per_epoch (self (datasets s1)) <=? 0)%Z.
  - rewrite Hl. unfold pbind at 1, run at 1.
    destruct (empty_epoch_metrics profiler (nth 0 (clock s) 0%float)
                0%float s1) as [e [s' [He _]]].
    rewrite He. exists e, s'. reflexivity.
  - destruct Hl as [e [_ [_ Hl]]]. rewrite Hl.
    eexists; eexists; reflexivity.
Qed.

(** X16. [train_for_one_epoch] over a [RandomWaveformDataset]: on any
    state of the dataset, of the torch objects and of the clock, the call
    raises. The torch objects see [model.train()] (and [profiler.stop()])
    and nothing else: no gradient is reset, no loss computed, no optimizer
    step taken. With [batches_per_epoch <= 0] the epoch is empty and line
    60 divides by zero; otherwise the exception is that of the first
    [next()]. *)
Theorem no_epoch_over_the_dataset
  (valid : option (iterable (world R) (batch R))) (profiler scaler : bool)
  (bound : nat) (s : session T (world R)) :
  exists e s',
    train_for_one_epoch torch dataset_iterable valid profiler scaler
      (S bound) s = Some (Raise e, s')
    /\ (torch_objects s' = snd (model_train torch (torch_objects s))
        \/ torch_objects s'
           = snd (profiler_stop torch
                    (snd (model_train torch (torch_objects s)))))
    /\ (is_ok (fst (model_train torch (torch_objects s))) = true ->
        if (batches_per_epoch (self (datasets s)) <=? 0)%Z
        then profiler = false -> e = ZeroDivisionError
        else fst (__next__ (snd (__iter__ (datasets s)))) = Raise e
             /\ e <> StopIteration).
Proof.
  rewrite epoch_start.
  destruct (model_train torch (torch_objects s)) as [[[] | e0] t1].
  2:{ eexists; eexists. split; [reflexivity |].
      split; [left; reflexivity | discriminate]. }
  set (s1 := {| torch_objects := t1;
                datasets := snd (__iter__ (datasets s));
                clock := tl (clock s) |}).
  pose proof (@loop_over_the_dataset _
                (train_batch torch profiler scaler) (0%float, 0%Z) bound
                s1 0%Z eq_refl) as Hl.
  change (batches_per_epoch (self (datasets s1)))
    with (batches_per_epoch (self (datasets s))) in Hl.
  change (datasets s1) with (snd (__iter__ (datasets s))) in Hl.
  unfold pbind at 1. cbn [snd].
  destruct (batches_per_epoch (self (datasets s)) <=? 0)%Z.
  - rewrite Hl. unfold pbind at 1, run at 1.
    destruct (empty_epoch_metrics profiler (nth 0 (clock s) 0%float)
                0%float s1) as [e [s' [He [Hoff Hon]]]].
    rewrite He. exists e, s'. split; [reflexivity |]. split.
    + destruct profiler.
      * right. apply Hon. reflexivity.
      * left. apply Hoff. reflexivity.
    + intros _ Hp. apply Hoff. exact Hp.
  - destruct Hl as [e [He [Hne Hl]]]. rewrite Hl.
    exists e. eexists. split; [reflexivity |].
    split; [left; reflexivity |]. intros _. split; assumption.
Qed.

(** X18. The loop of [train] over a [RandomWaveformDataset]: with
    [max_epochs <= 0] it returns the empty history at once, touching
    nothing; with [max_epochs > 0] it raises in its first epoch, so that no
    history is ever returned. *)
Theorem training_never_completes_an_epoch
  (valid : iterable (world R) (batch R)) (profile patience : bool)
  (early_stop max_epochs : Z) (bound : nat) (s : session T (world R)) :
  if (max_epochs <=? 0)%Z
  then training_loop torch dataset_iterable valid profile patience
         early_stop max_epochs bound s = Some (Ok ([], []), s)
  else exists e s',
         training_loop torch dataset_iterable valid profile patience
           early_stop max_epochs (S bound) s = Some (Raise e, s').
Proof.
  unfold training_loop, arange.
  destruct (Z.leb_spec max_epochs 0) as [Hle | Hgt].
  - replace (Z.to_nat max_epochs) with 0 by lia. reflexivity.
  - destruct (Z.to_nat max_epochs) as [| k] eqn:Hk; [lia |].
    cbn [seq map Z.of_nat epochs]. unfold pbind at 1. unfold pbind at 1.
    unfold run at 1.
    destruct ((if (0 =? 0)%Z && profile
               then on_torch (profiler_start torch) else ret tt) s)
      as [[u | e0] s1]; [| eexists; eexists; reflexivity].
    unfold pbind at 1.
    destruct (epoch_over_the_dataset_raises (Some valid)
                ((0 =? 0)%Z && profile) true bound s1) as [e [s2 He]].
    rewrite He. eexists; eexists; reflexivity.
Qed.

End DatasetEpochFacts.

Section FloatOrder.

Lemma SFltb_trans x y z :
  SFltb x y = true -> SFltb y z = true -> SFltb x z = true.
Proof.
  unfold SFltb.
  destruct x as [sx | sx | | sx mx ex], y as [sy | sy | | sy my ey],
    z as [sz | sz | | sz mz ez]; simpl;
    try discriminate; try reflexivity;
    try (destruct sx; simpl; try discriminate; try reflexivity;
         destruct sy; simpl; try discriminate; try reflexivity;
         destruct sz; simpl; try discriminate; reflexivity);
    try (destruct sx, sy; simpl; try discriminate; reflexivity);
    try (destruct sy, sz; simpl; try discriminate; reflexivity);
    try (destruct sx, sz; simpl; try discriminate; reflexivity).
  all: destruct sx, sy, sz; simpl; try discriminate; try reflexivity.
  all: change (PosDef.Pos.compare_cont Eq) with Pos.compare.
  all: destruct (Z.compare_spec ex ey), (Z.compare_spec ey ez),
         (Z.compare_spec ex ez); simpl; try discriminate; try reflexivity;
       try lia.
  all: destruct (Pos.compare_spec mx my), (Pos.compare_spec my mz),
         (Pos.compare_spec mx mz); simpl; try discriminate; try reflexivity;
       try lia.
Qed.

Lemma ltb_trans (x y z : float) :
  (x <? y)%float = true -> (y <? z)%float = true -> (x <? z)%float = true.
Proof. rewrite !FloatAxioms.ltb_spec. apply SFltb_trans. Qed.

Lemma ltb_irrefl (x : float) : (x <? x)%float = false.
Proof.
  rewrite FloatAxioms.ltb_spec. unfold SFltb.
  destruct (Prim2SF x) as [s | s | | s m e]; simpl; try reflexivity.
  - destruct s; reflexivity.
  - change (PosDef.Pos.compare_cont Eq) with Pos.compare.
    destruct s; rewrite Z.compare_refl, Pos.compare_refl; reflexivity.
Qed.

(** A loss that a new best loss beats no more than the old one did. *)
Lemma not_below_new_best (u v best : float) :
  (u <? best)%float = false -> (v <? best)%float = true ->
  (u <? v)%float = false.
Proof.
  intros Hu Hv. destruct (u <? v)%float eqn:Huv; [| reflexivity].
  rewrite (ltb_trans Huv Hv) in Hu. discriminate.
Qed.

End FloatOrder.

Section TrainingLoopFacts.
Import Py Np Trainer.
Context {R : Type}.
Variables T D L : Type.
Variable torch : torch_calls R T L.
Variables train valid : iterable D (batch R).
Variables profile patience : bool.
Variable early_stop : Z.

Lemma epoch_with_validation_set profiler scaler bound (s s' : session T D) r :
  train_for_one_epoch torch train (Some valid) profiler scaler bound s
  = Some (Ok r, s') ->
  exists v, snd (fst (fst r)) = Some v.
Proof.
  unfold train_for_one_epoch. intro H.
  apply pbind_ok in H. destruct H as [st [s1 [_ H]]].
  apply pbind_ok in H. destruct H as [acc [s2 [_ H]]].
  apply pbind_ok in H. destruct H as [m [s3 [_ H]]].
  apply pbind_ok in H. destruct H as [vl [s4 [Hv H]]].
  apply run_ok in H. unfold ret in H. inversion H; subst. simpl.
  apply validate_returns in Hv. destruct Hv as [_ Hv].
  destruct vl as [x |]; [exists x; reflexivity | contradiction].
Qed.

Lemma epochs_track_best bound todo :
  forall p s p' s',
    epochs torch train valid profile patience early_stop bound todo p s
    = Some (Ok p', s') ->
    tracks_best p ->
    (since_last_improvement p < early_stop
     \/ since_last_improvement p = 0)%Z ->
    tracks_best p'
    /\ List.length (history_train_loss p')
       <= List.length (history_train_loss p) + List.length todo
    /\ (List.length (history_train_loss p')
        < List.length (history_train_loss p) + List.length todo ->
        since_last_improvement p' = Z.max 1 early_stop).
Proof.
  induction todo as [| epoch rest IH]; intros p s p' s' H Hinv Hsince.
  - simpl in H. apply run_ok in H. unfold ret in H. inversion H; subst.
    split; [exact Hinv |]. simpl. split; lia.
  - cbn [epochs] in H. cbv zeta in H.
    apply pbind_ok in H. destruct H as [u [s1 [_ H]]].
    apply pbind_ok in H. destruct H as [r [s2 [Hr H]]].
    destruct (epoch_with_validation_set _ _ _ _ Hr) as [v Hv].
    rewrite Hv in H.
    apply pbind_ok in H. destruct H as [u1 [s3 [_ H]]].
    destruct Hinv as [pre [stale [Hh [Hlen [Hbest [Hmin Hlens]]]]]].
    destruct (v <? best_valid_loss p)%float eqn:Hlt.
    + apply pbind_ok in H. destruct H as [u2 [s4 [_ H]]].
      apply IH in H.
      * cbn [history_train_loss] in H. rewrite length_app in H.
        simpl in H. simpl. destruct H as [Ht [Hle Hearly]].
        split; [exact Ht |]. split; [lia |]. intro Hl. apply Hearly. lia.
      * exists (history_valid_loss p ++ [v]), [].
        cbn [history_valid_loss history_train_loss best_valid_loss
             since_last_improvement].
        split; [rewrite app_nil_r; reflexivity |].
        split; [reflexivity |].
        split; [right; apply in_or_app; right; left; reflexivity |].
        split.
        -- intros u0 Hu. apply in_app_or in Hu. destruct Hu as [Hu | Hu].
           ++ eapply not_below_new_best; [apply Hmin; exact Hu | exact Hlt].
           ++ destruct Hu as [<- | []]. apply ltb_irrefl.
        -- rewrite !length_app. simpl. lia.
      * right. reflexivity.
    + assert (Hnew : tracks_best
                {| best_valid_loss := best_valid_loss p;
                   since_last_improvement := since_last_improvement p + 1;
                   history_train_loss := history_train_loss p ++ [fst (fst (fst r))];
                   history_valid_loss := history_valid_loss p ++ [v] |}).
      { exists pre, (stale ++ [v]).
        cbn [history_valid_loss history_train_loss best_valid_loss
             since_last_improvement].
        split; [rewrite Hh, app_assoc; reflexivity |].
        split; [rewrite length_app; simpl; lia |].
        split; [exact Hbest |].
        split.
        - intros u0 Hu. apply in_app_or in Hu. destruct Hu as [Hu | Hu].
          + apply Hmin; exact Hu.
          + destruct Hu as [<- | []]. exact Hlt.
        - rewrite !length_app. simpl. lia. }
      destruct (early_stop <=? since_last_improvement p + 1)%Z eqn:Hstop.
      * apply run_ok in H. unfold ret in H. inversion H; subst p' s'.
        clear H. split; [exact Hnew |].
        cbn [history_train_loss since_last_improvement].
        rewrite length_app. simpl. split; [lia |].
        intros _. apply Z.leb_le in Hstop.
        assert (0 <= since_last_improvement p)%Z by lia. lia.
      * apply IH in H.
        -- cbn [history_train_loss] in H. rewrite length_app in H.
           simpl in H. simpl. destruct H as [Ht [Hle Hearly]].
           split; [exact Ht |]. split; [lia |]. intro Hl. apply Hearly. lia.
        -- exact Hnew.
        -- left. cbn [since_last_improvement]. apply Z.leb_gt in Hstop.
           exact Hstop.
Qed.

(** X17. The history the loop of [train] returns: every epoch run has
    recorded a training and a validation loss, and no more than
    [max_epochs] were run; when fewer were run (the loop stopped early),
    the last [max(1, early_stop)] validation losses came after the best
    one, which is [+inf] or a loss recorded before them, and which no
    recorded loss is below. *)
Theorem training_loop_history (max_epochs : Z) (bound : nat)
  (s s' : session T D) (trained validated : list float) :
  training_loop torch train valid profile patience early_stop max_epochs
    bound s = Some (Ok (trained, validated), s') ->
  List.length validated = List.length trained
  /\ List.length trained <= Z.to_nat max_epochs
  /\ (List.length trained < Z.to_nat max_epochs ->
      exists pre stale best,
        validated = pre ++ stale
        /\ Z.of_nat (List.length stale) = Z.max 1 early_stop
        /\ (best = infinity \/ In best pre)
        /\ forall u, In u validated -> (u <? best)%float = false).
Proof.
  unfold training_loop. intro H.
  apply pbind_ok in H. destruct H as [p [s1 [H Hret]]].
  apply run_ok in Hret. unfold ret in Hret. inversion Hret; subst.
  clear Hret.
  apply epochs_track_best in H.
  - cbn [history_train_loss] in H.
    rewrite arange_length in H. simpl in H.
    destruct H as [[pre [stale [Hh [Hlen [Hbest [Hmin Hlens]]]]]]
                     [Hle Hearly]].
    split; [exact Hlens |]. split; [exact Hle |].
    intro Hl. exists pre, stale, (best_valid_loss p).
    rewrite Hearly in Hlen by exact Hl.
    repeat split; assumption.
  - exists [], []. simpl. repeat split; try reflexivity.
    + left; reflexivity.
    + intros u [].
  - right. reflexivity.
Qed.

End TrainingLoopFacts.



(* ================================================================== *)
(** ** The theorems at concrete inputs                                 *)
(* ================================================================== *)

Section Instances.
Import Py Np Examples.

(** C6, at an input: with a pool of waveforms and [num_waveforms = 0] the
    waveform step is not skipped; it samples no waveform, passes the slice
    [X[-0:]] (the whole batch) to [inject_waveforms], and raises. *)
Lemma zero_waveforms_not_skipped :
  Dataloader.num_waveforms (Dataloader.self no_row_for_waveforms) = 0%Z
  /\ fst (Dataloader.waveform_step (ramp [4; 2; 2]) (ramp [4])
            no_row_for_waveforms)
     = Raise NotImplementedError
  /\ rbind (slice0 (ramp [4; 2; 2]) (Some (- 0)%Z) None)
           (fun background => Ok (shape background)) = Ok [4; 2; 2].
Proof. repeat split; vm_compute; reflexivity. Qed.

(** Lines 190-214 can run to their end: with the first raw draw odd, one
    glitch goes to each detector; row 0 gets example 2 of the first pool
    from its sample 3 on, row 1 example 0 of the second from its sample 1
    on, each in its own channel, and the rest of the batch is kept. *)
Lemma glitch_step_example :
  rbind (fst (Dataloader.glitch_step (ramp [4; 2; 2]) with_glitches))
        (fun X' => Ok (shape X',
                       map (item X') [[0; 0; 0]; [0; 0; 1]; [0; 1; 0];
                                      [1; 0; 0]; [1; 1; 0]; [1; 1; 1];
                                      [2; 0; 0]; [2; 1; 0]]))
  = Ok ([4; 2; 2], [23; 24; 10; 100; 1; 2; 200; 210]%Z).
Proof. vm_compute. reflexivity. Qed.

Lemma steps_skipped_without_source_witness :
  Dataloader.glitch_step (ramp [4; 2; 2]) plain = (Ok (ramp [4; 2; 2]), plain)
  /\ Dataloader.waveform_step (ramp [4; 2; 2]) (ramp [4]) plain
     = (Ok (ramp [4; 2; 2], ramp [4]), plain).
Proof.
  destruct (steps_skipped_without_source plain (ramp [4; 2; 2]) (ramp [4]))
    as [Hg Hw].
  split; [apply Hg | apply Hw]; reflexivity.
Defined.



Lemma construction_checks_then_stops_witness :
  Dataloader.__init__ flat_design files (arguments None 0.75 None 0.5) []
  = (Raise AssertionError, [])
  /\ Dataloader.__init__ flat_design files (arguments None nan None 0) []
     = (Raise AssertionError, [])
  /\ Dataloader.load_waveforms files
       (arguments (Some "waveforms.h5"%string) 0 None 0) []
     = (Raise AssertionError, [])
  /\ Dataloader.load_glitches files (arguments None 0 None 0.5) []
     = (Raise AssertionError, [])
  /\ Dataloader.check_fractions
       (arguments (Some "waveforms.h5"%string) 0.25
                  (Some "glitches.h5"%string) 0.5) [] = (Ok tt, [])
  /\ is_ok (fst (Dataloader.load_waveforms files
                   (arguments (Some "waveforms.h5"%string) 0.25
                              (Some "glitches.h5"%string) 0.5) [])) = true
  /\ is_ok (fst (Dataloader.load_glitches files
                   (arguments (Some "waveforms.h5"%string) 0.25
                              (Some "glitches.h5"%string) 0.5) [])) = true
  /\ Dataloader.__init__ flat_design files
       (arguments (Some "waveforms.h5"%string) 0.25
                  (Some "glitches.h5"%string) 0.5) []
     = (Raise TypeError, ["H1.h5"%string]).
Proof.
  split.
  { apply (proj1 (proj2 (construction_checks_then_stops flat_design files
                           (arguments None 0.75 None 0.5) []))).
    vm_compute; reflexivity. }
  split.
  { apply (proj1 (proj2 (construction_checks_then_stops flat_design files
                           (arguments None nan None 0) []))).
    vm_compute; reflexivity. }
  split.
  { apply (proj1 (proj2 (proj2 (construction_checks_then_stops flat_design
                                  files
                                  (arguments (Some "waveforms.h5"%string) 0
                                             None 0) [])))).
    vm_compute; reflexivity. }
  split.
  { apply (proj1 (proj2 (proj2 (proj2 (construction_checks_then_stops
                                         flat_design files
                                         (arguments None 0 None 0.5) []))))).
    vm_compute; reflexivity. }
  destruct (construction_checks_then_stops flat_design files
              (arguments (Some "waveforms.h5"%string) 0.25
                         (Some "glitches.h5"%string) 0.5) [])
    as [_ [_ [_ [_ [Hchecks [_ Hstops]]]]]].
  destruct (Hchecks ltac:(vm_compute; reflexivity)) as [Hc [Hw Hg]].
  split; [exact Hc |].
  split; [apply Hw; vm_compute; reflexivity |].
  split; [apply Hg; vm_compute; reflexivity |].
  eapply (proj2 (Hstops ltac:(vm_compute; reflexivity))); reflexivity.
Defined.

(** C9, at an input: a transform of two detectors sampled at 4 Hz, with a
    kernel of one second and an [fftlength] of two, whose filter has the
    shape (2, 8). With a design that returns four taps, [fit] returns and
    the filter has the shape (2, 4). *)
Lemma fit_changes_the_number_of_taps :
  Whitening.ntaps_of whitener = Ok 8%Z
  /\ shape (Whitening.time_domain_filter whitener) = [2; 8]
  /\ fst (Whitening.fit asd_of short_fir [ramp [32]; ramp [32]] whitener)
     = Ok tt
  /\ shape (Whitening.time_domain_filter
              (snd (Whitening.fit asd_of short_fir [ramp [32]; ramp [32]]
                      whitener)))
     = [2; 4].
Proof. repeat split; vm_compute; reflexivity. Qed.

Lemma fit_changes_only_the_filter_witness :
  let t' := snd (Whitening.fit asd_of fir_of [ramp [32]; ramp [32]] whitener) in
  fst (Whitening.fit asd_of fir_of [ramp [32]; ramp [32]] whitener) = Ok tt
  /\ Whitening.num_ifos t' = 2%Z
  /\ Whitening.sample_rate t' = 4%float
  /\ Whitening.kernel_length t' = 1%float
  /\ Whitening.fftlength t' = 2%float
  /\ Whitening.window t' = ramp [8]
  /\ Whitening.ntaps_of t' = Ok 8%Z
  /\ Whitening.shape0 (Whitening.time_domain_filter t') = Ok 2.
Proof.
  split; [vm_compute; reflexivity |].
  destruct (@fit_changes_only_the_filter Z asd_of fir_of whitener
              (snd (Whitening.fit asd_of fir_of [ramp [32]; ramp [32]]
                      whitener))
              [ramp [32]; ramp [32]] ltac:(vm_compute; reflexivity))
    as [H1 [H2 [H3 [H4 [H5 [H6 [H7 _]]]]]]].
  split; [exact H1 |]. split; [exact H2 |]. split; [exact H3 |].
  split; [exact H4 |]. split; [exact H5 |].
  split.
  - etransitivity; [exact H6 | vm_compute; reflexivity].
  - etransitivity; [exact H7 | vm_compute; reflexivity].
Defined.

(** C10, at an input: a transform sampled at 1 Hz with an [fftlength] of
    one second has a window of [int(1 * 1) = 1] sample; a batch of two
    samples per row differs from it in length, and yet the product with
    the window succeeds, and so does [forward] (with a filter of shape
    (2, 1, 1)). *)
Lemma one_sample_window_broadcasts :
  Whitening.ntaps_of whitener_1hz = Ok 1%Z
  /\ shape (Whitening.window whitener_1hz) = [1]
  /\ shape (ramp [1; 2; 2]) = [1; 2; 2]
  /\ 2 <> Z.to_nat 1
  /\ is_ok (rbind (Whitening.detrend (ramp [1; 2; 2]))
                  (Whitening.apply_window whitener_1hz)) = true
  /\ is_ok (Whitening.forward power whitener_1hz (ramp [1; 2; 2])) = true.
Proof. repeat split; try (vm_compute; reflexivity). discriminate. Qed.

Lemma forward_defined_iff_window_fits_witness :
  is_ok (rbind (Whitening.detrend (ramp [2; 2; 8]))
               (Whitening.apply_window whitener)) = true
  /\ Whitening.forward power whitener (ramp [2; 2; 4]) = Raise RuntimeError.
Proof.
  split.
  - apply (proj1 (@forward_defined_iff_window_fits Z _ power whitener
                    (ramp [2; 2; 8]) 2 2 8 8 eq_refl
                    ltac:(vm_compute; reflexivity) eq_refl)).
    left. reflexivity.
  - apply (proj2 (@forward_defined_iff_window_fits Z _ power whitener
                    (ramp [2; 2; 4]) 2 2 4 8 eq_refl
                    ltac:(vm_compute; reflexivity) eq_refl)).
    simpl. lia.
Defined.

End Instances.

Section MoreInstances.
Import Py Np Examples.

Ltac distinct :=
  repeat constructor; simpl; intuition discriminate.


Lemma background_offsets_witness :
  is_ok (fst (Dataloader.background_starts true plain)) = true
  /\ match fst (Dataloader.background_starts true plain) with
     | Ok (hs, ls) =>
         List.length hs = 4 /\ NoDup hs /\ List.length ls = 4 /\ NoDup ls
     | Raise _ => False
     end.
Proof.
  destruct (@background_offsets Z plain true 16 16 [] [] eq_refl eq_refl)
    as [Hiff Hpost].
  split.
  - apply Hiff. simpl. split; [lia | intros _; lia].
  - destruct (Dataloader.background_starts true plain)
      as [[[hs ls] | e] w'] eqn:Hrun.
    + destruct (Hpost hs ls w' eq_refl)
        as [_ [Hlh [Hnh [_ [Hll [Hnl _]]]]]].
      simpl. repeat split; assumption.
    + vm_compute in Hrun. discriminate.
Defined.

Lemma glitch_step_frame_witness :
  let r := Dataloader.glitch_step (ramp [4; 2; 2]) with_glitches in
  let X' := match fst r with Ok a => a | Raise _ => ramp [] end in
  shape X' = shape (ramp [4; 2; 2])
  /\ exists num_hanford,
       (0 <= num_hanford
        < Dataloader.num_glitches (Dataloader.self with_glitches))%Z
       /\ forall idx,
            item X' idx = item (ramp [4; 2; 2]) idx
            \/ (exists i r, idx = i :: 0 :: r
                  /\ (Z.of_nat i < num_hanford)%Z)
            \/ (exists i r, idx = i :: 1 :: r
                  /\ (num_hanford <= Z.of_nat i
                      < Dataloader.num_glitches
                          (Dataloader.self with_glitches))%Z).
Proof.
  intros r X'.
  apply (@glitch_step_frame Z with_glitches (snd r) (ramp [4; 2; 2]) X'
           (ramp [1])); [reflexivity | vm_compute; reflexivity].
Defined.

Lemma sample_from_array_crops_pool_examples_witness :
  exists segments w',
    Dataloader.sample_from_array (ramp [3; 2; 6]) 2 kernel_of_4
    = (Ok segments, w')
    /\ Dataloader.self w' = Dataloader.self kernel_of_4
    /\ List.length segments = 2
    /\ Forall (fun seg =>
         shape seg = [2; 4]
         /\ exists i start,
              (0 <= i < 3)%Z /\ (0 <= start < 6 - 4)%Z
              /\ forall pre k,
                   List.length pre = 1 -> k < 4 ->
                   item seg (pre ++ [k])
                   = item (ramp [3; 2; 6])
                          (Z.to_nat i :: pre ++ [Z.to_nat start + k]))
         segments.
Proof.
  apply (@sample_from_array_crops_pool_examples Z kernel_of_4
           (ramp [3; 2; 6]) 2 3 6 [2]);
    try reflexivity; simpl; lia.
Defined.

Lemma whiten_raises_witness :
  Dataloader.whiten (ramp [4; 2; 8]) plain = (Raise RuntimeError, plain)
  /\ Dataloader.whiten (ramp [2; 2; 2]) plain = (Raise AttributeError, plain).
Proof.
  split.
  - exact (@whiten_raises Z _ plain (ramp [4; 2; 8]) 4 2 8 eq_refl).
  - exact (@whiten_raises Z _ plain (ramp [2; 2; 2]) 2 2 2 eq_refl).
Defined.

Lemma load_background_stops_at_the_first_filter_witness :
  Dataloader.load_background flat_design files (arguments None 0 None 0) []
  = (Raise TypeError, ["H1.h5"%string])
  /\ Dataloader.load_background
       {| Dataloader.signal_welch := Dataloader.signal_welch flat_design;
          Dataloader.fir_from_transfer := fun _ _ => Raise ValueError |}
       files (arguments None 0 None 0) []
     = Dataloader.load_background flat_design files
         (arguments None 0 None 0) [].
Proof.
  destruct (@load_background_stops_at_the_first_filter Z flat_design files
              (arguments None 0 None 0) [])
    as [_ [_ [Htype Hsame]]].
  split.
  - eapply Htype; reflexivity.
  - apply Hsame. reflexivity.
Defined.

Lemma next_outside_an_epoch_witness :
  Dataloader.__next__ unstarted = (Raise AttributeError, unstarted)
  /\ Dataloader.next_calls 3 exhausted
     = ([Raise StopIteration; Raise StopIteration; Raise StopIteration],
        exhausted).
Proof.
  split.
  - apply (proj1 (@next_outside_an_epoch Z _ unstarted 0)). reflexivity.
  - apply (proj2 (@next_outside_an_epoch Z _ exhausted 3) 2%Z);
      [reflexivity | simpl; lia].
Defined.

Lemma fit_is_all_or_nothing_witness :
  Whitening.fit asd_of fir_of [ramp [32]; ramp [32]; ramp [32]] whitener
  = (Raise ValueError, whitener).
Proof.
  apply (proj1 (proj2 (@fit_is_all_or_nothing Z asd_of fir_of whitener
                         [ramp [32]; ramp [32]; ramp [32]])) 2);
    [reflexivity | simpl; lia].
Defined.

Lemma forward_needs_a_three_axis_filter_witness :
  is_ok (Whitening.forward power whitener (ramp [2; 2; 8])) = false
  /\ Whitening.forward power whitener (ramp [2; 2; 8]) = Raise RuntimeError.
Proof.
  destruct (@forward_needs_a_three_axis_filter Z _ power whitener
              (ramp [2; 2; 8]) ltac:(vm_compute; discriminate)) as [H1 H2].
  split; [exact H1 | apply (H2 2 2 8); reflexivity].
Defined.

Lemma train_for_one_epoch_returns_the_means_witness :
  exists d1 d2 batches obs n,
    Trainer.iter_ train_list (Trainer.datasets fresh) = (Ok tt, d1)
    /\ yields (Trainer.next_ train_list) d1 batches StopIteration d2
    /\ Forall2 (reads (Trainer.autocast_loss counting)
                      (Trainer.loss_item counting)) batches obs
    /\ (0 < total_samples obs)%Z
    /\ float_of_int (total_samples obs) = Ok n
    /\ 0.75%float = (total_loss obs / n)%float
    /\ 1%float = (nth 1 (Trainer.clock fresh) 0 - nth 0 (Trainer.clock fresh) 0)%float
    /\ (1 =? 0)%float = false
    /\ 4%float = (n / 1)%float
    /\ exists d3 vbatches vobs m,
         Trainer.iter_ valid_list d2 = (Ok tt, d3)
         /\ yields (Trainer.next_ valid_list) d3 vbatches StopIteration
                   ([], [])
         /\ Forall2 (reads (Trainer.no_grad_loss counting)
                           (Trainer.loss_item counting)) vbatches vobs
         /\ (0 < total_samples vobs)%Z
         /\ float_of_int (total_samples vobs) = Ok m
         /\ 1%float = (total_loss vobs / m)%float.
Proof.
  apply (@train_for_one_epoch_returns_the_means Z nat lists float counting
           train_list (Some valid_list) false true 5 fresh
           {| Trainer.torch_objects := 2;
              Trainer.datasets := ([], []);
              Trainer.clock := [2; 3; 4; 5; 6; 7]%float |}
           0.75%float (Some 1%float) 1%float 4%float).
  vm_compute. reflexivity.
Defined.

Lemma yields_training_set :
  yields (Trainer.next_ train_list) (training_set, []) training_set
         StopIteration ([], []).
Proof.
  unfold training_set.
  eapply yields_item; [reflexivity |].
  eapply yields_item; [reflexivity |].
  apply yields_end. reflexivity.
Qed.

Lemma yields_validation_set :
  yields (Trainer.next_ valid_list) ([], validation_set) validation_set
         StopIteration ([], []).
Proof.
  unfold validation_set.
  eapply yields_item; [reflexivity |].
  apply yields_end. reflexivity.
Qed.

Lemma train_for_one_epoch_terminates_witness :
  Trainer.train_for_one_epoch counting train_list (Some valid_list) false
    true 3 fresh <> None.
Proof.
  apply train_for_one_epoch_terminates.
  intros d1 Hd1. inversion Hd1; subst d1.
  exists training_set, StopIteration, ([], []).
  split; [exact yields_training_set |]. split; [simpl; lia |].
  intros _ v d3 Hv Hd3. inversion Hv; subst v. inversion Hd3; subst d3.
  exists validation_set, StopIteration, ([], []).
  split; [exact yields_validation_set | simpl; lia].
Defined.

Lemma training_loop_history_witness :
  List.length [1; 1]%float = List.length [0.75; 0.75]%float
  /\ List.length [0.75; 0.75]%float <= Z.to_nat 5
  /\ (List.length [0.75; 0.75]%float < Z.to_nat 5 ->
      exists pre stale best,
        [1; 1]%float = pre ++ stale
        /\ Z.of_nat (List.length stale) = Z.max 1 1
        /\ (best = infinity \/ In best pre)
        /\ forall u, In u [1; 1]%float -> (u <? best)%float = false).
Proof.
  apply (@training_loop_history Z nat lists float counting train_list
           valid_list false true 1 5 5 fresh
           {| Trainer.torch_objects := 4;
              Trainer.datasets := ([], []);
              Trainer.clock := [4; 5; 6; 7]%float |}).
  vm_compute. reflexivity.
Defined.

End MoreInstances.
